(** * Green Olive Chain backend: ledger programs and resilient controllers

    A shallow embedding of

    - the ledger program with embedded histories (the Go chaincode that
      declares [Waste], [Extraction], [Recycling], [History] and
      [TraceabilityInfo]): module [Chaincode];
    - the first ledger program, [blockchain/chaincode/waste.go]: module
      [LegacyChaincode];
    - the Node.js side: the client class exported by the enhanced-client
      module ([EnhancedClient]) and the three controllers
      ([WasteController], [ExtractionController], [RecyclingController]).

    Definitions come first: the programs, a sample runtime to run them
    on, and the terms the specification uses ([ChaincodeSpec],
    [ControllerSpec]).  The theorems follow in [ChaincodeFacts],
    [LegacyFacts] and [ControllerFacts]. *)

From Stdlib Require Import Floats Ascii.
From stdpp Require Import gmap strings list fin_maps sorting pretty.

Open Scope string_scope.
Set Warnings "-register-all".

(** ** Go values shared by both ledger programs *)

Module Go.

(** [error] values are modelled by their message; [Ok] stands for a nil
    error. *)
Inductive result (A : Type) : Type :=
| Ok (a : A)
| Err (msg : string).
Arguments Ok {A} a.
Arguments Err {A} msg.

Definition bindR {A B} (r : result A) (k : A -> result B) : result B :=
  match r with
  | Ok a => k a
  | Err e => Err e
  end.

Notation "'try' x := r 'in' k" := (bindR r (fun x => k))
  (at level 10, x name, r at level 100, k at level 200).

Fixpoint mapR {A B} (f : A -> result B) (l : list A) : result (list B) :=
  match l with
  | [] => Ok []
  | a :: rest =>
      try b := f a in
      try bs := mapR f rest in
      Ok (b :: bs)
  end.

Definition isOk {A} (r : result A) : bool :=
  match r with Ok _ => true | Err _ => false end.

(** A [float64] is a binary64 float. *)
Abbreviation float64 := float (only parsing).

Definition isFinite (f : float64) : bool :=
  negb (PrimFloat.is_nan f) && negb (PrimFloat.is_infinity f).

(** A JSON document, as [encoding/json] writes and reads it.  The world
    state holds byte strings; every byte string these programs store is
    the output of [json.Marshal], so the model keeps the document itself.
    Strings are taken to be valid UTF-8, which [json.Marshal] and
    [json.Unmarshal] preserve.  A number literal is kept as its value at
    the numeric type [num] of the program's fields (float64 in one
    program, int in the other). *)
Inductive json (num : Type) : Type :=
| JNull
| JString (s : string)
| JNumber (n : num)
| JArray (items : list (json num))
| JObject (members : list (string * json num)).
Arguments JNull {num}.
Arguments JString {num} s.
Arguments JNumber {num} n.
Arguments JArray {num} items.
Arguments JObject {num} members.

Section Decoding.
Context {num : Type}.

(** The member a decoder ends up with for a key: members are decoded in
    order, so a later duplicate overwrites an earlier one.  Keys are
    matched as [json.Marshal] wrote them (the decoder's fallback to a
    match that ignores case is never needed on a stored document). *)
Fixpoint member (name : string) (ms : list (string * json num))
  : option (json num) :=
  match ms with
  | [] => None
  | (k, v) :: rest =>
      match member name rest with
      | Some v' => Some v'
      | None => if String.eqb k name then Some v else None
      end
  end.

(** Decoding into a zero-valued struct: an absent member and [null] leave
    the field at its zero value; a value of another JSON type is an
    [UnmarshalTypeError]. *)
Definition decodeString (field : string) (ms : list (string * json num))
  : result string :=
  match member field ms with
  | None | Some JNull => Ok ""
  | Some (JString s) => Ok s
  | Some _ => Err ("json: cannot unmarshal into Go struct field "
                   +:+ field +:+ " of type string")
  end.

(** A number literal outside the range of the field's type is rejected,
    which [inRange] decides. *)
Definition decodeNumber (inRange : num -> bool) (zero : num)
  (field : string) (ms : list (string * json num)) : result num :=
  match member field ms with
  | None | Some JNull => Ok zero
  | Some (JNumber n) =>
      if inRange n then Ok n
      else Err ("json: cannot unmarshal number into Go struct field "
                +:+ field)
  | Some _ => Err ("json: cannot unmarshal into Go struct field " +:+ field)
  end.

Definition decodeSlice {A} (decode : json num -> result A) (field : string)
  (ms : list (string * json num)) : result (list A) :=
  match member field ms with
  | None | Some JNull => Ok []
  | Some (JArray items) => mapR decode items
  | Some _ => Err ("json: cannot unmarshal into Go struct field " +:+ field)
  end.

(** A field tagged [omitempty] is left out when it is the empty string. *)
Definition omitempty (name value : string) : list (string * json num) :=
  if String.eqb value "" then [] else [(name, JString value)].

End Decoding.

(** A decoded float64 is finite. *)
Definition decodeFloat := decodeNumber isFinite 0%float.

(** [json.Marshal] fails on a float64 that is NaN or infinite. *)
Definition unsupportedValue (f : float64) : string :=
  "json: unsupported value: "
  +:+ (if PrimFloat.is_nan f then "NaN"
       else if PrimFloat.ltb f 0%float then "-Inf" else "+Inf").

(** The state database orders keys byte-wise.  Keys of the range
    [[startKey, endKey)]; an empty [endKey] leaves the range open. *)
Definition inRange (startKey endKey key : string) : bool :=
  String.leb startKey key && (String.eqb endKey "" || String.ltb key endKey).

End Go.
Export Go.

(** ** The ledger interface both programs run against *)

Module Fabric.

(** The readings of [time.Now().Format(time.RFC3339)], in the order they
    are taken. *)
Class Clock := clock : nat -> string.

Section Stub.
Context {num : Type}.

(** The transaction context

    [ctx.GetStub()] reads the committed world state ([GetState],
    [GetStateByRange]) and collects the writes of the running transaction
    ([PutState]); the peer applies the write set when the function returns
    a nil error and drops it when the function returns an error.  The
    context also counts the clock readings taken so far. *)
Record TxContext := {
  committed : gmap string (json num);
  writes : gmap string (json num);
  ticks : nat
}.

Definition Tx (A : Type) : Type := TxContext -> result A * TxContext.

Definition ret {A} (a : A) : Tx A := fun c => (Ok a, c).

Definition fail {A} (msg : string) : Tx A := fun c => (Err msg, c).

Definition bind {A B} (m : Tx A) (k : A -> Tx B) : Tx B :=
  fun c =>
    match m c with
    | (Ok a, c') => k a c'
    | (Err e, c') => (Err e, c')
    end.

Notation "'let*' x := m 'in' k" := (bind m (fun x => k))
  (at level 10, x name, m at level 100, k at level 200).

Definition liftR {A} (r : result A) : Tx A := fun c => (r, c).

(** [fmt.Errorf(".. %v", err)] on the error path of [m]. *)
Definition wrapErr {A} (f : string -> string) (m : Tx A) : Tx A :=
  fun c =>
    match m c with
    | (Ok a, c') => (Ok a, c')
    | (Err e, c') => (Err (f e), c')
    end.

Definition GetState (key : string) : Tx (option (json num)) :=
  fun c => (Ok (committed c !! key), c).

Definition PutState (key : string) (value : json num) : Tx unit :=
  fun c =>
    if String.eqb key "" then (Err "key must not be an empty string", c)
    else (Ok tt, {| committed := committed c;
                    writes := <[key := value]> (writes c);
                    ticks := ticks c |}).

(** The entries of a range, in key order. *)
Definition keyLe (a b : string * json num) : Prop :=
  Is_true (String.leb a.1 b.1).

#[global] Instance keyLe_dec a b : Decision (keyLe a b).
Proof. unfold keyLe. apply _. Defined.

Definition rangeOf (startKey endKey : string)
  (state : gmap string (json num)) : list (string * json num) :=
  merge_sort keyLe
    (List.filter (fun kv => inRange startKey endKey kv.1) (map_to_list state)).

Definition GetStateByRange (startKey endKey : string)
  : Tx (list (string * json num)) :=
  fun c => (Ok (rangeOf startKey endKey (committed c)), c).

(** [time.Now().Format(time.RFC3339)] *)
Definition timeNow `{Clock} : Tx string :=
  fun c => (Ok (clock (ticks c)),
            {| committed := committed c; writes := writes c;
               ticks := S (ticks c) |}).

(** The ledger between transactions, and one transaction run on it. *)
Record World := {
  ledger : gmap string (json num);
  readings : nat
}.

Definition begin (w : World) : TxContext :=
  {| committed := ledger w; writes := ∅; ticks := readings w |}.

Definition submit {A} (tx : Tx A) (w : World) : result A * World :=
  match tx (begin w) with
  | (Ok a, c) => (Ok a, {| ledger := writes c ∪ ledger w;
                          readings := ticks c |})
  | (Err e, c) => (Err e, {| ledger := ledger w; readings := ticks c |})
  end.

End Stub.

Arguments TxContext num : clear implicits.
Arguments World num : clear implicits.
Arguments Tx num A : clear implicits.

Notation "'let*' x := m 'in' k" := (bind m (fun x => k))
  (at level 10, x name, m at level 100, k at level 200).

End Fabric.
Export Fabric.

(** ** The ledger program with histories *)

Module Chaincode.

(** [fmt]'s rendering of a float64 under the verb [%.2f]. *)
Class Fmt := sprintf_2f : float64 -> string.

Abbreviation Tx := (Fabric.Tx float64).

(** History represents a change in the lifecycle. *)
Record History := {
  h_Timestamp : string;
  h_Action : string;
  h_Actor : string;
  h_Details : string
}.

(** Waste represents agricultural waste in the blockchain. *)
Record Waste := {
  w_ID : string;
  w_Type : string;
  w_Quantity : float64;
  w_HarvestDate : string;
  w_Status : string;
  w_Owner : string;
  w_Farm : string;
  w_Location : string;
  w_CreatedAt : string;
  w_UpdatedAt : string;
  w_History : list History
}.

(** Extraction represents the extraction process. *)
Record Extraction := {
  e_ID : string;
  e_WasteID : string;
  e_ProductType : string;
  e_Quantity : float64;
  e_Quality : string;
  e_ExtractionDate : string;
  e_Processor : string;
  e_Status : string;
  e_CreatedAt : string;
  e_History : list History
}.

(** Recycling represents the recycling process. *)
Record Recycling := {
  r_ID : string;
  r_WasteID : string;
  r_RecycledProduct : string;
  r_Quantity : float64;
  r_Method : string;
  r_RecyclingDate : string;
  r_Recycler : string;
  r_Status : string;
  r_CreatedAt : string;
  r_History : list History
}.

(** TraceabilityInfo provides the complete traceability chain; a nil
    pointer is [None]. *)
Record TraceabilityInfo := {
  t_Waste : option Waste;
  t_Extraction : option Extraction;
  t_Recycling : option Recycling;
  t_Chain : list History
}.

(** *** [json.Marshal] and [json.Unmarshal] at the four struct types *)

Definition marshalHistory (h : History) : json float64 :=
  JObject [("timestamp", JString (h_Timestamp h));
           ("action", JString (h_Action h));
           ("actor", JString (h_Actor h));
           ("details", JString (h_Details h))].

Definition unmarshalHistory (j : json float64) : result History :=
  match j with
  | JNull => Ok {| h_Timestamp := ""; h_Action := ""; h_Actor := "";
                   h_Details := "" |}
  | JObject ms =>
      try ts := decodeString "timestamp" ms in
      try action := decodeString "action" ms in
      try actor := decodeString "actor" ms in
      try details := decodeString "details" ms in
      Ok {| h_Timestamp := ts; h_Action := action; h_Actor := actor;
            h_Details := details |}
  | _ => Err "json: cannot unmarshal into Go value of type main.History"
  end.

Definition marshalWaste (w : Waste) : result (json float64) :=
  if isFinite (w_Quantity w) then
    Ok (JObject
          ([("id", JString (w_ID w));
            ("type", JString (w_Type w));
            ("quantity", JNumber (w_Quantity w));
            ("harvestDate", JString (w_HarvestDate w));
            ("status", JString (w_Status w));
            ("owner", JString (w_Owner w))]
           ++ omitempty "farm" (w_Farm w)
           ++ omitempty "location" (w_Location w)
           ++ [("createdAt", JString (w_CreatedAt w));
               ("updatedAt", JString (w_UpdatedAt w));
               ("history", JArray (map marshalHistory (w_History w)))]))
  else Err (unsupportedValue (w_Quantity w)).

Definition zeroWaste : Waste :=
  {| w_ID := ""; w_Type := ""; w_Quantity := 0%float; w_HarvestDate := "";
     w_Status := ""; w_Owner := ""; w_Farm := ""; w_Location := "";
     w_CreatedAt := ""; w_UpdatedAt := ""; w_History := [] |}.

Definition unmarshalWaste (j : json float64) : result Waste :=
  match j with
  | JNull => Ok zeroWaste
  | JObject ms =>
      try id := decodeString "id" ms in
      try type := decodeString "type" ms in
      try quantity := decodeFloat "quantity" ms in
      try harvestDate := decodeString "harvestDate" ms in
      try status := decodeString "status" ms in
      try owner := decodeString "owner" ms in
      try farm := decodeString "farm" ms in
      try location := decodeString "location" ms in
      try createdAt := decodeString "createdAt" ms in
      try updatedAt := decodeString "updatedAt" ms in
      try history := decodeSlice unmarshalHistory "history" ms in
      Ok {| w_ID := id; w_Type := type; w_Quantity := quantity;
            w_HarvestDate := harvestDate; w_Status := status;
            w_Owner := owner; w_Farm := farm; w_Location := location;
            w_CreatedAt := createdAt; w_UpdatedAt := updatedAt;
            w_History := history |}
  | _ => Err "json: cannot unmarshal into Go value of type main.Waste"
  end.

Definition marshalExtraction (e : Extraction) : result (json float64) :=
  if isFinite (e_Quantity e) then
    Ok (JObject
          [("id", JString (e_ID e));
           ("wasteId", JString (e_WasteID e));
           ("productType", JString (e_ProductType e));
           ("quantity", JNumber (e_Quantity e));
           ("quality", JString (e_Quality e));
           ("extractionDate", JString (e_ExtractionDate e));
           ("processor", JString (e_Processor e));
           ("status", JString (e_Status e));
           ("createdAt", JString (e_CreatedAt e));
           ("history", JArray (map marshalHistory (e_History e)))])
  else Err (unsupportedValue (e_Quantity e)).

Definition zeroExtraction : Extraction :=
  {| e_ID := ""; e_WasteID := ""; e_ProductType := "";
     e_Quantity := 0%float; e_Quality := ""; e_ExtractionDate := "";
     e_Processor := ""; e_Status := ""; e_CreatedAt := "";
     e_History := [] |}.

Definition unmarshalExtraction (j : json float64) : result Extraction :=
  match j with
  | JNull => Ok zeroExtraction
  | JObject ms =>
      try id := decodeString "id" ms in
      try wasteId := decodeString "wasteId" ms in
      try productType := decodeString "productType" ms in
      try quantity := decodeFloat "quantity" ms in
      try quality := decodeString "quality" ms in
      try extractionDate := decodeString "extractionDate" ms in
      try processor := decodeString "processor" ms in
      try status := decodeString "status" ms in
      try createdAt := decodeString "createdAt" ms in
      try history := decodeSlice unmarshalHistory "history" ms in
      Ok {| e_ID := id; e_WasteID := wasteId; e_ProductType := productType;
            e_Quantity := quantity; e_Quality := quality;
            e_ExtractionDate := extractionDate; e_Processor := processor;
            e_Status := status; e_CreatedAt := createdAt;
            e_History := history |}
  | _ => Err "json: cannot unmarshal into Go value of type main.Extraction"
  end.

Definition marshalRecycling (r : Recycling) : result (json float64) :=
  if isFinite (r_Quantity r) then
    Ok (JObject
          [("id", JString (r_ID r));
           ("wasteId", JString (r_WasteID r));
           ("recycledProduct", JString (r_RecycledProduct r));
           ("quantity", JNumber (r_Quantity r));
           ("method", JString (r_Method r));
           ("recyclingDate", JString (r_RecyclingDate r));
           ("recycler", JString (r_Recycler r));
           ("status", JString (r_Status r));
           ("createdAt", JString (r_CreatedAt r));
           ("history", JArray (map marshalHistory (r_History r)))])
  else Err (unsupportedValue (r_Quantity r)).

Definition zeroRecycling : Recycling :=
  {| r_ID := ""; r_WasteID := ""; r_RecycledProduct := "";
     r_Quantity := 0%float; r_Method := ""; r_RecyclingDate := "";
     r_Recycler := ""; r_Status := ""; r_CreatedAt := "";
     r_History := [] |}.

Definition unmarshalRecycling (j : json float64) : result Recycling :=
  match j with
  | JNull => Ok zeroRecycling
  | JObject ms =>
      try id := decodeString "id" ms in
      try wasteId := decodeString "wasteId" ms in
      try recycledProduct := decodeString "recycledProduct" ms in
      try quantity := decodeFloat "quantity" ms in
      try method := decodeString "method" ms in
      try recyclingDate := decodeString "recyclingDate" ms in
      try recycler := decodeString "recycler" ms in
      try status := decodeString "status" ms in
      try createdAt := decodeString "createdAt" ms in
      try history := decodeSlice unmarshalHistory "history" ms in
      Ok {| r_ID := id; r_WasteID := wasteId;
            r_RecycledProduct := recycledProduct; r_Quantity := quantity;
            r_Method := method; r_RecyclingDate := recyclingDate;
            r_Recycler := recycler; r_Status := status;
            r_CreatedAt := createdAt; r_History := history |}
  | _ => Err "json: cannot unmarshal into Go value of type main.Recycling"
  end.

(** *** The smart contract *)

Definition set_Status (w : Waste) (s : string) : Waste :=
  {| w_ID := w_ID w; w_Type := w_Type w; w_Quantity := w_Quantity w;
     w_HarvestDate := w_HarvestDate w; w_Status := s; w_Owner := w_Owner w;
     w_Farm := w_Farm w; w_Location := w_Location w;
     w_CreatedAt := w_CreatedAt w; w_UpdatedAt := w_UpdatedAt w;
     w_History := w_History w |}.

Definition set_UpdatedAt (w : Waste) (t : string) : Waste :=
  {| w_ID := w_ID w; w_Type := w_Type w; w_Quantity := w_Quantity w;
     w_HarvestDate := w_HarvestDate w; w_Status := w_Status w;
     w_Owner := w_Owner w; w_Farm := w_Farm w; w_Location := w_Location w;
     w_CreatedAt := w_CreatedAt w; w_UpdatedAt := t;
     w_History := w_History w |}.

Definition set_History (w : Waste) (h : list History) : Waste :=
  {| w_ID := w_ID w; w_Type := w_Type w; w_Quantity := w_Quantity w;
     w_HarvestDate := w_HarvestDate w; w_Status := w_Status w;
     w_Owner := w_Owner w; w_Farm := w_Farm w; w_Location := w_Location w;
     w_CreatedAt := w_CreatedAt w; w_UpdatedAt := w_UpdatedAt w;
     w_History := h |}.

Section SmartContract.
Context `{Clock} `{Fmt}.

(** WasteExists returns true when waste with given ID exists in world
    state. *)
Definition WasteExists (id : string) : Tx bool :=
  let* wasteJSON :=
    wrapErr (fun err => "failed to read waste " +:+ id +:+ ": " +:+ err)
      (GetState ("WASTE_" +:+ id)) in
  ret (match wasteJSON with Some _ => true | None => false end).

(** InitLedger initializes the ledger with sample data. *)
Definition InitLedger : Tx unit :=
  let* createdAt := timeNow in
  let* updatedAt := timeNow in
  let* timestamp := timeNow in
  let waste :=
    {| w_ID := "waste1"; w_Type := "Olive Branches";
       w_Quantity := 50.5%float; w_HarvestDate := "2025-06-01";
       w_Status := "COLLECTED"; w_Owner := "farmer1";
       w_Farm := "Olive Farm Alpha"; w_Location := "Andalusia, Spain";
       w_CreatedAt := createdAt; w_UpdatedAt := updatedAt;
       w_History :=
         [{| h_Timestamp := timestamp; h_Action := "CREATED";
             h_Actor := "farmer1";
             h_Details := "Initial waste collection" |}] |} in
  let* wasteJSON := liftR (marshalWaste waste) in
  wrapErr (fun err => "failed to put waste " +:+ w_ID waste +:+ ": " +:+ err)
    (PutState ("WASTE_" +:+ w_ID waste) wasteJSON).

(** CreateWaste adds new waste to the blockchain. *)
Definition CreateWaste (id wasteType : string) (quantity : float64)
  (harvestDate owner farm location : string) : Tx unit :=
  let* exists_ := WasteExists id in
  if exists_ : bool then fail ("waste " +:+ id +:+ " already exists")
  else
    let* createdAt := timeNow in
    let* updatedAt := timeNow in
    let* timestamp := timeNow in
    let waste :=
      {| w_ID := id; w_Type := wasteType; w_Quantity := quantity;
         w_HarvestDate := harvestDate; w_Status := "COLLECTED";
         w_Owner := owner; w_Farm := farm; w_Location := location;
         w_CreatedAt := createdAt; w_UpdatedAt := updatedAt;
         w_History :=
           [{| h_Timestamp := timestamp; h_Action := "CREATED";
               h_Actor := owner;
               h_Details := "Waste collected: " +:+ wasteType
                            +:+ ", Quantity: " +:+ sprintf_2f quantity |}]
      |} in
    let* wasteJSON := liftR (marshalWaste waste) in
    PutState ("WASTE_" +:+ id) wasteJSON.

(** ReadWaste returns the waste stored in the world state with given id. *)
Definition ReadWaste (id : string) : Tx Waste :=
  let* wasteJSON :=
    wrapErr (fun err => "failed to read waste " +:+ id +:+ ": " +:+ err)
      (GetState ("WASTE_" +:+ id)) in
  match wasteJSON with
  | None => fail ("waste " +:+ id +:+ " does not exist")
  | Some j => liftR (unmarshalWaste j)
  end.

(** UpdateWasteStatus updates the status of a waste item. *)
Definition UpdateWasteStatus (id newStatus actor details : string)
  : Tx unit :=
  let* waste := ReadWaste id in
  let oldStatus := w_Status waste in
  let waste := set_Status waste newStatus in
  let* updatedAt := timeNow in
  let waste := set_UpdatedAt waste updatedAt in
  let* timestamp := timeNow in
  let historyEntry :=
    {| h_Timestamp := timestamp; h_Action := "STATUS_CHANGED";
       h_Actor := actor;
       h_Details := "Status changed from " +:+ oldStatus +:+ " to "
                    +:+ newStatus +:+ ". " +:+ details |} in
  let waste := set_History waste (w_History waste ++ [historyEntry]) in
  let* wasteJSON := liftR (marshalWaste waste) in
  PutState ("WASTE_" +:+ id) wasteJSON.

(** CreateExtraction records extraction process. *)
Definition CreateExtraction (id wasteId productType : string)
  (quantity : float64) (quality processor : string) : Tx unit :=
  let* _ := wrapErr (fun err => "source waste not found: " +:+ err)
              (ReadWaste wasteId) in
  let* extractionJSON := GetState ("EXTRACTION_" +:+ id) in
  match extractionJSON with
  | Some _ => fail ("extraction " +:+ id +:+ " already exists")
  | None =>
      let* extractionDate := timeNow in
      let* createdAt := timeNow in
      let* timestamp := timeNow in
      let extraction :=
        {| e_ID := id; e_WasteID := wasteId; e_ProductType := productType;
           e_Quantity := quantity; e_Quality := quality;
           e_ExtractionDate := extractionDate; e_Processor := processor;
           e_Status := "PROCESSED"; e_CreatedAt := createdAt;
           e_History :=
             [{| h_Timestamp := timestamp; h_Action := "EXTRACTED";
                 h_Actor := processor;
                 h_Details := "Extracted " +:+ productType +:+ " ("
                              +:+ sprintf_2f quantity
                              +:+ " units) from waste " +:+ wasteId |}] |} in
      let* extractionJSON := liftR (marshalExtraction extraction) in
      let* _ := PutState ("EXTRACTION_" +:+ id) extractionJSON in
      UpdateWasteStatus wasteId "PROCESSED" processor
        ("Used for " +:+ productType +:+ " extraction")
  end.

(** CreateRecycling records recycling process. *)
Definition CreateRecycling (id wasteId recycledProduct : string)
  (quantity : float64) (method recycler : string) : Tx unit :=
  let* _ := wrapErr (fun err => "source waste not found: " +:+ err)
              (ReadWaste wasteId) in
  let* recyclingJSON := GetState ("RECYCLING_" +:+ id) in
  match recyclingJSON with
  | Some _ => fail ("recycling " +:+ id +:+ " already exists")
  | None =>
      let* recyclingDate := timeNow in
      let* createdAt := timeNow in
      let* timestamp := timeNow in
      let recycling :=
        {| r_ID := id; r_WasteID := wasteId;
           r_RecycledProduct := recycledProduct; r_Quantity := quantity;
           r_Method := method; r_RecyclingDate := recyclingDate;
           r_Recycler := recycler; r_Status := "COMPLETED";
           r_CreatedAt := createdAt;
           r_History :=
             [{| h_Timestamp := timestamp; h_Action := "RECYCLED";
                 h_Actor := recycler;
                 h_Details := "Recycled waste " +:+ wasteId +:+ " into "
                              +:+ recycledProduct +:+ " ("
                              +:+ sprintf_2f quantity +:+ " units) using "
                              +:+ method |}] |} in
      let* recyclingJSON := liftR (marshalRecycling recycling) in
      let* _ := PutState ("RECYCLING_" +:+ id) recyclingJSON in
      UpdateWasteStatus wasteId "RECYCLED" recycler
        ("Recycled into " +:+ recycledProduct +:+ " using " +:+ method)
  end.


(** GetAllExtractions returns all extraction records. *)
Definition GetAllExtractions : Tx (list Extraction) :=
  let* resultsIterator := GetStateByRange "EXTRACTION_" "EXTRACTION_~" in
  liftR (mapR (fun kv => unmarshalExtraction kv.2) resultsIterator).


(** The first loop of GetTraceability: a record that does not decode is
    skipped ([continue]); the first one whose WasteID is [wasteId] is
    attached and its history appended, and the loop ends ([break]). *)
Fixpoint scanExtractions (wasteId : string) (it : list (string * json float64))
  (traceInfo : TraceabilityInfo) : TraceabilityInfo :=
  match it with
  | [] => traceInfo
  | queryResponse :: rest =>
      match unmarshalExtraction queryResponse.2 with
      | Err _ => scanExtractions wasteId rest traceInfo
      | Ok extraction =>
          if String.eqb (e_WasteID extraction) wasteId then
            {| t_Waste := t_Waste traceInfo;
               t_Extraction := Some extraction;
               t_Recycling := t_Recycling traceInfo;
               t_Chain := t_Chain traceInfo ++ e_History extraction |}
          else scanExtractions wasteId rest traceInfo
      end
  end.

(** The second loop, over the recyclings. *)
Fixpoint scanRecyclings (wasteId : string) (it : list (string * json float64))
  (traceInfo : TraceabilityInfo) : TraceabilityInfo :=
  match it with
  | [] => traceInfo
  | queryResponse :: rest =>
      match unmarshalRecycling queryResponse.2 with
      | Err _ => scanRecyclings wasteId rest traceInfo
      | Ok recycling =>
          if String.eqb (r_WasteID recycling) wasteId then
            {| t_Waste := t_Waste traceInfo;
               t_Extraction := t_Extraction traceInfo;
               t_Recycling := Some recycling;
               t_Chain := t_Chain traceInfo ++ r_History recycling |}
          else scanRecyclings wasteId rest traceInfo
      end
  end.

(** GetTraceability provides complete traceability for a waste item. *)
Definition GetTraceability (wasteId : string) : Tx TraceabilityInfo :=
  let* waste := ReadWaste wasteId in
  let traceInfo :=
    {| t_Waste := Some waste; t_Extraction := None; t_Recycling := None;
       t_Chain := w_History waste |} in
  let* extractionsIterator := GetStateByRange "EXTRACTION_" "EXTRACTION_~" in
  let traceInfo := scanExtractions wasteId extractionsIterator traceInfo in
  let* recyclingsIterator := GetStateByRange "RECYCLING_" "RECYCLING_~" in
  let traceInfo := scanRecyclings wasteId recyclingsIterator traceInfo in
  ret traceInfo.

(** GetWasteHistory returns the history of changes for a waste item. *)
Definition GetWasteHistory (id : string) : Tx (list History) :=
  let* waste := ReadWaste id in
  ret (w_History waste).

End SmartContract.

End Chaincode.

(** ** The first ledger program, [blockchain/chaincode/waste.go] *)

Module LegacyChaincode.

(** Whether [time.Parse("2006-01-02", s)] accepts [s]. *)
Class TimeParse := validDate : string -> bool.

Abbreviation Tx := (Fabric.Tx Z).

(** Waste represents an agricultural waste in the blockchain; [int] has
    64 bits. *)
Record Waste := {
  l_ID : string;
  l_Type : string;
  l_Quantity : Z;
  l_HarvestDate : string;
  l_Status : string;
  l_Owner : string;
  l_CreatedAt : string;
  l_UpdatedAt : string
}.

Definition isInt (z : Z) : bool := (- 2 ^ 63 <=? z)%Z && (z <? 2 ^ 63)%Z.

Definition marshalWaste (w : Waste) : json Z :=
  JObject [("id", JString (l_ID w));
           ("type", JString (l_Type w));
           ("quantity", JNumber (l_Quantity w));
           ("harvestDate", JString (l_HarvestDate w));
           ("status", JString (l_Status w));
           ("owner", JString (l_Owner w));
           ("createdAt", JString (l_CreatedAt w));
           ("updatedAt", JString (l_UpdatedAt w))].

Definition unmarshalWaste (j : json Z) : result Waste :=
  match j with
  | JNull => Ok {| l_ID := ""; l_Type := ""; l_Quantity := 0;
                   l_HarvestDate := ""; l_Status := ""; l_Owner := "";
                   l_CreatedAt := ""; l_UpdatedAt := "" |}
  | JObject ms =>
      try id := decodeString "id" ms in
      try type := decodeString "type" ms in
      try quantity := decodeNumber isInt 0%Z "quantity" ms in
      try harvestDate := decodeString "harvestDate" ms in
      try status := decodeString "status" ms in
      try owner := decodeString "owner" ms in
      try createdAt := decodeString "createdAt" ms in
      try updatedAt := decodeString "updatedAt" ms in
      Ok {| l_ID := id; l_Type := type; l_Quantity := quantity;
            l_HarvestDate := harvestDate; l_Status := status;
            l_Owner := owner; l_CreatedAt := createdAt;
            l_UpdatedAt := updatedAt |}
  | _ => Err "json: cannot unmarshal into Go value of type main.Waste"
  end.

(** [strconv.Atoi]: an optional sign, then one or more decimal digits,
    the value within [int].  Both of its errors are [Err]; the caller
    tells them apart no further. *)
Definition digit (c : Ascii.ascii) : option Z :=
  let n := Z.of_N (Ascii.N_of_ascii c) in
  if (48 <=? n)%Z && (n <=? 57)%Z then Some (n - 48)%Z else None.

Fixpoint digits (s : string) (acc : Z) : option Z :=
  match s with
  | EmptyString => Some acc
  | String c rest =>
      match digit c with
      | Some d => digits rest (acc * 10 + d)%Z
      | None => None
      end
  end.

Definition Atoi (s : string) : result Z :=
  let syntaxError : result Z :=
    Err ("strconv.Atoi: parsing " +:+ s +:+ ": invalid syntax") in
  let '(neg, body) :=
    match s with
    | String c rest =>
        if Ascii.eqb c "-"%char then (true, rest)
        else if Ascii.eqb c "+"%char then (false, rest)
        else (false, s)
    | EmptyString => (false, s)
    end in
  match body with
  | EmptyString => syntaxError
  | _ =>
      match digits body 0 with
      | None => syntaxError
      | Some n =>
          let v := if neg : bool then (- n)%Z else n in
          if isInt v then Ok v
          else Err ("strconv.Atoi: parsing " +:+ s
                    +:+ ": value out of range")
      end
  end.

Section SmartContract.
Context `{Clock} `{TimeParse}.

(** saveWaste helper function to store a waste. *)
Definition saveWaste (waste : Waste) : Tx unit :=
  let wasteJSON := marshalWaste waste in
  PutState (l_ID waste) wasteJSON.

(** InitLedger initialises the ledger with test data. *)
Definition InitLedger : Tx unit :=
  let* createdAt := timeNow in
  let* updatedAt := timeNow in
  let waste :=
    {| l_ID := "waste1"; l_Type := "Olives"; l_Quantity := 50;
       l_HarvestDate := "2023-10-01"; l_Status := "READY";
       l_Owner := "farmer1"; l_CreatedAt := createdAt;
       l_UpdatedAt := updatedAt |} in
  wrapErr (fun err => "failed to initialize ledger: " +:+ err)
    (saveWaste waste).

(** CreateWaste adds a new waste to the ledger. *)
Definition CreateWaste (id wasteType quantity harvestDate status owner
  : string) : Tx unit :=
  if String.eqb id "" then fail "l'ID ne peut pas être vide"
  else
    match Atoi quantity with
    | Err _ => fail "la quantité doit être un nombre positif"
    | Ok qty =>
        if (qty <=? 0)%Z then fail "la quantité doit être un nombre positif"
        else if negb (validDate harvestDate) then
          fail "format de date invalide (utiliser YYYY-MM-DD)"
        else
          let* existing :=
            wrapErr (fun err => "échec de lecture du ledger: " +:+ err)
              (GetState id) in
          match existing with
          | Some _ =>
              fail ("un déchet avec l'ID " +:+ id +:+ " existe déjà")
          | None =>
              let* createdAt := timeNow in
              let* updatedAt := timeNow in
              saveWaste
                {| l_ID := id; l_Type := wasteType; l_Quantity := qty;
                   l_HarvestDate := harvestDate; l_Status := status;
                   l_Owner := owner; l_CreatedAt := createdAt;
                   l_UpdatedAt := updatedAt |}
          end
    end.

(** GetWaste fetches a waste by its ID. *)
Definition GetWaste (id : string) : Tx Waste :=
  let* wasteJSON :=
    wrapErr (fun err => "échec de lecture du ledger: " +:+ err)
      (GetState id) in
  match wasteJSON with
  | None => fail ("le déchet " +:+ id +:+ " n'existe pas")
  | Some j =>
      wrapErr (fun err => "échec de décodage JSON: " +:+ err)
        (liftR (unmarshalWaste j))
  end.

(** UpdateWasteStatus updates the status of a waste. *)
Definition UpdateWasteStatus (id newStatus : string) : Tx unit :=
  let* waste := GetWaste id in
  let* updatedAt := timeNow in
  saveWaste
    {| l_ID := l_ID waste; l_Type := l_Type waste;
       l_Quantity := l_Quantity waste;
       l_HarvestDate := l_HarvestDate waste; l_Status := newStatus;
       l_Owner := l_Owner waste; l_CreatedAt := l_CreatedAt waste;
       l_UpdatedAt := updatedAt |}.

End SmartContract.

End LegacyChaincode.

(** ** JavaScript values and the pieces of the engine the controllers use *)

Module Js.

Inductive value : Type :=
| Undefined
| Null
| Bool (b : bool)
| Number (n : float)
| Str (s : string)
| Array (items : list value)
| Object (props : list (string * value)).

(** What the code takes from the engine and the host: [Date.now()] and
    [Math.random().toString(36)] at their n-th reading, and the pure
    library functions it calls. *)
Class Engine := {
  Date_now : nat -> Z;
  toISOString : Z -> string;
  Math_random_toString36 : nat -> string;
  parseFloat : value -> float;
  JSON_stringify : value -> string;
  JSON_parse : string -> option value;
  ToNumber : value -> float
}.

(** [!!v] *)
Definition truthy (v : value) : bool :=
  match v with
  | Undefined | Null => false
  | Bool b => b
  | Number n => negb (PrimFloat.eqb n 0%float) && negb (PrimFloat.is_nan n)
  | Str s => negb (String.eqb s "")
  | Array _ | Object _ => true
  end.

(** [a || b] *)
Definition or_ (a b : value) : value := if truthy a then a else b.

Fixpoint lookupProp (name : string) (props : list (string * value))
  : value :=
  match props with
  | [] => Undefined
  | (k, v) :: rest => if String.eqb k name then v else lookupProp name rest
  end.

(** [v.name] for a data property [name] (none of the names read here is
    a built-in of strings, numbers, booleans or arrays).  The receivers
    are never [undefined] or [null]: the body parser leaves an object or
    an array in [req.body], the router an object in [req.params], and
    every other receiver has been tested truthy or is read with [?.]. *)
Definition get (v : value) (name : string) : value :=
  match v with
  | Object props => lookupProp name props
  | _ => Undefined
  end.

(** [a === b]; two objects or arrays are equal only when they are the
    same reference, which a stored record and a request value never are. *)
Definition strictEq (a b : value) : bool :=
  match a, b with
  | Undefined, Undefined => true
  | Null, Null => true
  | Bool x, Bool y => Bool.eqb x y
  | Number x, Number y => PrimFloat.eqb x y
  | Str x, Str y => String.eqb x y
  | _, _ => false
  end.

(** [v > 0] *)
Definition gt0 `{Engine} (v : value) : bool :=
  match v with
  | Undefined | Null => false
  | Bool b => b
  | Number n => PrimFloat.ltb 0%float n
  | _ => PrimFloat.ltb 0%float (ToNumber v)
  end.

(** [v.length > 0] *)
Definition lengthPositive `{Engine} (v : value) : bool :=
  match v with
  | Array items => match items with [] => false | _ => true end
  | Str s => negb (String.eqb s "")
  | Object props => gt0 (lookupProp "length" props)
  | _ => false
  end.

(** [items.length] as a number *)
Definition numberOfNat (n : nat) : float :=
  PrimFloat.of_uint63 (Uint63.of_Z (Z.of_nat n)).

(** Setting a property keeps the position of a key the object already
    has and appends a new key. *)
Fixpoint setProp (name : string) (v : value) (props : list (string * value))
  : list (string * value) :=
  match props with
  | [] => [(name, v)]
  | (k, old) :: rest =>
      if String.eqb k name then (k, v) :: rest
      else (k, old) :: setProp name v rest
  end.

(** [{ ...base, ...more }] on property lists; spreading a value that is
    not an object adds nothing for the values met here. *)
Definition spread (base : list (string * value)) (more : value)
  : list (string * value) :=
  match more with
  | Object props => fold_left (fun acc kv => setProp kv.1 kv.2 acc) props base
  | _ => base
  end.

(** The callback of the controllers' [.map]: a string row is parsed, and
    kept as it is when parsing throws. *)
Definition parseRow `{Engine} (row : value) : value :=
  match row with
  | Str s => match JSON_parse s with Some v => v | None => row end
  | _ => row
  end.

(** An awaited call either returns or rejects with an [Error], kept by
    its message. *)
Inductive outcome (A : Type) : Type :=
| Returned (a : A)
| Threw (message : string).
Arguments Returned {A} a.
Arguments Threw {A} message.

(** A call that may read the clock: from the number of readings taken so
    far to its outcome and the new number. *)
Definition Io (A : Type) : Type := nat -> outcome A * nat.

(** The methods the controllers call on their client instance. *)
Record Client := {
  initialize : Io value;
  submitTransaction : string -> string -> list value -> Io value;
  query : string -> string -> list value -> Io value;
  queryAll : string -> string -> list value -> Io value;
  getHistory : string -> string -> list value -> Io value
}.

Record Request := {
  body : value;
  params : value
}.

(** [res.status(status).json(payload)] *)
Record Response := {
  status : nat;
  payload : value
}.

(** Whether [String(v)] returns, as a template literal, [parseFloat] and
    [Array.prototype.join] need.  A value read from JSON holds no
    function; an object with an own property [toString] can then not be
    converted, and the conversion throws a TypeError; so does that of an
    array that holds such an object. *)
Fixpoint printable (v : value) : bool :=
  match v with
  | Object props =>
      negb (existsb (fun kv => String.eqb (fst kv) "toString") props)
  | Array items => forallb printable items
  | _ => true
  end.

End Js.
Export Js.

(** ** The client class the enhanced-client module exports *)

Module EnhancedClient.

Section Mock.
Context `{Engine}.

(** Whether creating the wallet and its identities goes through is the
    file system's affair; [initialize] catches every failure itself. *)
Variable walletReady : bool.

Definition initialize : Io value :=
  fun t => (Returned (Bool walletReady), t).

Definition submitTransaction (orgName functionName : string)
  (args : list value) : Io value :=
  fun t =>
    (Returned
       (Object
          [("transactionId", Str ("mock_tx_" +:+ pretty (Date_now t)));
           ("result", Str ("Transaction " +:+ functionName
                           +:+ " completed successfully"));
           ("timestamp", Str (toISOString (Date_now (S t))))]),
     S (S t)).

Definition query (orgName functionName : string) (args : list value)
  : Io value :=
  fun t =>
    (Returned
       (if String.eqb functionName "GetAllWastes" then Array []
        else if String.eqb functionName "GetWaste" then Null
        else if String.eqb functionName "GetAllExtractions" then Array []
        else if String.eqb functionName "GetExtraction" then Null
        else if String.eqb functionName "GetAllRecyclings" then Array []
        else if String.eqb functionName "GetRecycling" then Null
        else Null),
     t).

Definition queryAll (orgName functionName : string) (args : list value)
  : Io value :=
  query orgName functionName args.

Definition getHistory (orgName functionName : string) (args : list value)
  : Io value :=
  fun t => (Returned (Array []), t).

Definition client : Client :=
  {| Js.initialize := initialize;
     Js.submitTransaction := submitTransaction;
     Js.query := query;
     Js.queryAll := queryAll;
     Js.getHistory := getHistory |}.

End Mock.

End EnhancedClient.

(** ** [api/controllers/wasteController.js] *)

Module WasteController.

(** The module's variables, and the number of clock and random readings
    the process has taken. *)
Record State := {
  blockchainInitialized : bool;
  tempWastes : list value;
  tick : nat
}.

Definition Handler : Type := State -> Response * State.

Section Controller.
Context `{Engine}.
Variable blockchainClient : Client.

(** The module as loaded: the flag is false and the mirror holds the two
    default wastes. *)
Definition load (t : nat) : State :=
  {| blockchainInitialized := false;
     tempWastes :=
       [Object
          [("id", Str "WASTE_DEFAULT_1");
           ("wasteId", Str "WASTE_DEFAULT_1");
           ("farmerId", Str "farmer_001");
           ("type", Str "Branches");
           ("quantity", Number 50%float);
           ("harvestDate", Str (toISOString (Date_now t)));
           ("status", Str "READY");
           ("location", Str "Farm Block A");
           ("qualityGrade", Str "A");
           ("moistureContent", Str "15%");
           ("timestamp", Str (toISOString (Date_now (t + 1))));
           ("transferDate", Null)];
        Object
          [("id", Str "WASTE_DEFAULT_2");
           ("wasteId", Str "WASTE_DEFAULT_2");
           ("farmerId", Str "farmer_001");
           ("type", Str "Feuilles");
           ("quantity", Number 30%float);
           ("harvestDate",
            Str (toISOString (Date_now (t + 2) - 86400000)%Z));
           ("status", Str "TRANSFERRED");
           ("location", Str "Farm Block B");
           ("qualityGrade", Str "A");
           ("moistureContent", Str "18%");
           ("timestamp",
            Str (toISOString (Date_now (t + 3) - 86400000)%Z));
           ("transferDate", Str (toISOString (Date_now (t + 4))))]];
     tick := t + 5 |}.

(** initializeBlockchain: the flag follows whether [initialize] returned
    or threw, not what it returned. *)
Definition initializeBlockchain (st : State) : State :=
  match initialize blockchainClient (tick st) with
  | (Returned _, t) =>
      {| blockchainInitialized := true; tempWastes := tempWastes st;
         tick := t |}
  | (Threw _, t) =>
      {| blockchainInitialized := false; tempWastes := tempWastes st;
         tick := t |}
  end.

(** [tempWastes.push(newWaste)], with the readings moved on to [t]. *)
Definition push (newWaste : value) (t : nat) (st : State) : State :=
  {| blockchainInitialized := blockchainInitialized st;
     tempWastes := tempWastes st ++ [newWaste];
     tick := t |}.

Definition respond (code : nat) (props : list (string * value)) : Response :=
  {| status := code; payload := Object props |}.

(** The identifier addWaste draws, from the readings [t] and [t + 1]. *)
Definition newWasteId (t : nat) : string :=
  "WASTE_" +:+ pretty (Date_now t) +:+ "_"
  +:+ String.substring 2 9 (Math_random_toString36 (t + 1)).

(** The waste object addWaste builds, once the request is validated. *)
Definition blockchainWasteData (req : Request) (t : nat) : value :=
  let wasteData := get (body req) "wasteData" in
  Object
    [("wasteId", Str (newWasteId t));
     ("farmerId",
      or_ (get (body req) "farmerId")
        (or_ (get wasteData "farmerId") (Str "farmer_001")));
     ("type", get wasteData "type");
     ("quantity", Number (parseFloat (get wasteData "quantity")));
     ("harvestDate", get wasteData "harvestDate");
     ("status", get wasteData "status");
     ("location",
      or_ (get (body req) "location")
        (or_ (get wasteData "location") (Str "Default Farm Location")));
     ("qualityGrade",
      or_ (get (body req) "qualityGrade")
        (or_ (get wasteData "qualityGrade") (Str "A")));
     ("moistureContent",
      or_ (get (body req) "moistureContent")
        (or_ (get wasteData "moistureContent") (Str "15%")));
     ("timestamp", Str (toISOString (Date_now (t + 2))));
     ("transferDate", Null)].

(** [{ id: wasteId, ...blockchainWasteData }] *)
Definition newWaste (req : Request) (t : nat) : value :=
  Object (spread [("id", Str (newWasteId t))] (blockchainWasteData req t)).

(** Create new waste with blockchain integration. *)
Definition addWaste (req : Request) : Handler :=
  fun st =>
    let wasteData := get (body req) "wasteData" in
    if negb (truthy wasteData) then
      (respond 400
         [("error", Str "Missing waste data");
          ("details", Str "The 'wasteData' field is required")], st)
    else
      let type := get wasteData "type" in
      let quantity := get wasteData "quantity" in
      let harvestDate := get wasteData "harvestDate" in
      let status := get wasteData "status" in
      if negb (truthy type) || negb (truthy quantity)
         || negb (truthy harvestDate) || negb (truthy status) then
        (respond 400
           [("error", Str "Incomplete data");
            ("details",
             Str "All fields are required: type, quantity, harvestDate, status")],
         st)
      else
        let t := tick st in
        let wasteId := newWasteId t in
        if blockchainInitialized st then
          match
            submitTransaction blockchainClient "farmer" "CreateWaste"
              [Str wasteId; Str (JSON_stringify (blockchainWasteData req t))]
              (t + 3)
          with
          | (Returned result, t') =>
              (respond 201
                 [("success", Bool true);
                  ("message",
                   Str "Waste successfully recorded on blockchain");
                  ("data", newWaste req t);
                  ("blockchainTxId",
                   or_ (get result "transactionId") (Str "pending"));
                  ("source", Str "blockchain")],
               push (newWaste req t) t' st)
          | (Threw message, t') =>
              (respond 201
                 [("success", Bool true);
                  ("message",
                   Str "Waste added to temporary storage (blockchain unavailable)");
                  ("data", newWaste req t);
                  ("warning",
                   Str ("Blockchain temporarily unavailable: " +:+ message));
                  ("source", Str "fallback")],
               push (newWaste req t) t' st)
          end
        else
          (respond 201
             [("success", Bool true);
              ("message",
               Str "Waste added to temporary storage (blockchain initializing)");
              ("data", newWaste req t);
              ("source", Str "temporary")],
           push (newWaste req t) (t + 3) st).

(** Get waste list with blockchain integration.  [.map] on a value that
    is not an array throws, which the inner [catch] turns into the
    fallback. *)
Definition listWaste (req : Request) : Handler :=
  fun st =>
    let '(wastes, source, t) :=
      if blockchainInitialized st then
        match queryAll blockchainClient "farmer" "GetAllWastes" [] (tick st)
        with
        | (Returned blockchainWastes, t') =>
            if truthy blockchainWastes && lengthPositive blockchainWastes
            then
              match blockchainWastes with
              | Array items => (map parseRow items, "blockchain", t')
              | _ => (tempWastes st, "fallback", t')
              end
            else (tempWastes st, "temporary", t')
        | (Threw _, t') => (tempWastes st, "fallback", t')
        end
      else (tempWastes st, "temporary", tick st) in
    (respond 200
       [("success", Bool true);
        ("data", Array wastes);
        ("count", Number (numberOfNat (length wastes)));
        ("source", Str source);
        ("timestamp", Str (toISOString (Date_now t)))],
     {| blockchainInitialized := blockchainInitialized st;
        tempWastes := tempWastes st;
        tick := S t |}).

(** [tempWastes.findIndex(w => w.id === wasteId || w.wasteId === wasteId)],
    with [None] for [-1]. *)
Fixpoint findIndex (wasteId : value) (l : list value) : option nat :=
  match l with
  | [] => None
  | w :: rest =>
      if strictEq (get w "id") wasteId || strictEq (get w "wasteId") wasteId
      then Some 0
      else match findIndex wasteId rest with
           | Some i => Some (S i)
           | None => None
           end
  end.

(** [tempWastes[wasteIndex] = updated], with the readings moved on. *)
Definition store (wasteIndex : nat) (updated : value) (t : nat) (st : State)
  : State :=
  {| blockchainInitialized := blockchainInitialized st;
     tempWastes := <[wasteIndex := updated]> (tempWastes st);
     tick := t |}.

Definition at_ (t : nat) (st : State) : State :=
  {| blockchainInitialized := blockchainInitialized st;
     tempWastes := tempWastes st;
     tick := t |}.

(** [transferData?.transferDate || new Date().toISOString()]: the clock
    is read only when the request gives no date. *)
Definition transferDateOr (transferData : value) (t : nat) : value * nat :=
  if truthy (get transferData "transferDate")
  then (get transferData "transferDate", t)
  else (Str (toISOString (Date_now t)), S t).

(** The [updateData] object of the ledger branch, built from the reading
    [t] on; the second component is the reading after it. *)
Definition updateData (newStatus transferData : value) (t : nat)
  : value * nat :=
  let '(transferDate, t1) := transferDateOr transferData t in
  (Object
     [("status", newStatus);
      ("transferDate", transferDate);
      ("processorId",
       or_ (get transferData "processorId") (Str "processor_001"));
      ("updatedAt", Str (toISOString (Date_now t1)))],
   S t1).

(** The fallback of updateWasteStatus: update temporary storage. *)
Definition updateTemporary (wasteId newStatus transferData : value)
  (t : nat) (st : State) : Response * State :=
  match findIndex wasteId (tempWastes st) with
  | Some wasteIndex =>
      let old := default Undefined (tempWastes st !! wasteIndex) in
      let '(transferDate, t1) := transferDateOr transferData t in
      (respond 200
         [("success", Bool true);
          ("message", Str "Waste status updated in temporary storage");
          ("wasteId", wasteId);
          ("newStatus", newStatus);
          ("source",
           Str (if blockchainInitialized st then "fallback"
                else "temporary"))],
       store wasteIndex
         (Object
            (setProp "updatedAt" (Str (toISOString (Date_now t1)))
               (setProp "processorId"
                  (or_ (get transferData "processorId")
                     (Str "processor_001"))
                  (setProp "transferDate" transferDate
                     (setProp "status" newStatus (spread [] old))))))
         (S t1) st)
  | None =>
      (respond 404
         [("error", Str "Waste not found"); ("wasteId", wasteId)],
       at_ t st)
  end.

(** Update waste status with blockchain integration.  The log line
    after the validation converts the waste id and the new status to
    strings; when that throws, the outer [catch] answers 500 with the
    message of the TypeError (V8's). *)
Definition updateWasteStatus (req : Request) : Handler :=
  fun st =>
    let wasteId := get (body req) "wasteId" in
    let newStatus := get (body req) "newStatus" in
    let transferData := get (body req) "transferData" in
    if negb (truthy wasteId) || negb (truthy newStatus) then
      (respond 400
         [("error", Str "Missing required fields");
          ("details", Str "wasteId and newStatus are required")], st)
    else if negb (printable wasteId && printable newStatus) then
      (respond 500
         [("error", Str "Internal server error");
          ("details", Str "Cannot convert object to primitive value")], st)
    else if blockchainInitialized st then
      let '(data, t) := updateData newStatus transferData (tick st) in
      match
        submitTransaction blockchainClient "farmer" "UpdateWasteStatus"
          [wasteId; newStatus; Str (JSON_stringify data)] t
      with
      | (Returned result, t') =>
          (respond 200
             [("success", Bool true);
              ("message", Str "Waste status updated on blockchain");
              ("wasteId", wasteId);
              ("newStatus", newStatus);
              ("blockchainTxId",
               or_ (get result "transactionId") (Str "pending"));
              ("source", Str "blockchain")],
           match findIndex wasteId (tempWastes st) with
           | Some wasteIndex =>
               let old := default Undefined (tempWastes st !! wasteIndex) in
               store wasteIndex
                 (Object
                    (spread (setProp "status" newStatus (spread [] old))
                       data))
                 t' st
           | None => at_ t' st
           end)
      | (Threw _, t') => updateTemporary wasteId newStatus transferData t' st
      end
    else updateTemporary wasteId newStatus transferData (tick st) st.

(** [tempWastes.find(w => w.id === wasteId || w.wasteId === wasteId)] *)
Definition findWaste (wasteId : value) (l : list value) : option value :=
  List.find
    (fun w => strictEq (get w "id") wasteId
              || strictEq (get w "wasteId") wasteId) l.

(** The fallback of getWasteHistory: construct basic history from
    current state. *)
Definition constructHistory (wasteId : value) (t : nat) (st : State)
  : Response * State :=
  match findWaste wasteId (tempWastes st) with
  | Some waste =>
      let basicHistory :=
        [Object
           [("timestamp",
             or_ (get waste "timestamp") (get waste "harvestDate"));
            ("action", Str "CREATED");
            ("status", Str "READY");
            ("details", Str "Waste created and ready for processing")]] in
      let basicHistory :=
        if strictEq (get waste "status") (Str "TRANSFERRED")
           && truthy (get waste "transferDate")
        then (basicHistory
              ++ [Object
                    [("timestamp", get waste "transferDate");
                     ("action", Str "TRANSFERRED");
                     ("status", Str "TRANSFERRED");
                     ("details", Str "Waste transferred to processor")]])%list
        else basicHistory in
      (respond 200
         [("success", Bool true);
          ("data", Array basicHistory);
          ("wasteId", wasteId);
          ("source", Str "constructed")],
       at_ t st)
  | None =>
      (respond 404
         [("error", Str "Waste not found"); ("wasteId", wasteId)],
       at_ t st)
  end.

(** Get waste traceability history with blockchain integration.  The
    waste id is a route parameter, a string. *)
Definition getWasteHistory (req : Request) : Handler :=
  fun st =>
    let wasteId := get (params req) "wasteId" in
    if negb (truthy wasteId) then
      (respond 400 [("error", Str "Missing wasteId parameter")], st)
    else if blockchainInitialized st then
      match
        getHistory blockchainClient "farmer" "GetWasteHistory" [wasteId]
          (tick st)
      with
      | (Returned history, t') =>
          if truthy history && lengthPositive history then
            (respond 200
               [("success", Bool true);
                ("data", history);
                ("wasteId", wasteId);
                ("source", Str "blockchain")],
             at_ t' st)
          else constructHistory wasteId t' st
      | (Threw _, t') => constructHistory wasteId t' st
      end
    else constructHistory wasteId (tick st) st.

End Controller.

End WasteController.

(** ** [api/controllers/extractionController.js] *)

Module ExtractionController.

Record State := {
  blockchainInitialized : bool;
  extractions : list value;
  tick : nat
}.

Definition Handler : Type := State -> Response * State.

Section Controller.
Context `{Engine}.
Variable blockchainClient : Client.

(** The module as loaded, with its one default extraction. *)
Definition load (t : nat) : State :=
  {| blockchainInitialized := false;
     extractions :=
       [Object
          [("id", Str "EXTRACTION_DEFAULT_1");
           ("extractionId", Str "EXTRACTION_DEFAULT_1");
           ("wasteId", Str "WASTE_DEFAULT_1");
           ("processorId", Str "processor_001");
           ("extractionDate", Str (toISOString (Date_now t)));
           ("productType", Str "Huile d'olive");
           ("quantity", Number 10%float);
           ("quality", Str "Extra Vierge");
           ("extractionMethod", Str "Cold Press");
           ("temperature", Str "27°C");
           ("pressure", Str "3 bars");
           ("yieldPercentage", Number 20%float);
           ("status", Str "PROCESSED");
           ("timestamp", Str (toISOString (Date_now (t + 1))))]];
     tick := t + 2 |}.

Definition initializeBlockchain (st : State) : State :=
  match initialize blockchainClient (tick st) with
  | (Returned _, t) =>
      {| blockchainInitialized := true; extractions := extractions st;
         tick := t |}
  | (Threw _, t) =>
      {| blockchainInitialized := false; extractions := extractions st;
         tick := t |}
  end.

(** [extractions.push(newExtraction)], with the readings moved on. *)
Definition push (newExtraction : value) (t : nat) (st : State) : State :=
  {| blockchainInitialized := blockchainInitialized st;
     extractions := extractions st ++ [newExtraction];
     tick := t |}.

Definition at_ (t : nat) (st : State) : State :=
  {| blockchainInitialized := blockchainInitialized st;
     extractions := extractions st;
     tick := t |}.

Definition respond (code : nat) (props : list (string * value)) : Response :=
  {| status := code; payload := Object props |}.

(** Add new extraction with blockchain integration.  The link
    transaction is awaited inside its own [try]: its outcome changes
    nothing but the readings. *)
Definition addExtraction (req : Request) : Handler :=
  fun st =>
    let extractionData := get (body req) "extractionData" in
    if negb (truthy extractionData) then
      (respond 400
         [("error", Str "Missing extraction data");
          ("details", Str "The 'extractionData' field is required")], st)
    else
      let wasteId := get extractionData "wasteId" in
      let productType := get extractionData "productType" in
      let quantity := get extractionData "quantity" in
      let quality := get extractionData "quality" in
      if negb (truthy wasteId) || negb (truthy productType)
         || negb (truthy quantity) || negb (truthy quality) then
        (respond 400
           [("error", Str "Incomplete data");
            ("details",
             Str "All fields are required: wasteId, productType, quantity, quality")],
         st)
      else
        let t := tick st in
        let extractionId :=
          "EXTRACTION_" +:+ pretty (Date_now t) +:+ "_"
          +:+ String.substring 2 9 (Math_random_toString36 (t + 1)) in
        let '(extractionDate, t2) :=
          if truthy (get extractionData "extractionDate")
          then (get extractionData "extractionDate", t + 2)
          else (Str (toISOString (Date_now (t + 2))), t + 3) in
        let blockchainExtractionData :=
          Object
            [("extractionId", Str extractionId);
             ("wasteId", wasteId);
             ("processorId",
              or_ (get (body req) "processorId")
                (or_ (get extractionData "processorId")
                   (Str "processor_001")));
             ("extractionDate", extractionDate);
             ("productType", productType);
             ("quantity", Number (parseFloat quantity));
             ("quality", quality);
             ("extractionMethod",
              or_ (get extractionData "extractionMethod")
                (Str "Cold Press"));
             ("temperature",
              or_ (get extractionData "temperature") (Str "27°C"));
             ("pressure",
              or_ (get extractionData "pressure") (Str "3 bars"));
             ("yieldPercentage",
              or_ (get extractionData "yieldPercentage")
                (Number 20%float));
             ("status", Str "PROCESSED");
             ("timestamp", Str (toISOString (Date_now t2)))] in
        let newExtraction :=
          Object (spread [("id", Str extractionId)]
                    blockchainExtractionData) in
        if blockchainInitialized st then
          match
            submitTransaction blockchainClient "processor"
              "CreateExtraction"
              [Str extractionId;
               Str (JSON_stringify blockchainExtractionData)]
              (S t2)
          with
          | (Returned result, t') =>
              let t'' :=
                (submitTransaction blockchainClient "processor"
                   "LinkExtractionToWaste" [wasteId; Str extractionId]
                   t').2 in
              (respond 201
                 [("success", Bool true);
                  ("message",
                   Str "Extraction successfully recorded on blockchain");
                  ("data", newExtraction);
                  ("blockchainTxId",
                   or_ (get result "transactionId") (Str "pending"));
                  ("source", Str "blockchain")],
               push newExtraction t'' st)
          | (Threw message, t') =>
              (respond 201
                 [("success", Bool true);
                  ("message",
                   Str "Extraction added to temporary storage (blockchain unavailable)");
                  ("data", newExtraction);
                  ("warning",
                   Str ("Blockchain temporarily unavailable: " +:+ message));
                  ("source", Str "fallback")],
               push newExtraction t' st)
          end
        else
          (respond 201
             [("success", Bool true);
              ("message",
               Str "Extraction added to temporary storage (blockchain initializing)");
              ("data", newExtraction);
              ("source", Str "temporary")],
           push newExtraction (S t2) st).

(** Get list of extractions with blockchain integration. *)
Definition listExtractions (req : Request) : Handler :=
  fun st =>
    let '(extractionList, source, t) :=
      if blockchainInitialized st then
        match
          queryAll blockchainClient "processor" "GetAllExtractions" []
            (tick st)
        with
        | (Returned blockchainExtractions, t') =>
            if truthy blockchainExtractions
               && lengthPositive blockchainExtractions
            then
              match blockchainExtractions with
              | Array items => (map parseRow items, "blockchain", t')
              | _ => (extractions st, "fallback", t')
              end
            else (extractions st, "temporary", t')
        | (Threw _, t') => (extractions st, "fallback", t')
        end
      else (extractions st, "temporary", tick st) in
    (respond 200
       [("success", Bool true);
        ("data", Array extractionList);
        ("count", Number (numberOfNat (length extractionList)));
        ("source", Str source);
        ("timestamp", Str (toISOString (Date_now t)))],
     at_ (S t) st).

(** [extractions.find(e => e.id === id || e.extractionId === id)] *)
Definition findExtraction (extractionId : value) (l : list value)
  : option value :=
  List.find
    (fun e => strictEq (get e "id") extractionId
              || strictEq (get e "extractionId") extractionId) l.

(** The fallback of getExtractionById: search in temporary data. *)
Definition searchTemporary (extractionId : value) (t : nat) (st : State)
  : Response * State :=
  match findExtraction extractionId (extractions st) with
  | Some extraction =>
      (respond 200
         [("success", Bool true);
          ("data", extraction);
          ("source",
           Str (if blockchainInitialized st then "fallback"
                else "temporary"))],
       at_ t st)
  | None =>
      (respond 404
         [("error", Str "Extraction not found");
          ("extractionId", extractionId)],
       at_ t st)
  end.

(** Get extraction by ID with blockchain integration.  A string answer
    that does not parse throws inside the [try] and ends in the fallback
    as well. *)
Definition getExtractionById (req : Request) : Handler :=
  fun st =>
    let extractionId := get (params req) "extractionId" in
    if negb (truthy extractionId) then
      (respond 400 [("error", Str "Missing extractionId parameter")], st)
    else if blockchainInitialized st then
      match
        query blockchainClient "processor" "GetExtraction" [extractionId]
          (tick st)
      with
      | (Returned blockchainExtraction, t') =>
          if truthy blockchainExtraction then
            match blockchainExtraction with
            | Str s =>
                match JSON_parse s with
                | Some extractionData =>
                    (respond 200
                       [("success", Bool true);
                        ("data", extractionData);
                        ("source", Str "blockchain")],
                     at_ t' st)
                | None => searchTemporary extractionId t' st
                end
            | extractionData =>
                (respond 200
                   [("success", Bool true);
                    ("data", extractionData);
                    ("source", Str "blockchain")],
                 at_ t' st)
            end
          else searchTemporary extractionId t' st
      | (Threw _, t') => searchTemporary extractionId t' st
      end
    else searchTemporary extractionId (tick st) st.

(** [extractions.filter(e => e.wasteId === wasteId)] *)
Definition filterByWaste (wasteId : value) (l : list value) : list value :=
  List.filter (fun e => strictEq (get e "wasteId") wasteId) l.

(** Get extractions by waste ID with blockchain integration. *)
Definition getExtractionsByWasteId (req : Request) : Handler :=
  fun st =>
    let wasteId := get (params req) "wasteId" in
    if negb (truthy wasteId) then
      (respond 400 [("error", Str "Missing wasteId parameter")], st)
    else
      let '(relatedExtractions, source, t) :=
        if blockchainInitialized st then
          match
            query blockchainClient "processor" "GetExtractionsByWasteId"
              [wasteId] (tick st)
          with
          | (Returned blockchainExtractions, t') =>
              if truthy blockchainExtractions
                 && lengthPositive blockchainExtractions
              then
                match blockchainExtractions with
                | Array items => (map parseRow items, "blockchain", t')
                | _ =>
                    (filterByWaste wasteId (extractions st), "fallback", t')
                end
              else ([], "temporary", t')
          | (Threw _, t') =>
              (filterByWaste wasteId (extractions st), "fallback", t')
          end
        else (filterByWaste wasteId (extractions st), "temporary", tick st)
      in
      (respond 200
         [("success", Bool true);
          ("data", Array relatedExtractions);
          ("count", Number (numberOfNat (length relatedExtractions)));
          ("wasteId", wasteId);
          ("source", Str source);
          ("timestamp", Str (toISOString (Date_now t)))],
       at_ (S t) st).

End Controller.

End ExtractionController.

(** ** [api/controllers/recyclingController.js] *)

Module RecyclingController.

Record State := {
  blockchainInitialized : bool;
  recyclings : list value;
  tick : nat
}.

Definition Handler : Type := State -> Response * State.

Section Controller.
Context `{Engine}.
Variable blockchainClient : Client.

(** The module as loaded, with its one default recycling. *)
Definition load (t : nat) : State :=
  {| blockchainInitialized := false;
     recyclings :=
       [Object
          [("id", Str "RECYCLING_DEFAULT_1");
           ("recyclingId", Str "RECYCLING_DEFAULT_1");
           ("wasteId", Str "WASTE_DEFAULT_2");
           ("recyclerId", Str "recycler_001");
           ("recyclingDate", Str (toISOString (Date_now t)));
           ("recycledProduct", Str "Compost");
           ("quantity", Number 25%float);
           ("method", Str "Compostage");
           ("qualityGrade", Str "Premium");
           ("processingTime", Str "14 days");
           ("environmentalImpact", Str "Carbon Negative");
           ("certifications", Array [Str "Organic"; Str "EU Certified"]);
           ("status", Str "COMPLETED");
           ("timestamp", Str (toISOString (Date_now (t + 1))))]];
     tick := t + 2 |}.

Definition initializeBlockchain (st : State) : State :=
  match initialize blockchainClient (tick st) with
  | (Returned _, t) =>
      {| blockchainInitialized := true; recyclings := recyclings st;
         tick := t |}
  | (Threw _, t) =>
      {| blockchainInitialized := false; recyclings := recyclings st;
         tick := t |}
  end.

(** [recyclings.push(newRecycling)], with the readings moved on. *)
Definition push (newRecycling : value) (t : nat) (st : State) : State :=
  {| blockchainInitialized := blockchainInitialized st;
     recyclings := recyclings st ++ [newRecycling];
     tick := t |}.

Definition at_ (t : nat) (st : State) : State :=
  {| blockchainInitialized := blockchainInitialized st;
     recyclings := recyclings st;
     tick := t |}.

Definition respond (code : nat) (props : list (string * value)) : Response :=
  {| status := code; payload := Object props |}.

(** Add new recycling with blockchain integration.  The link
    transaction is awaited inside its own [try]: its outcome changes
    nothing but the readings. *)
Definition addRecycling (req : Request) : Handler :=
  fun st =>
    let recyclingData := get (body req) "recyclingData" in
    if negb (truthy recyclingData) then
      (respond 400
         [("error", Str "Missing recycling data");
          ("details", Str "The 'recyclingData' field is required")], st)
    else
      let wasteId := get recyclingData "wasteId" in
      let recycledProduct := get recyclingData "recycledProduct" in
      let quantity := get recyclingData "quantity" in
      let method := get recyclingData "method" in
      if negb (truthy wasteId) || negb (truthy recycledProduct)
         || negb (truthy quantity) || negb (truthy method) then
        (respond 400
           [("error", Str "Incomplete data");
            ("details",
             Str "All fields are required: wasteId, recycledProduct, quantity, method")],
         st)
      else
        let t := tick st in
        let recyclingId :=
          "RECYCLING_" +:+ pretty (Date_now t) +:+ "_"
          +:+ String.substring 2 9 (Math_random_toString36 (t + 1)) in
        let '(recyclingDate, t2) :=
          if truthy (get recyclingData "recyclingDate")
          then (get recyclingData "recyclingDate", t + 2)
          else (Str (toISOString (Date_now (t + 2))), t + 3) in
        let blockchainRecyclingData :=
          Object
            [("recyclingId", Str recyclingId);
             ("wasteId", wasteId);
             ("recyclerId",
              or_ (get (body req) "recyclerId")
                (or_ (get recyclingData "recyclerId")
                   (Str "recycler_001")));
             ("recyclingDate", recyclingDate);
             ("recycledProduct", recycledProduct);
             ("quantity", Number (parseFloat quantity));
             ("method", method);
             ("qualityGrade",
              or_ (get recyclingData "qualityGrade") (Str "Standard"));
             ("processingTime",
              or_ (get recyclingData "processingTime") (Str "7 days"));
             ("environmentalImpact",
              or_ (get recyclingData "environmentalImpact")
                (Str "Positive"));
             ("certifications",
              or_ (get recyclingData "certifications")
                (Array [Str "Standard"]));
             ("status", Str "COMPLETED");
             ("timestamp", Str (toISOString (Date_now t2)))] in
        let newRecycling :=
          Object (spread [("id", Str recyclingId)]
                    blockchainRecyclingData) in
        if blockchainInitialized st then
          match
            submitTransaction blockchainClient "recycler"
              "CreateRecycling"
              [Str recyclingId;
               Str (JSON_stringify blockchainRecyclingData)]
              (S t2)
          with
          | (Returned result, t') =>
              let t'' :=
                (submitTransaction blockchainClient "recycler"
                   "LinkRecyclingToWaste" [wasteId; Str recyclingId]
                   t').2 in
              (respond 201
                 [("success", Bool true);
                  ("message",
                   Str "Recycling successfully recorded on blockchain");
                  ("data", newRecycling);
                  ("blockchainTxId",
                   or_ (get result "transactionId") (Str "pending"));
                  ("source", Str "blockchain")],
               push newRecycling t'' st)
          | (Threw message, t') =>
              (respond 201
                 [("success", Bool true);
                  ("message",
                   Str "Recycling added to temporary storage (blockchain unavailable)");
                  ("data", newRecycling);
                  ("warning",
                   Str ("Blockchain temporarily unavailable: " +:+ message));
                  ("source", Str "fallback")],
               push newRecycling t' st)
          end
        else
          (respond 201
             [("success", Bool true);
              ("message",
               Str "Recycling added to temporary storage (blockchain initializing)");
              ("data", newRecycling);
              ("source", Str "temporary")],
           push newRecycling (S t2) st).

(** Get list of recyclings with blockchain integration. *)
Definition listRecyclings (req : Request) : Handler :=
  fun st =>
    let '(recyclingList, source, t) :=
      if blockchainInitialized st then
        match
          queryAll blockchainClient "recycler" "GetAllRecyclings" []
            (tick st)
        with
        | (Returned blockchainRecyclings, t') =>
            if truthy blockchainRecyclings
               && lengthPositive blockchainRecyclings
            then
              match blockchainRecyclings with
              | Array items => (map parseRow items, "blockchain", t')
              | _ => (recyclings st, "fallback", t')
              end
            else (recyclings st, "temporary", t')
        | (Threw _, t') => (recyclings st, "fallback", t')
        end
      else (recyclings st, "temporary", tick st) in
    (respond 200
       [("success", Bool true);
        ("data", Array recyclingList);
        ("count", Number (numberOfNat (length recyclingList)));
        ("source", Str source);
        ("timestamp", Str (toISOString (Date_now t)))],
     at_ (S t) st).

(** [recyclings.find(r => r.id === id || r.recyclingId === id)] *)
Definition findRecycling (recyclingId : value) (l : list value)
  : option value :=
  List.find
    (fun e => strictEq (get e "id") recyclingId
              || strictEq (get e "recyclingId") recyclingId) l.

(** The fallback of getRecyclingById: search in temporary data. *)
Definition searchTemporary (recyclingId : value) (t : nat) (st : State)
  : Response * State :=
  match findRecycling recyclingId (recyclings st) with
  | Some recycling =>
      (respond 200
         [("success", Bool true);
          ("data", recycling);
          ("source",
           Str (if blockchainInitialized st then "fallback"
                else "temporary"))],
       at_ t st)
  | None =>
      (respond 404
         [("error", Str "Recycling not found");
          ("recyclingId", recyclingId)],
       at_ t st)
  end.

(** Get recycling by ID with blockchain integration.  A string answer
    that does not parse throws inside the [try] and ends in the fallback
    as well. *)
Definition getRecyclingById (req : Request) : Handler :=
  fun st =>
    let recyclingId := get (params req) "recyclingId" in
    if negb (truthy recyclingId) then
      (respond 400 [("error", Str "Missing recyclingId parameter")], st)
    else if blockchainInitialized st then
      match
        query blockchainClient "recycler" "GetRecycling" [recyclingId]
          (tick st)
      with
      | (Returned blockchainRecycling, t') =>
          if truthy blockchainRecycling then
            match blockchainRecycling with
            | Str s =>
                match JSON_parse s with
                | Some recyclingData =>
                    (respond 200
                       [("success", Bool true);
                        ("data", recyclingData);
                        ("source", Str "blockchain")],
                     at_ t' st)
                | None => searchTemporary recyclingId t' st
                end
            | recyclingData =>
                (respond 200
                   [("success", Bool true);
                    ("data", recyclingData);
                    ("source", Str "blockchain")],
                 at_ t' st)
            end
          else searchTemporary recyclingId t' st
      | (Threw _, t') => searchTemporary recyclingId t' st
      end
    else searchTemporary recyclingId (tick st) st.

(** [recyclings.filter(r => r.wasteId === wasteId)] *)
Definition filterByWaste (wasteId : value) (l : list value) : list value :=
  List.filter (fun e => strictEq (get e "wasteId") wasteId) l.

(** Get recyclings by waste ID with blockchain integration. *)
Definition getRecyclingsByWasteId (req : Request) : Handler :=
  fun st =>
    let wasteId := get (params req) "wasteId" in
    if negb (truthy wasteId) then
      (respond 400 [("error", Str "Missing wasteId parameter")], st)
    else
      let '(relatedRecyclings, source, t) :=
        if blockchainInitialized st then
          match
            query blockchainClient "recycler" "GetRecyclingsByWasteId"
              [wasteId] (tick st)
          with
          | (Returned blockchainRecyclings, t') =>
              if truthy blockchainRecyclings
                 && lengthPositive blockchainRecyclings
              then
                match blockchainRecyclings with
                | Array items => (map parseRow items, "blockchain", t')
                | _ =>
                    (filterByWaste wasteId (recyclings st), "fallback", t')
                end
              else ([], "temporary", t')
          | (Threw _, t') =>
              (filterByWaste wasteId (recyclings st), "fallback", t')
          end
        else (filterByWaste wasteId (recyclings st), "temporary", tick st)
      in
      (respond 200
         [("success", Bool true);
          ("data", Array relatedRecyclings);
          ("count", Number (numberOfNat (length relatedRecyclings)));
          ("wasteId", wasteId);
          ("source", Str source);
          ("timestamp", Str (toISOString (Date_now t)))],
       at_ (S t) st).

End Controller.

End RecyclingController.

(** ** A sample runtime for the examples

    The theorems below hold for every clock and every formatter; the
    examples run the programs on this one. *)

Module Sample.

Definition pad2 (n : Z) : string :=
  if (n <? 10)%Z then "0" +:+ pretty n else pretty n.

(** A clock that ticks one second per reading, rendered in UTC. *)
#[export] Instance sampleClock : Clock :=
  fun n => "2025-06-01T10:00:" +:+ pad2 (Z.of_nat n mod 60) +:+ "Z".

(** [%.2f]: the exact value, rounded to two decimals, ties to even. *)
Definition hundredths (m : positive) (e : Z) : Z :=
  if (0 <=? e)%Z then (Z.pos m * 2 ^ e * 100)%Z
  else
    let d := (2 ^ (- e))%Z in
    let q := (Z.pos m * 100 / d)%Z in
    let r := (Z.pos m * 100 mod d)%Z in
    if (2 * r <? d)%Z then q
    else if (d <? 2 * r)%Z then (q + 1)%Z
    else if Z.even q then q else (q + 1)%Z.

#[export] Instance sampleFmt : Chaincode.Fmt :=
  fun f =>
    match Prim2SF f with
    | S754_nan => "NaN"
    | S754_infinity s => if s then "-Inf" else "+Inf"
    | S754_zero s => (if s then "-" else "") +:+ "0.00"
    | S754_finite s m e =>
        let n := hundredths m e in
        (if s then "-" else "") +:+ pretty (n / 100)%Z +:+ "."
        +:+ pad2 (n mod 100)
    end.

End Sample.

(** ** A sample engine for the examples

    The theorems about the controllers hold for every engine; the
    examples run on this one, which gives the library functions on the
    values the examples meet. *)

Module SampleEngine.

Definition pad (width : nat) (n : Z) : string :=
  let s := pretty n in
  String.concat "" (replicate (width - String.length s) "0") +:+ s.

(** [Date.prototype.toISOString] for the years 0000 to 9999, by the
    civil-from-days computation on the proleptic Gregorian calendar. *)
Definition toISOString (ms : Z) : string :=
  let days := (ms / 86400000)%Z in
  let rest := (ms mod 86400000)%Z in
  let z := (days + 719468)%Z in
  let era := (z / 146097)%Z in
  let doe := (z - era * 146097)%Z in
  let yoe := ((doe - doe / 1460 + doe / 36524 - doe / 146096) / 365)%Z in
  let doy := (doe - (365 * yoe + yoe / 4 - yoe / 100))%Z in
  let mp := ((5 * doy + 2) / 153)%Z in
  let d := (doy - (153 * mp + 2) / 5 + 1)%Z in
  let m := (if (mp <? 10)%Z then mp + 3 else mp - 9)%Z in
  let y := (yoe + era * 400 + (if (m <=? 2)%Z then 1 else 0))%Z in
  pad 4 y +:+ "-" +:+ pad 2 m +:+ "-" +:+ pad 2 d +:+ "T"
  +:+ pad 2 (rest / 3600000) +:+ ":" +:+ pad 2 (rest / 60000 mod 60) +:+ ":"
  +:+ pad 2 (rest / 1000 mod 60) +:+ "." +:+ pad 3 (rest mod 1000) +:+ "Z".

(** A number that is a whole number below 2^63 in size, and NaN for any
    other text. *)
Definition numberOfDigits (s : string) : float :=
  match s with
  | EmptyString => PrimFloat.nan
  | _ =>
      match LegacyChaincode.digits s 0 with
      | Some z => PrimFloat.of_uint63 (Uint63.of_Z z)
      | None => PrimFloat.nan
      end
  end.

Definition numberOf (v : value) : float :=
  match v with
  | Number n => n
  | Str s => numberOfDigits s
  | _ => PrimFloat.nan
  end.

(** [JSON.stringify] on strings without characters to escape and on
    numbers with at most two decimals. *)
Definition stringifyNumber (n : float) : string :=
  match Prim2SF n with
  | S754_nan | S754_infinity _ => "null"
  | S754_zero _ => "0"
  | S754_finite s m e =>
      let h := Sample.hundredths m e in
      (if s then "-" else "") +:+ pretty (h / 100)%Z
      +:+ (if (h mod 100 =? 0)%Z then ""
           else if (h mod 10 =? 0)%Z then "." +:+ pretty (h mod 100 / 10)%Z
           else "." +:+ Sample.pad2 (h mod 100))
  end.

Definition quote : string := String (Ascii.ascii_of_nat 34) EmptyString.

Definition isUndefined (v : value) : bool :=
  match v with Undefined => true | _ => false end.

Fixpoint stringify (v : value) : string :=
  match v with
  | Undefined | Null => "null"
  | Bool b => if b then "true" else "false"
  | Number n => stringifyNumber n
  | Str s => quote +:+ s +:+ quote
  | Array items => "[" +:+ String.concat "," (map stringify items) +:+ "]"
  | Object props =>
      "{"
      +:+ String.concat ","
            (omap (fun kv =>
                     match kv with
                     | (k, x) =>
                         if isUndefined x then None
                         else Some (quote +:+ k +:+ quote +:+ ":"
                                    +:+ stringify x)
                     end) props)
      +:+ "}"
  end.

(** [JSON.parse] on the shortest texts; every other text is taken not to
    parse. *)
Definition parse (s : string) : option value :=
  if String.eqb s "null" then Some Null
  else if String.eqb s "true" then Some (Bool true)
  else if String.eqb s "false" then Some (Bool false)
  else if String.eqb s "[]" then Some (Array [])
  else if String.eqb s "{}" then Some (Object [])
  else None.

(** The clock reads 2025-06-01T10:00:00.000Z and moves on one
    millisecond per reading; every random draw is the same. *)
#[export] Instance engine : Engine :=
  {| Date_now := fun n => (1748772000000 + Z.of_nat n)%Z;
     Js.toISOString := toISOString;
     Math_random_toString36 := fun _ => "0.4fzyo82mvyr";
     parseFloat := numberOf;
     JSON_stringify := stringify;
     JSON_parse := parse;
     ToNumber := numberOf |}.

(** A client that initializes but whose every ledger call is rejected,
    as when no peer answers. *)
Definition unreachable {A} : Io A :=
  fun t => (Threw "Failed to connect before the deadline", t).

Definition offlineClient : Client :=
  {| initialize := fun t => (Returned (Bool true), t);
     submitTransaction := fun _ _ _ => unreachable;
     query := fun _ _ _ => unreachable;
     queryAll := fun _ _ _ => unreachable;
     getHistory := fun _ _ _ => unreachable |}.

End SampleEngine.

(** ** The terms of the specification, on the ledger program with histories *)

Module ChaincodeSpec.
Import Chaincode.

(** The waste as UpdateWasteStatus rewrites it, with the two clock
    readings it takes. *)
Definition updatedWaste (w : Waste) (newStatus actor details t1 t2 : string)
  : Waste :=
  set_History (set_UpdatedAt (set_Status w newStatus) t1)
    (w_History w
     ++ [{| h_Timestamp := t2; h_Action := "STATUS_CHANGED";
            h_Actor := actor;
            h_Details := "Status changed from " +:+ w_Status w +:+ " to "
                         +:+ newStatus +:+ ". " +:+ details |}]).

(** The waste a world holds under an id, as ReadWaste answers. *)
Definition wasteAt (l : gmap string (json float64)) (id : string)
  : result Waste :=
  match l !! ("WASTE_" +:+ id) with
  | Some j => unmarshalWaste j
  | None => Err ("waste " +:+ id +:+ " does not exist")
  end.

(** The record CreateExtraction builds, with its three clock readings. *)
Definition extractionRecord `{Fmt} (id wasteId productType : string)
  (quantity : float64) (quality processor t1 t2 t3 : string) : Extraction :=
  {| e_ID := id; e_WasteID := wasteId; e_ProductType := productType;
     e_Quantity := quantity; e_Quality := quality;
     e_ExtractionDate := t1; e_Processor := processor;
     e_Status := "PROCESSED"; e_CreatedAt := t2;
     e_History :=
       [{| h_Timestamp := t3; h_Action := "EXTRACTED";
           h_Actor := processor;
           h_Details := "Extracted " +:+ productType +:+ " ("
                        +:+ sprintf_2f quantity
                        +:+ " units) from waste " +:+ wasteId |}] |}.

(** The record CreateRecycling builds. *)
Definition recyclingRecord `{Fmt} (id wasteId recycledProduct : string)
  (quantity : float64) (method recycler t1 t2 t3 : string) : Recycling :=
  {| r_ID := id; r_WasteID := wasteId;
     r_RecycledProduct := recycledProduct; r_Quantity := quantity;
     r_Method := method; r_RecyclingDate := t1;
     r_Recycler := recycler; r_Status := "COMPLETED";
     r_CreatedAt := t2;
     r_History :=
       [{| h_Timestamp := t3; h_Action := "RECYCLED";
           h_Actor := recycler;
           h_Details := "Recycled waste " +:+ wasteId +:+ " into "
                        +:+ recycledProduct +:+ " ("
                        +:+ sprintf_2f quantity +:+ " units) using "
                        +:+ method |}] |}.

(** The records a scan meets: the documents of the range that decode, in
    the order of the range. *)
Definition decoded {A} (decode : json float64 -> result A)
  (it : list (string * json float64)) : list A :=
  omap (fun kv => match decode kv.2 with Ok a => Some a | Err _ => None end)
    it.

(** The extractions and the recyclings in store enumeration order. *)
Definition storedExtractions (l : gmap string (json float64))
  : list Extraction :=
  decoded unmarshalExtraction (rangeOf "EXTRACTION_" "EXTRACTION_~" l).

Definition storedRecyclings (l : gmap string (json float64))
  : list Recycling :=
  decoded unmarshalRecycling (rangeOf "RECYCLING_" "RECYCLING_~" l).

(** The first one, in that order, whose waste reference is [wasteId]. *)
Definition firstExtractionOf (wasteId : string)
  (l : gmap string (json float64)) : option Extraction :=
  List.find (fun e => String.eqb (e_WasteID e) wasteId) (storedExtractions l).

Definition firstRecyclingOf (wasteId : string)
  (l : gmap string (json float64)) : option Recycling :=
  List.find (fun r => String.eqb (r_WasteID r) wasteId) (storedRecyclings l).

(** The segment a record contributes to the chain: its history, or
    nothing when there is no record. *)
Definition segment {A} (history : A -> list History) (o : option A)
  : list History :=
  match o with Some a => history a | None => [] end.

(** An invocation of one of the functions that write. *)
Inductive call : Type :=
| CallInitLedger
| CallCreateWaste (id wasteType : string) (quantity : float64)
    (harvestDate owner farm location : string)
| CallUpdateWasteStatus (id newStatus actor details : string)
| CallCreateExtraction (id wasteId productType : string)
    (quantity : float64) (quality processor : string)
| CallCreateRecycling (id wasteId recycledProduct : string)
    (quantity : float64) (method recycler : string).

Definition run `{Clock} `{Fmt} (k : call) : Tx unit :=
  match k with
  | CallInitLedger => InitLedger
  | CallCreateWaste id wasteType quantity harvestDate owner farm location =>
      CreateWaste id wasteType quantity harvestDate owner farm location
  | CallUpdateWasteStatus id newStatus actor details =>
      UpdateWasteStatus id newStatus actor details
  | CallCreateExtraction id wasteId productType quantity quality processor =>
      CreateExtraction id wasteId productType quantity quality processor
  | CallCreateRecycling id wasteId recycledProduct quantity method recycler =>
      CreateRecycling id wasteId recycledProduct quantity method recycler
  end.

(** The world after an invocation, accepted or rejected. *)
Definition invoke `{Clock} `{Fmt} (w : World float64) (k : call)
  : World float64 :=
  (submit (run k) w).2.

(** The world a sequence of invocations reaches from an empty ledger. *)
Definition genesis (n : nat) : World float64 :=
  {| ledger := ∅; readings := n |}.





(** *** Sample ledgers *)

Import Sample.

(** A waste is created on an empty ledger, then an extraction from it. *)
Definition ledgerA : World float64 :=
  invoke (genesis 0)
    (CallCreateWaste "WASTE_A" "Branches" 50%float "2025-06-01" "farmer1"
       "Olive Farm Alpha" "Andalusia, Spain").

Definition ledgerB : World float64 :=
  invoke ledgerA
    (CallCreateExtraction "EXTR_A" "WASTE_A" "Olive oil" 10%float
       "Extra virgin" "processor1").

Definition wasteA : Waste :=
  {| w_ID := "WASTE_A"; w_Type := "Branches"; w_Quantity := 50%float;
     w_HarvestDate := "2025-06-01"; w_Status := "COLLECTED";
     w_Owner := "farmer1"; w_Farm := "Olive Farm Alpha";
     w_Location := "Andalusia, Spain";
     w_CreatedAt := "2025-06-01T10:00:00Z";
     w_UpdatedAt := "2025-06-01T10:00:01Z";
     w_History :=
       [{| h_Timestamp := "2025-06-01T10:00:02Z"; h_Action := "CREATED";
           h_Actor := "farmer1";
           h_Details := "Waste collected: Branches, Quantity: 50.00" |}] |}.

Definition wasteB : Waste :=
  updatedWaste wasteA "PROCESSED" "processor1"
    "Used for Olive oil extraction"
    "2025-06-01T10:00:06Z" "2025-06-01T10:00:07Z".


End ChaincodeSpec.

(** ** The terms of the specification, on the controllers *)

Module ControllerSpec.

(** An answer with nothing in it: an empty list, or null. *)
Definition emptyAnswer (v : value) : Prop := v = Array [] \/ v = Null.

(** A create-waste request with every required field. *)
Definition createWasteRequest : Request :=
  {| body :=
       Object [("wasteData",
                Object [("type", Str "Branches");
                        ("quantity", Number 50%float);
                        ("harvestDate", Str "2025-06-01");
                        ("status", Str "COLLECTED")])];
     params := Object [] |}.

(** The waste controller once its startup initialization has settled. *)
Definition wasteReady `{Engine} (c : Client) : WasteController.State :=
  WasteController.initializeBlockchain c (WasteController.load 0).

Definition extractionReady `{Engine} (c : Client)
  : ExtractionController.State :=
  ExtractionController.initializeBlockchain c (ExtractionController.load 0).

End ControllerSpec.

(** ** Further terms, on the ledger program with histories *)

Module LedgerSpec.
Import Chaincode ChaincodeSpec.

(** The record CreateWaste builds, with its three clock readings. *)
Definition wasteRecord `{Fmt} (id wasteType : string) (quantity : float64)
  (harvestDate owner farm location t1 t2 t3 : string) : Waste :=
  {| w_ID := id; w_Type := wasteType; w_Quantity := quantity;
     w_HarvestDate := harvestDate; w_Status := "COLLECTED";
     w_Owner := owner; w_Farm := farm; w_Location := location;
     w_CreatedAt := t1; w_UpdatedAt := t2;
     w_History :=
       [{| h_Timestamp := t3; h_Action := "CREATED"; h_Actor := owner;
           h_Details := "Waste collected: " +:+ wasteType
                        +:+ ", Quantity: " +:+ sprintf_2f quantity |}] |}.

(** The record InitLedger writes. *)
Definition sampleWaste (t1 t2 t3 : string) : Waste :=
  {| w_ID := "waste1"; w_Type := "Olive Branches";
     w_Quantity := 50.5%float; w_HarvestDate := "2025-06-01";
     w_Status := "COLLECTED"; w_Owner := "farmer1";
     w_Farm := "Olive Farm Alpha"; w_Location := "Andalusia, Spain";
     w_CreatedAt := t1; w_UpdatedAt := t2;
     w_History :=
       [{| h_Timestamp := t3; h_Action := "CREATED"; h_Actor := "farmer1";
           h_Details := "Initial waste collection" |}] |}.

(** The wastes in store enumeration order. *)
Definition storedWastes (l : gmap string (json float64)) : list Waste :=
  decoded unmarshalWaste (rangeOf "WASTE_" "WASTE_~" l).


Definition isInitLedger (k : call) : bool :=
  match k with CallInitLedger => true | _ => false end.


(** Two wastes that differ at most in status, update time and history. *)
Definition sameIdentity (a b : Waste) : Prop :=
  w_ID a = w_ID b /\ w_Type a = w_Type b /\ w_Quantity a = w_Quantity b
  /\ w_HarvestDate a = w_HarvestDate b /\ w_Owner a = w_Owner b
  /\ w_Farm a = w_Farm b /\ w_Location a = w_Location b
  /\ w_CreatedAt a = w_CreatedAt b.

(** One write to the ledger, of the kinds the contract makes: a record
    under a free key, a waste rewritten by a status update, and, when
    [reset] allows it, the sample waste of InitLedger. *)
Inductive write (reset : bool) (l : gmap string (json float64))
  : gmap string (json float64) -> Prop :=
| write_waste doc waste :
    l !! ("WASTE_" +:+ w_ID waste) = None ->
    unmarshalWaste doc = Ok waste ->
    write reset l (<["WASTE_" +:+ w_ID waste := doc]> l)
| write_extraction doc e :
    l !! ("EXTRACTION_" +:+ e_ID e) = None ->
    unmarshalExtraction doc = Ok e ->
    is_Some (l !! ("WASTE_" +:+ e_WasteID e)) ->
    write reset l (<["EXTRACTION_" +:+ e_ID e := doc]> l)
| write_recycling doc r :
    l !! ("RECYCLING_" +:+ r_ID r) = None ->
    unmarshalRecycling doc = Ok r ->
    is_Some (l !! ("WASTE_" +:+ r_WasteID r)) ->
    write reset l (<["RECYCLING_" +:+ r_ID r := doc]> l)
| write_status id waste doc newStatus actor details t1 t2 :
    wasteAt l id = Ok waste ->
    unmarshalWaste doc
    = Ok (updatedWaste waste newStatus actor details t1 t2) ->
    write reset l (<["WASTE_" +:+ id := doc]> l)
| write_sample doc t1 t2 t3 :
    reset = true ->
    unmarshalWaste doc = Ok (sampleWaste t1 t2 t3) ->
    write reset l (<["WASTE_" +:+ "waste1" := doc]> l).

End LedgerSpec.

(** ** Further terms, on the ledger program without histories *)

Module LegacySpec.
Import LegacyChaincode.

(** The record CreateWaste builds, with its two clock readings. *)
Definition created (id wasteType : string) (qty : Z)
  (harvestDate status owner t1 t2 : string) : Waste :=
  {| l_ID := id; l_Type := wasteType; l_Quantity := qty;
     l_HarvestDate := harvestDate; l_Status := status; l_Owner := owner;
     l_CreatedAt := t1; l_UpdatedAt := t2 |}.

(** The waste as UpdateWasteStatus rewrites it. *)
Definition updated (waste : Waste) (newStatus t : string) : Waste :=
  {| l_ID := l_ID waste; l_Type := l_Type waste;
     l_Quantity := l_Quantity waste;
     l_HarvestDate := l_HarvestDate waste; l_Status := newStatus;
     l_Owner := l_Owner waste; l_CreatedAt := l_CreatedAt waste;
     l_UpdatedAt := t |}.

End LegacySpec.

(** ** A sample date parser and ledger for the examples

    The theorems hold for every parser; the examples run on this one,
    which accepts what [time.Parse("2006-01-02", s)] accepts: four
    digits, a month from 01 to 12 and a day of that month. *)

Module LegacySample.
Import LegacyChaincode.

Definition twoDigits (a b : Ascii.ascii) : option Z :=
  match digit a, digit b with
  | Some x, Some y => Some (10 * x + y)%Z
  | _, _ => None
  end.

Definition leap (y : Z) : bool :=
  (y mod 4 =? 0)%Z && (negb (y mod 100 =? 0)%Z || (y mod 400 =? 0)%Z).

Definition daysIn (m y : Z) : Z :=
  if (m =? 2)%Z then (if leap y then 29 else 28)%Z
  else if (m =? 4)%Z || (m =? 6)%Z || (m =? 9)%Z || (m =? 11)%Z then 30%Z
  else 31%Z.

Definition parsesAsDate (s : string) : bool :=
  match s with
  | String y1 (String y2 (String y3 (String y4 (String dash1
      (String m1 (String m2 (String dash2
         (String d1 (String d2 EmptyString))))))))) =>
      match digits (String y1 (String y2 (String y3 (String y4 ""))))
              0%Z,
            twoDigits m1 m2, twoDigits d1 d2 with
      | Some y, Some m, Some d =>
          Ascii.eqb dash1 "-"%char && Ascii.eqb dash2 "-"%char
          && (1 <=? m)%Z && (m <=? 12)%Z
          && (1 <=? d)%Z && (d <=? daysIn m y)%Z
      | _, _, _ => false
      end
  | _ => false
  end.

#[export] Instance sampleDates : TimeParse := parsesAsDate.

(** A waste is created on an empty ledger. *)
Definition legacyA `{Clock} : World Z :=
  (submit (CreateWaste "W1" "Olives" "50" "2023-10-01" "READY" "farmer1")
     {| ledger := ∅; readings := 0 |}).2.

End LegacySample.

(** ** Further terms, on the controllers *)

Module HandlerSpec.

(** A data object in which every one of [fields] is truthy. *)
Definition complete (fields : list string) (data : value) : bool :=
  truthy data && forallb (fun f => truthy (get data f)) fields.

(** An object whose keys are distinct, as every object of the engine
    is. *)
Definition isRecord (v : value) : bool :=
  match v with
  | Object props => bool_decide (NoDup props.*1)
  | _ => false
  end.

(** A request to one of the handlers of the waste controller. *)
Inductive wasteCall : Type :=
| AddWaste (req : Request)
| ListWaste (req : Request)
| UpdateWasteStatus (req : Request)
| GetWasteHistory (req : Request).

(** A create request that is answered 201: it passes validation and
    its quantity can be converted. *)
Definition accepted (k : wasteCall) : bool :=
  match k with
  | AddWaste req =>
      complete ["type"; "quantity"; "harvestDate"; "status"]
        (get (body req) "wasteData")
      && printable (get (get (body req) "wasteData") "quantity")
  | _ => false
  end.

(** A request on which [parseFloat(quantity)] returns; on any other
    create request the handler ends in its outer [catch]. *)
Definition convertible (k : wasteCall) : bool :=
  match k with
  | AddWaste req => printable (get (get (body req) "wasteData") "quantity")
  | _ => true
  end.

Definition serve `{Engine} (c : Client) (k : wasteCall)
  : WasteController.Handler :=
  match k with
  | AddWaste req => WasteController.addWaste c req
  | ListWaste req => WasteController.listWaste c req
  | UpdateWasteStatus req => WasteController.updateWasteStatus c req
  | GetWasteHistory req => WasteController.getWasteHistory c req
  end.

(** The state of the waste controller after its startup and a sequence
    of requests. *)
Definition served `{Engine} (c : Client) (t : nat) (calls : list wasteCall)
  : WasteController.State :=
  fold_left (fun st k => (serve c k st).2) calls
    (WasteController.initializeBlockchain c (WasteController.load t)).

(** A request for the record with a given id. *)
Definition byId (name : string) (id : value) : Request :=
  {| body := Object []; params := Object [(name, id)] |}.

(** A status update of a waste, with no transfer data. *)
Definition statusRequest (wasteId newStatus : string) : Request :=
  {| body := Object [("wasteId", Str wasteId); ("newStatus", Str newStatus)];
     params := Object [] |}.

(** A transfer of the first default waste, with its date. *)
Definition transferRequest : Request :=
  {| body :=
       Object [("wasteId", Str "WASTE_DEFAULT_1");
               ("newStatus", Str "TRANSFERRED");
               ("transferData",
                Object [("transferDate", Str "2025-06-02T08:00:00.000Z")])];
     params := Object [] |}.

(** A create-extraction request with every required field. *)
Definition createExtractionRequest : Request :=
  {| body :=
       Object [("extractionData",
                Object [("wasteId", Str "WASTE_DEFAULT_1");
                        ("productType", Str "Olive oil");
                        ("quantity", Number 10%float);
                        ("quality", Str "Extra virgin")])];
     params := Object [] |}.

End HandlerSpec.

(** * Facts about the ledger program with histories *)

Module ChaincodeFacts.
Import Chaincode ChaincodeSpec.

(** ** Encoding and decoding *)

Lemma unmarshal_marshalHistory h : unmarshalHistory (marshalHistory h) = Ok h.
Proof. destruct h; reflexivity. Qed.

Lemma mapR_unmarshalHistory l :
  mapR unmarshalHistory (map marshalHistory l) = Ok l.
Proof.
  induction l as [|h l IH]; [reflexivity|].
  cbn [map mapR]. rewrite unmarshal_marshalHistory. cbn [bindR].
  rewrite IH. reflexivity.
Qed.

Ltac decode_fields Hf :=
  cbn; unfold decodeFloat, decodeNumber, decodeSlice; cbn;
  rewrite ?Hf; cbn; rewrite mapR_unmarshalHistory; cbn.

Lemma unmarshal_marshalWaste w j :
  marshalWaste w = Ok j -> unmarshalWaste j = Ok w.
Proof.
  unfold marshalWaste.
  destruct (isFinite (w_Quantity w)) eqn:Hf; [|discriminate].
  intros [= <-].
  destruct w as [id ty q hd st ow fa lo ca ua hi]; cbn in Hf |- *.
  unfold omitempty.
  destruct (String.eqb fa "") eqn:Efa; destruct (String.eqb lo "") eqn:Elo;
    decode_fields Hf;
    repeat match goal with
    | E : String.eqb _ "" = true |- _ => apply String.eqb_eq in E; subst
    end; reflexivity.
Qed.

Lemma unmarshal_marshalExtraction e j :
  marshalExtraction e = Ok j -> unmarshalExtraction j = Ok e.
Proof.
  unfold marshalExtraction.
  destruct (isFinite (e_Quantity e)) eqn:Hf; [|discriminate].
  intros [= <-]. destruct e; cbn in Hf |- *. decode_fields Hf. reflexivity.
Qed.

Lemma unmarshal_marshalRecycling r j :
  marshalRecycling r = Ok j -> unmarshalRecycling j = Ok r.
Proof.
  unfold marshalRecycling.
  destruct (isFinite (r_Quantity r)) eqn:Hf; [|discriminate].
  intros [= <-]. destruct r; cbn in Hf |- *. decode_fields Hf. reflexivity.
Qed.

Lemma bindR_Ok {A B} (r : result A) (k : A -> result B) b :
  bindR r k = Ok b -> exists a, r = Ok a /\ k a = Ok b.
Proof. destruct r; cbn; [eauto | discriminate]. Qed.

(** A decoded waste has a finite quantity, so it can be encoded again. *)
Lemma unmarshalWaste_finite j w :
  unmarshalWaste j = Ok w -> isFinite (w_Quantity w) = true.
Proof.
  destruct j as [| | | |ms]; cbn; try discriminate.
  - intros [= <-]. reflexivity.
  - intros Hd.
    repeat (apply bindR_Ok in Hd; destruct Hd as (? & ? & Hd)).
    injection Hd as <-. cbn.
    match goal with
    | E : decodeFloat _ _ = Ok ?q |- isFinite ?q = true =>
        unfold decodeFloat, decodeNumber in E;
        destruct (member "quantity" ms) as [[]|]; try discriminate;
        try (injection E as <-; reflexivity)
    end.
    destruct (isFinite n) eqn:Hn; [|discriminate].
    congruence.
Qed.


(** ** The operations, step by step *)

Section Operations.
Context `{Clock} `{Fmt}.

Lemma ReadWaste_eq id c : ReadWaste id c = (wasteAt (committed c) id, c).
Proof.
  unfold ReadWaste, wasteAt, bind, wrapErr, GetState, fail, liftR.
  destruct (committed c !! _); reflexivity.
Qed.

Lemma marshal_updatedWaste w newStatus actor details t1 t2 :
  isFinite (w_Quantity w) = true ->
  exists j, marshalWaste (updatedWaste w newStatus actor details t1 t2) = Ok j.
Proof.
  intros Hf. unfold marshalWaste. cbn. rewrite Hf. eauto.
Qed.

Lemma UpdateWasteStatus_ok id newStatus actor details c w :
  wasteAt (committed c) id = Ok w ->
  exists j,
    marshalWaste
      (updatedWaste w newStatus actor details
         (clock (ticks c)) (clock (S (ticks c)))) = Ok j
    /\ UpdateWasteStatus id newStatus actor details c
       = (Ok tt, {| committed := committed c;
                    writes := <["WASTE_" +:+ id := j]> (writes c);
                    ticks := S (S (ticks c)) |}).
Proof.
  intros Hw.
  assert (Hf : isFinite (w_Quantity w) = true).
  { unfold wasteAt in Hw. destruct (committed c !! _); [|discriminate].
    eauto using unmarshalWaste_finite. }
  destruct (marshal_updatedWaste w newStatus actor details
              (clock (ticks c)) (clock (S (ticks c))) Hf) as [j Hj].
  exists j. split; [exact Hj|].
  unfold UpdateWasteStatus, bind. rewrite ReadWaste_eq, Hw.
  unfold timeNow, liftR. cbn [ticks committed writes].
  unfold updatedWaste in Hj.
  change (w_History (set_UpdatedAt (set_Status w newStatus) (clock (ticks c))))
    with (w_History w).
  rewrite Hj. reflexivity.
Qed.

Lemma UpdateWasteStatus_err id newStatus actor details c e :
  wasteAt (committed c) id = Err e ->
  UpdateWasteStatus id newStatus actor details c = (Err e, c).
Proof.
  intros Hw. unfold UpdateWasteStatus, bind. rewrite ReadWaste_eq, Hw.
  reflexivity.
Qed.


Lemma PutState_prefixed prefix id (v : json float64) c :
  String.eqb (prefix +:+ id) "" = false ->
  PutState (prefix +:+ id) v c
  = (Ok tt, {| committed := committed c;
               writes := <[prefix +:+ id := v]> (writes c);
               ticks := ticks c |}).
Proof. intros Hk. unfold PutState. rewrite Hk. reflexivity. Qed.

Lemma submit_ReadWaste (w : World float64) id :
  (submit (ReadWaste id) w).1 = wasteAt (ledger w) id.
Proof.
  unfold submit. rewrite ReadWaste_eq. cbn.
  destruct (wasteAt (ledger w) id); reflexivity.
Qed.

Lemma CreateWaste_ok id wasteType quantity harvestDate owner farm location
  (c : TxContext float64) :
  committed c !! ("WASTE_" +:+ id) = None ->
  isFinite quantity = true ->
  exists j ev,
    marshalWaste
      {| w_ID := id; w_Type := wasteType; w_Quantity := quantity;
         w_HarvestDate := harvestDate; w_Status := "COLLECTED";
         w_Owner := owner; w_Farm := farm; w_Location := location;
         w_CreatedAt := clock (ticks c);
         w_UpdatedAt := clock (S (ticks c));
         w_History := [ev] |} = Ok j
    /\ h_Action ev = "CREATED"
    /\ CreateWaste id wasteType quantity harvestDate owner farm location c
       = (Ok tt, {| committed := committed c;
                    writes := <["WASTE_" +:+ id := j]> (writes c);
                    ticks := S (S (S (ticks c))) |}).
Proof.
  intros Hfresh Hfin.
  unfold CreateWaste, WasteExists, bind, wrapErr, GetState, ret, timeNow,
    liftR.
  rewrite Hfresh. cbn [ticks committed writes].
  unfold marshalWaste at 2. cbn [w_Quantity]. rewrite Hfin.
  eexists _, _. split; [|split]; [| |reflexivity].
  - unfold marshalWaste. cbn [w_Quantity]. rewrite Hfin. reflexivity.
  - reflexivity.
Qed.

(** CreateWaste succeeds only on a fresh id and a finite quantity. *)
Lemma CreateWaste_inv id wasteType quantity harvestDate owner farm location
  (c c' : TxContext float64) :
  CreateWaste id wasteType quantity harvestDate owner farm location c
  = (Ok tt, c') ->
  committed c !! ("WASTE_" +:+ id) = None /\ isFinite quantity = true.
Proof.
  unfold CreateWaste, WasteExists, bind, wrapErr, GetState, ret, fail,
    timeNow, liftR.
  destruct (committed c !! _); [discriminate|].
  cbn [ticks committed writes]. unfold marshalWaste. cbn [w_Quantity].
  destruct (isFinite quantity); [auto | discriminate].
Qed.

Lemma CreateExtraction_err id wasteId productType quantity quality processor
  (c : TxContext float64) e :
  wasteAt (committed c) wasteId = Err e ->
  CreateExtraction id wasteId productType quantity quality processor c
  = (Err ("source waste not found: " +:+ e), c).
Proof.
  intros Hw. unfold CreateExtraction, bind, wrapErr.
  rewrite ReadWaste_eq, Hw. reflexivity.
Qed.

Lemma CreateRecycling_err id wasteId recycledProduct quantity method recycler
  (c : TxContext float64) e :
  wasteAt (committed c) wasteId = Err e ->
  CreateRecycling id wasteId recycledProduct quantity method recycler c
  = (Err ("source waste not found: " +:+ e), c).
Proof.
  intros Hw. unfold CreateRecycling, bind, wrapErr.
  rewrite ReadWaste_eq, Hw. reflexivity.
Qed.

Lemma CreateExtraction_inv id wasteId productType quantity quality processor
  (c c' : TxContext float64) :
  CreateExtraction id wasteId productType quantity quality processor c
  = (Ok tt, c') ->
  exists w je jw,
    wasteAt (committed c) wasteId = Ok w
    /\ committed c !! ("EXTRACTION_" +:+ id) = None
    /\ marshalExtraction
         (extractionRecord id wasteId productType quantity quality processor
            (clock (ticks c)) (clock (1 + ticks c)) (clock (2 + ticks c)))
       = Ok je
    /\ marshalWaste
         (updatedWaste w "PROCESSED" processor
            ("Used for " +:+ productType +:+ " extraction")
            (clock (3 + ticks c)) (clock (4 + ticks c))) = Ok jw
    /\ c' = {| committed := committed c;
               writes := <["WASTE_" +:+ wasteId := jw]>
                           (<["EXTRACTION_" +:+ id := je]> (writes c));
               ticks := 5 + ticks c |}.
Proof.
  unfold CreateExtraction, bind at 1, wrapErr. rewrite ReadWaste_eq.
  destruct (wasteAt (committed c) wasteId) as [w|e] eqn:Hw; [|discriminate].
  unfold bind at 1, GetState.
  destruct (committed c !! ("EXTRACTION_" +:+ id)) eqn:Hfresh;
    [discriminate|].
  unfold bind, timeNow, liftR. cbn [ticks committed writes].
  fold (extractionRecord id wasteId productType quantity quality processor
          (clock (ticks c)) (clock (S (ticks c))) (clock (S (S (ticks c))))).
  destruct (marshalExtraction _) as [je|] eqn:Hje; [|discriminate].
  rewrite (PutState_prefixed "EXTRACTION_"); [|reflexivity].
  cbn [ticks committed writes].
  set (c1 := {| committed := committed c; writes := _; ticks := _ |}).
  destruct (UpdateWasteStatus_ok wasteId "PROCESSED" processor
              ("Used for " +:+ productType +:+ " extraction") c1 w Hw)
    as (jw & Hjw & Hupd).
  rewrite Hupd. intros [= <-].
  exists w, je, jw. repeat split; assumption.
Qed.

Lemma CreateRecycling_inv id wasteId recycledProduct quantity method recycler
  (c c' : TxContext float64) :
  CreateRecycling id wasteId recycledProduct quantity method recycler c
  = (Ok tt, c') ->
  exists w jr jw,
    wasteAt (committed c) wasteId = Ok w
    /\ committed c !! ("RECYCLING_" +:+ id) = None
    /\ marshalRecycling
         (recyclingRecord id wasteId recycledProduct quantity method recycler
            (clock (ticks c)) (clock (1 + ticks c)) (clock (2 + ticks c)))
       = Ok jr
    /\ marshalWaste
         (updatedWaste w "RECYCLED" recycler
            ("Recycled into " +:+ recycledProduct +:+ " using " +:+ method)
            (clock (3 + ticks c)) (clock (4 + ticks c))) = Ok jw
    /\ c' = {| committed := committed c;
               writes := <["WASTE_" +:+ wasteId := jw]>
                           (<["RECYCLING_" +:+ id := jr]> (writes c));
               ticks := 5 + ticks c |}.
Proof.
  unfold CreateRecycling, bind at 1, wrapErr. rewrite ReadWaste_eq.
  destruct (wasteAt (committed c) wasteId) as [w|e] eqn:Hw; [|discriminate].
  unfold bind at 1, GetState.
  destruct (committed c !! ("RECYCLING_" +:+ id)) eqn:Hfresh;
    [discriminate|].
  unfold bind, timeNow, liftR. cbn [ticks committed writes].
  fold (recyclingRecord id wasteId recycledProduct quantity method recycler
          (clock (ticks c)) (clock (S (ticks c))) (clock (S (S (ticks c))))).
  destruct (marshalRecycling _) as [jr|] eqn:Hjr; [|discriminate].
  rewrite (PutState_prefixed "RECYCLING_"); [|reflexivity].
  cbn [ticks committed writes].
  set (c1 := {| committed := committed c; writes := _; ticks := _ |}).
  destruct (UpdateWasteStatus_ok wasteId "RECYCLED" recycler
              ("Recycled into " +:+ recycledProduct +:+ " using " +:+ method)
              c1 w Hw)
    as (jw & Hjw & Hupd).
  rewrite Hupd. intros [= <-].
  exists w, jr, jw. repeat split; assumption.
Qed.


(** *** Transactions on the ledger *)

Lemma commit_one k (j : json float64) (l : gmap string (json float64)) :
  <[k := j]> ∅ ∪ l = <[k := j]> l.
Proof. by rewrite <- insert_union_l, (left_id_L ∅ (∪)). Qed.

Lemma commit_two k1 k2 (j1 j2 : json float64) (l : gmap string (json float64)) :
  <[k1 := j1]> (<[k2 := j2]> ∅) ∪ l = <[k1 := j1]> (<[k2 := j2]> l).
Proof. by rewrite <- !insert_union_l, (left_id_L ∅ (∪)). Qed.

Lemma submit_Err {A} (tx : Tx A) (w : World float64) e c :
  tx (begin w) = (Err e, c) ->
  submit tx w = (Err e, {| ledger := ledger w; readings := ticks c |}).
Proof. intros Htx. unfold submit. rewrite Htx. reflexivity. Qed.

Lemma submit_Ok_inv {A} (tx : Tx A) (w w' : World float64) a :
  submit tx w = (Ok a, w') ->
  exists c, tx (begin w) = (Ok a, c)
            /\ w' = {| ledger := writes c ∪ ledger w; readings := ticks c |}.
Proof.
  unfold submit. destruct (tx (begin w)) as [[a'|e] c] eqn:Htx;
    intros [= <- <-]. eauto.
Qed.

Lemma wasteAt_insert_eq id (j : json float64) l :
  wasteAt (<["WASTE_" +:+ id := j]> l) id = unmarshalWaste j.
Proof. unfold wasteAt. by rewrite lookup_insert_eq. Qed.

(** UpdateWasteStatus on a stored waste: the transaction succeeds and the
    ledger holds the rewritten waste. *)
Lemma submit_UpdateWasteStatus (w : World float64) id newStatus actor details
  waste :
  wasteAt (ledger w) id = Ok waste ->
  exists j,
    unmarshalWaste j
    = Ok (updatedWaste waste newStatus actor details
            (clock (readings w)) (clock (S (readings w))))
    /\ submit (UpdateWasteStatus id newStatus actor details) w
       = (Ok tt, {| ledger := <["WASTE_" +:+ id := j]> (ledger w);
                    readings := S (S (readings w)) |}).
Proof.
  intros Hw.
  destruct (UpdateWasteStatus_ok id newStatus actor details (begin w) waste Hw)
    as (j & Hj & Hupd).
  exists j. split; [by apply unmarshal_marshalWaste|].
  unfold submit. rewrite Hupd. cbn [writes ticks begin].
  by rewrite commit_one.
Qed.

(** ** The specification properties *)


Lemma key_WASTE_EXTRACTION a b : "WASTE_" +:+ a <> "EXTRACTION_" +:+ b.
Proof. discriminate. Qed.

Lemma key_WASTE_RECYCLING a b : "WASTE_" +:+ a <> "RECYCLING_" +:+ b.
Proof. discriminate. Qed.

Lemma key_WASTE_inj a b : "WASTE_" +:+ a = "WASTE_" +:+ b -> a = b.
Proof. intros Heq. cbn in Heq. by injection Heq. Qed.

(** A successful CreateExtraction, seen on the ledger. *)
Lemma submit_CreateExtraction_inv (w w' : World float64)
  id wasteId productType quantity quality processor :
  submit (CreateExtraction id wasteId productType quantity quality processor)
    w = (Ok tt, w') ->
  exists waste je jw,
    wasteAt (ledger w) wasteId = Ok waste
    /\ ledger w !! ("EXTRACTION_" +:+ id) = None
    /\ unmarshalExtraction je
       = Ok (extractionRecord id wasteId productType quantity quality
               processor (clock (readings w)) (clock (1 + readings w))
               (clock (2 + readings w)))
    /\ unmarshalWaste jw
       = Ok (updatedWaste waste "PROCESSED" processor
               ("Used for " +:+ productType +:+ " extraction")
               (clock (3 + readings w)) (clock (4 + readings w)))
    /\ ledger w' = <["WASTE_" +:+ wasteId := jw]>
                     (<["EXTRACTION_" +:+ id := je]> (ledger w)).
Proof.
  intros Hsub. apply submit_Ok_inv in Hsub as (c & Htx & ->).
  apply CreateExtraction_inv in Htx
    as (waste & je & jw & Hw & Hfresh & Hje & Hjw & ->).
  exists waste, je, jw. cbn [ledger writes begin committed ticks] in *.
  repeat split; try assumption.
  - by apply unmarshal_marshalExtraction.
  - by apply unmarshal_marshalWaste.
  - by rewrite commit_two.
Qed.

Lemma submit_CreateRecycling_inv (w w' : World float64)
  id wasteId recycledProduct quantity method recycler :
  submit (CreateRecycling id wasteId recycledProduct quantity method recycler)
    w = (Ok tt, w') ->
  exists waste jr jw,
    wasteAt (ledger w) wasteId = Ok waste
    /\ ledger w !! ("RECYCLING_" +:+ id) = None
    /\ unmarshalRecycling jr
       = Ok (recyclingRecord id wasteId recycledProduct quantity method
               recycler (clock (readings w)) (clock (1 + readings w))
               (clock (2 + readings w)))
    /\ unmarshalWaste jw
       = Ok (updatedWaste waste "RECYCLED" recycler
               ("Recycled into " +:+ recycledProduct +:+ " using "
                +:+ method)
               (clock (3 + readings w)) (clock (4 + readings w)))
    /\ ledger w' = <["WASTE_" +:+ wasteId := jw]>
                     (<["RECYCLING_" +:+ id := jr]> (ledger w)).
Proof.
  intros Hsub. apply submit_Ok_inv in Hsub as (c & Htx & ->).
  apply CreateRecycling_inv in Htx
    as (waste & jr & jw & Hw & Hfresh & Hjr & Hjw & ->).
  exists waste, jr, jw. cbn [ledger writes begin committed ticks] in *.
  repeat split; try assumption.
  - by apply unmarshal_marshalRecycling.
  - by apply unmarshal_marshalWaste.
  - by rewrite commit_two.
Qed.

(** A successful CreateWaste, seen on the ledger. *)
Lemma submit_CreateWaste_inv (w w' : World float64)
  id wasteType quantity harvestDate owner farm location :
  submit (CreateWaste id wasteType quantity harvestDate owner farm location)
    w = (Ok tt, w') ->
  exists j event,
    ledger w !! ("WASTE_" +:+ id) = None
    /\ unmarshalWaste j
       = Ok {| w_ID := id; w_Type := wasteType; w_Quantity := quantity;
               w_HarvestDate := harvestDate; w_Status := "COLLECTED";
               w_Owner := owner; w_Farm := farm; w_Location := location;
               w_CreatedAt := clock (readings w);
               w_UpdatedAt := clock (S (readings w));
               w_History := [event] |}
    /\ h_Action event = "CREATED"
    /\ ledger w' = <["WASTE_" +:+ id := j]> (ledger w).
Proof.
  intros Hsub. apply submit_Ok_inv in Hsub as (c & Htx & ->).
  destruct (CreateWaste_inv _ _ _ _ _ _ _ _ _ Htx) as [Hfresh Hfin].
  destruct (CreateWaste_ok id wasteType quantity harvestDate owner farm
              location (begin w) Hfresh Hfin) as (j & ev & Hj & Hev & Hrun).
  rewrite Hrun in Htx. injection Htx as <-.
  exists j, ev. cbn [ledger writes begin committed ticks] in *.
  repeat split; try assumption.
  - by apply unmarshal_marshalWaste.
  - by rewrite commit_one.
Qed.

(** C4.  Successfully creating an Extraction that references an existing
    waste sets the waste's status to PROCESSED and appends exactly one
    STATUS_CHANGED event to its history; when the waste had just been
    created, its history then has exactly two events, CREATED followed
    by STATUS_CHANGED. *)
Theorem C4_CreateExtraction_marks_waste_processed (w w' : World float64)
  (id wasteId productType : string) (quantity : float64)
  (quality processor : string) (waste : Waste)
  (Hexisting : (submit (ReadWaste wasteId) w).1 = Ok waste)
  (Hcreated : submit (CreateExtraction id wasteId productType quantity
                        quality processor) w = (Ok tt, w')) :
  exists waste' event,
    (submit (ReadWaste wasteId) w').1 = Ok waste'
    /\ w_Status waste' = "PROCESSED"
    /\ w_History waste' = (w_History waste ++ [event])%list
    /\ h_Action event = "STATUS_CHANGED"
    /\ forall w0 wasteType q harvestDate owner farm location,
         submit (CreateWaste wasteId wasteType q harvestDate owner farm
                   location) w0 = (Ok tt, w) ->
         exists created,
           h_Action created = "CREATED"
           /\ w_History waste' = [created; event].
Proof.
  rewrite submit_ReadWaste in Hexisting.
  apply submit_CreateExtraction_inv in Hcreated
    as (waste0 & je & jw & Hw & _ & _ & Hjw & Hledger).
  assert (waste0 = waste) as -> by congruence.
  eexists _, _. rewrite submit_ReadWaste, Hledger, wasteAt_insert_eq, Hjw.
  repeat split.
  intros w0 wasteType q harvestDate owner farm location Hfresh.
  apply submit_CreateWaste_inv in Hfresh as (j & created & _ & Hj & Hact & Hl).
  rewrite Hl, wasteAt_insert_eq, Hj in Hw. injection Hw as <-.
  exists created. split; [assumption | reflexivity].
Qed.

(** *** Store enumeration and the traceability chain *)

Lemma scanExtractions_find wasteId it trace :
  scanExtractions wasteId it trace
  = match List.find (fun e => String.eqb (e_WasteID e) wasteId)
            (decoded unmarshalExtraction it) with
    | Some e => {| t_Waste := t_Waste trace; t_Extraction := Some e;
                   t_Recycling := t_Recycling trace;
                   t_Chain := t_Chain trace ++ e_History e |}
    | None => trace
    end.
Proof.
  induction it as [|kv it IH]; [reflexivity|].
  cbn [scanExtractions decoded omap list_omap].
  destruct (unmarshalExtraction kv.2) as [e|]; [|exact IH].
  cbn [List.find]. destruct (String.eqb (e_WasteID e) wasteId);
    [reflexivity | exact IH].
Qed.

Lemma scanRecyclings_find wasteId it trace :
  scanRecyclings wasteId it trace
  = match List.find (fun r => String.eqb (r_WasteID r) wasteId)
            (decoded unmarshalRecycling it) with
    | Some r => {| t_Waste := t_Waste trace;
                   t_Extraction := t_Extraction trace;
                   t_Recycling := Some r;
                   t_Chain := t_Chain trace ++ r_History r |}
    | None => trace
    end.
Proof.
  induction it as [|kv it IH]; [reflexivity|].
  cbn [scanRecyclings decoded omap list_omap].
  destruct (unmarshalRecycling kv.2) as [r|]; [|exact IH].
  cbn [List.find]. destruct (String.eqb (r_WasteID r) wasteId);
    [reflexivity | exact IH].
Qed.

Lemma find_none_of_unlinked {A} (ref : A -> string) wasteId (l : list A) :
  (forall a, a ∈ l -> ref a <> wasteId) ->
  List.find (fun a => String.eqb (ref a) wasteId) l = None.
Proof.
  intros Hno. destruct (List.find _ l) as [a|] eqn:Hfind; [|reflexivity].
  apply find_some in Hfind as [Hin Heq].
  apply String.eqb_eq in Heq. apply list_elem_of_In in Hin.
  by destruct (Hno a Hin).
Qed.

(** C1.  For a stored waste, GetTraceability(wasteId) returns the chain
    waste.history ++ extraction.history ++ recycling.history in that
    fixed order, where the extraction (recycling) segment is the history
    of the first extraction (recycling) in store enumeration order whose
    waste reference equals wasteId, and is left out when there is none;
    with no linked extraction or recycling the chain is exactly
    waste.history. *)
Theorem C1_GetTraceability_chain (c : TxContext float64) (wasteId : string)
  (waste : Waste) (Hstored : (ReadWaste wasteId c).1 = Ok waste) :
  exists trace,
    GetTraceability wasteId c = (Ok trace, c)
    /\ t_Waste trace = Some waste
    /\ t_Extraction trace = firstExtractionOf wasteId (committed c)
    /\ t_Recycling trace = firstRecyclingOf wasteId (committed c)
    /\ t_Chain trace
       = (w_History waste
          ++ segment e_History (firstExtractionOf wasteId (committed c))
          ++ segment r_History (firstRecyclingOf wasteId (committed c)))%list
    /\ ((forall e, e ∈ storedExtractions (committed c) ->
                   e_WasteID e <> wasteId) ->
        (forall r, r ∈ storedRecyclings (committed c) ->
                   r_WasteID r <> wasteId) ->
        t_Chain trace = w_History waste).
Proof.
  rewrite ReadWaste_eq in Hstored. cbn [fst] in Hstored.
  unfold GetTraceability, bind. rewrite ReadWaste_eq, Hstored.
  unfold GetStateByRange, ret.
  rewrite scanExtractions_find, scanRecyclings_find.
  fold (storedExtractions (committed c)) (storedRecyclings (committed c)).
  fold (firstExtractionOf wasteId (committed c))
       (firstRecyclingOf wasteId (committed c)).
  eexists. split; [reflexivity|].
  destruct (firstExtractionOf wasteId (committed c)) as [e|] eqn:He;
    destruct (firstRecyclingOf wasteId (committed c)) as [r|] eqn:Hr;
    cbn [t_Waste t_Extraction t_Recycling t_Chain segment];
    rewrite ?app_nil_r, <- ?app_assoc;
    (repeat split; try reflexivity);
    intros Hne Hnr;
    pose proof (find_none_of_unlinked e_WasteID wasteId _ Hne) as He';
    pose proof (find_none_of_unlinked r_WasteID wasteId _ Hnr) as Hr';
    unfold firstExtractionOf, firstRecyclingOf in He, Hr; congruence.
Qed.

(** What the enumeration covers: exactly the entries of the ledger whose
    key lies in the range, by ascending key. *)
Lemma elem_of_rangeOf startKey endKey (l : gmap string (json float64)) k v :
  (k, v) ∈ rangeOf startKey endKey l
  <-> l !! k = Some v /\ inRange startKey endKey k = true.
Proof.
  unfold rangeOf. rewrite merge_sort_Permutation, list_elem_of_In, filter_In.
  rewrite <- list_elem_of_In, elem_of_map_to_list. reflexivity.
Qed.

#[local] Instance keyLe_total : Total (@keyLe float64).
Proof.
  intros a b. unfold keyLe.
  destruct (String.leb_total a.1 b.1) as [Hab|Hba];
    [left; by rewrite Hab | right; by rewrite Hba].
Qed.

Lemma rangeOf_sorted startKey endKey (l : gmap string (json float64)) :
  Sorted keyLe (rangeOf startKey endKey l).
Proof. apply Sorted_merge_sort, _. Qed.

Lemma compare_append prefix s t :
  String.compare (prefix +:+ s) (prefix +:+ t) = String.compare s t.
Proof.
  induction prefix as [|a prefix IH]; [reflexivity|].
  simpl. unfold Ascii.compare. by rewrite N.compare_refl.
Qed.

Lemma compare_prefix prefix s :
  String.compare prefix (prefix +:+ s) = String.compare "" s.
Proof.
  induction prefix as [|a prefix IH]; [reflexivity|].
  simpl. unfold Ascii.compare. by rewrite N.compare_refl.
Qed.

(** A record's key lies in its type's range when its id is empty or
    starts with a byte below [~]. *)
Lemma inRange_prefixed prefix id :
  inRange prefix (prefix +:+ "~") (prefix +:+ id)
  = match id with
    | EmptyString => true
    | String a _ => Ascii.ltb a "~"
    end.
Proof.
  unfold inRange, String.leb, String.ltb.
  rewrite compare_append, compare_prefix.
  replace (String.eqb (prefix +:+ "~") "") with false by by destruct prefix.
  destruct id as [|a rest]; [reflexivity|].
  cbn. unfold Ascii.ltb. destruct (Ascii.compare a "~"); try reflexivity.
  by destruct rest.
Qed.

Lemma elem_of_decoded {A} (decode : json float64 -> result A) it a :
  a ∈ decoded decode it <-> exists kv, kv ∈ it /\ decode kv.2 = Ok a.
Proof.
  unfold decoded. rewrite list_elem_of_omap. split.
  - intros (kv & Hin & Hdec). exists kv. split; [exact Hin|].
    destruct (decode kv.2); congruence.
  - intros (kv & Hin & Hdec). exists kv. split; [exact Hin|].
    by rewrite Hdec.
Qed.


Lemma stored_recycling_enumerated (l : gmap string (json float64)) id j r :
  l !! ("RECYCLING_" +:+ id) = Some j ->
  unmarshalRecycling j = Ok r ->
  match id with
  | EmptyString => true
  | String a _ => Ascii.ltb a "~"
  end = true ->
  r ∈ storedRecyclings l.
Proof.
  intros Hlook Hdec Hid. apply elem_of_decoded.
  exists ("RECYCLING_" +:+ id, j). split; [|exact Hdec].
  apply elem_of_rangeOf. split; [exact Hlook|].
  change "RECYCLING_~" with ("RECYCLING_" +:+ "~").
  by rewrite inRange_prefixed.
Qed.

(** C3, as the code has it.  When no waste is stored under wasteId,
    CreateExtraction and CreateRecycling fail with the reference error
    before anything is written: the write set of the transaction and the
    ledger are unchanged, so the record stored under the id afterwards
    is the one stored before, none when there was none. *)
Theorem C3_reference_not_found_writes_nothing (w : World float64)
  (id wasteId product : string) (quantity : float64) (grade actor : string)
  (Hmissing : ledger w !! ("WASTE_" +:+ wasteId) = None) :
  let notFound :=
    "source waste not found: waste " +:+ wasteId +:+ " does not exist" in
  (CreateExtraction id wasteId product quantity grade actor (begin w)
   = (Err notFound, begin w)
   /\ submit (CreateExtraction id wasteId product quantity grade actor) w
      = (Err notFound, w)
   /\ (ledger w !! ("EXTRACTION_" +:+ id) = None ->
       ledger (submit (CreateExtraction id wasteId product quantity grade
                         actor) w).2 !! ("EXTRACTION_" +:+ id) = None))
  /\ (CreateRecycling id wasteId product quantity grade actor (begin w)
      = (Err notFound, begin w)
      /\ submit (CreateRecycling id wasteId product quantity grade actor) w
         = (Err notFound, w)
      /\ (ledger w !! ("RECYCLING_" +:+ id) = None ->
          ledger (submit (CreateRecycling id wasteId product quantity grade
                            actor) w).2 !! ("RECYCLING_" +:+ id) = None)).
Proof.
  intros notFound.
  assert (Hw : wasteAt (committed (begin w)) wasteId
               = Err ("waste " +:+ wasteId +:+ " does not exist")).
  { unfold wasteAt. cbn [begin committed]. by rewrite Hmissing. }
  pose proof (CreateExtraction_err id wasteId product quantity grade actor
                (begin w) _ Hw) as He.
  pose proof (CreateRecycling_err id wasteId product quantity grade actor
                (begin w) _ Hw) as Hr.
  assert (Hsame : {| ledger := ledger w; readings := ticks (begin w) |} = w)
    by by destruct w.
  split; (split; [assumption|]).
  - rewrite (submit_Err _ _ _ _ He), Hsame. split; [reflexivity|]. done.
  - rewrite (submit_Err _ _ _ _ Hr), Hsame. split; [reflexivity|]. done.
Qed.

(** C6, as the code has it.  Every entity leaves its create operation
    with a history of exactly one event, whose action is CREATED for a
    Waste, EXTRACTED for an Extraction and RECYCLED for a Recycling. *)
Theorem C6_first_event_per_entity :
  (forall (w w' : World float64) id wasteType quantity harvestDate owner
          farm location,
      submit (CreateWaste id wasteType quantity harvestDate owner farm
                location) w = (Ok tt, w') ->
      exists waste event,
        (submit (ReadWaste id) w').1 = Ok waste
        /\ w_History waste = [event]
        /\ h_Action event = "CREATED")
  /\ (forall (w w' : World float64) id wasteId productType quantity quality
             processor,
         submit (CreateExtraction id wasteId productType quantity quality
                   processor) w = (Ok tt, w') ->
         exists doc extraction event,
           ledger w' !! ("EXTRACTION_" +:+ id) = Some doc
           /\ unmarshalExtraction doc = Ok extraction
           /\ e_History extraction = [event]
           /\ h_Action event = "EXTRACTED")
  /\ (forall (w w' : World float64) id wasteId recycledProduct quantity
             method recycler,
         submit (CreateRecycling id wasteId recycledProduct quantity method
                   recycler) w = (Ok tt, w') ->
         exists doc recycling event,
           ledger w' !! ("RECYCLING_" +:+ id) = Some doc
           /\ unmarshalRecycling doc = Ok recycling
           /\ r_History recycling = [event]
           /\ h_Action event = "RECYCLED").
Proof.
  split; [|split].
  - intros w w' id wasteType quantity harvestDate owner farm location Hsub.
    apply submit_CreateWaste_inv in Hsub as (j & event & _ & Hj & Hact & Hl).
    eexists _, event. rewrite submit_ReadWaste, Hl, wasteAt_insert_eq, Hj.
    repeat split. assumption.
  - intros w w' id wasteId productType quantity quality processor Hsub.
    apply submit_CreateExtraction_inv in Hsub
      as (waste & je & jw & _ & _ & Hje & _ & Hl).
    eexists je, _, _. rewrite Hl.
    rewrite lookup_insert_ne by apply key_WASTE_EXTRACTION.
    rewrite lookup_insert_eq.
    split; [reflexivity|]. split; [exact Hje|]. split; reflexivity.
  - intros w w' id wasteId recycledProduct quantity method recycler Hsub.
    apply submit_CreateRecycling_inv in Hsub
      as (waste & jr & jw & _ & _ & Hjr & _ & Hl).
    eexists jr, _, _. rewrite Hl.
    rewrite lookup_insert_ne by apply key_WASTE_RECYCLING.
    rewrite lookup_insert_eq.
    split; [reflexivity|]. split; [exact Hjr|]. split; reflexivity.
Qed.

(** *** Reachable ledgers *)




Lemma ledger_submit_Err {A} (tx : Tx A) (w w' : World float64) e :
  submit tx w = (Err e, w') -> ledger w' = ledger w.
Proof.
  unfold submit. destruct (tx (begin w)) as [[a|e'] c]; [discriminate|].
  by intros [= _ <-].
Qed.





(** UpdateWasteStatus accepts any status string. *)
Lemma UpdateWasteStatus_any_status (w : World float64) id newStatus actor
  details waste :
  (submit (ReadWaste id) w).1 = Ok waste ->
  exists w' waste',
    submit (UpdateWasteStatus id newStatus actor details) w = (Ok tt, w')
    /\ (submit (ReadWaste id) w').1 = Ok waste'
    /\ w_Status waste' = newStatus.
Proof.
  rewrite submit_ReadWaste. intros Hw.
  destruct (submit_UpdateWasteStatus w id newStatus actor details waste Hw)
    as (j & Hj & Hsub).
  eexists _, _. split; [exact Hsub|].
  rewrite submit_ReadWaste. cbn [ledger].
  rewrite wasteAt_insert_eq, Hj. split; reflexivity.
Qed.

(** CreateWaste stores any finite quantity under a fresh id, whatever
    its sign. *)
Lemma CreateWaste_any_quantity (w : World float64) id wasteType quantity
  harvestDate owner farm location :
  ledger w !! ("WASTE_" +:+ id) = None ->
  isFinite quantity = true ->
  exists w' waste,
    submit (CreateWaste id wasteType quantity harvestDate owner farm
              location) w = (Ok tt, w')
    /\ (submit (ReadWaste id) w').1 = Ok waste
    /\ w_Quantity waste = quantity.
Proof.
  intros Hfresh Hfin.
  destruct (CreateWaste_ok id wasteType quantity harvestDate owner farm
              location (begin w) Hfresh Hfin) as (j & ev & Hj & _ & Hrun).
  eexists _, _. unfold submit at 1. rewrite Hrun. split; [reflexivity|].
  rewrite submit_ReadWaste. cbn [ledger writes begin].
  rewrite commit_one, wasteAt_insert_eq, (unmarshal_marshalWaste _ _ Hj).
  split; reflexivity.
Qed.

End Operations.

(** ** The properties on the sample ledgers *)

Import Sample.

Lemma C1_witness :
  (ReadWaste "WASTE_A" (begin ledgerB)).1 = Ok wasteB
  /\ exists trace,
       GetTraceability "WASTE_A" (begin ledgerB) = (Ok trace, begin ledgerB)
       /\ map h_Action (t_Chain trace)
          = ["CREATED"; "STATUS_CHANGED"; "EXTRACTED"]
       /\ map h_Timestamp (t_Chain trace)
          = ["2025-06-01T10:00:02Z"; "2025-06-01T10:00:07Z";
             "2025-06-01T10:00:05Z"].
Proof.
  assert (Hstored : (ReadWaste "WASTE_A" (begin ledgerB)).1 = Ok wasteB)
    by (vm_compute; reflexivity).
  split; [exact Hstored|].
  destruct (C1_GetTraceability_chain (begin ledgerB) "WASTE_A" wasteB Hstored)
    as (trace & Hrun & _ & _ & _ & Hchain & _).
  exists trace. split; [exact Hrun|]. rewrite Hchain.
  split; vm_compute; reflexivity.
Defined.


(** The range ends at [~]: an extraction stored under an id that starts
    with [~] is not met by the scan, here or in GetAllExtractions. *)
Example scan_ends_at_tilde :
  let w :=
    invoke ledgerA
      (CallCreateExtraction "~EXTR" "WASTE_A" "Olive oil" 10%float
         "Extra virgin" "processor1") in
  isOk (submit (CreateExtraction "~EXTR" "WASTE_A" "Olive oil" 10%float
                  "Extra virgin" "processor1") ledgerA).1 = true
  /\ storedExtractions (ledger w) = []
  /\ (submit GetAllExtractions w).1 = Ok []
  /\ option_map (fun trace => map h_Action (t_Chain trace))
       (match (submit (GetTraceability "WASTE_A") w).1 with
        | Ok trace => Some trace
        | Err _ => None
        end)
     = Some ["CREATED"; "STATUS_CHANGED"].
Proof. vm_compute. auto. Qed.

Lemma C4_witness :
  (submit (ReadWaste "WASTE_A") ledgerA).1 = Ok wasteA
  /\ submit (CreateExtraction "EXTR_A" "WASTE_A" "Olive oil" 10%float
               "Extra virgin" "processor1") ledgerA = (Ok tt, ledgerB)
  /\ exists waste' created event,
       (submit (ReadWaste "WASTE_A") ledgerB).1 = Ok waste'
       /\ w_Status waste' = "PROCESSED"
       /\ h_Action created = "CREATED"
       /\ h_Action event = "STATUS_CHANGED"
       /\ w_History waste' = [created; event].
Proof.
  assert (Hexisting : (submit (ReadWaste "WASTE_A") ledgerA).1 = Ok wasteA)
    by (vm_compute; reflexivity).
  assert (Hcreated :
            submit (CreateExtraction "EXTR_A" "WASTE_A" "Olive oil" 10%float
                      "Extra virgin" "processor1") ledgerA = (Ok tt, ledgerB))
    by (vm_compute; reflexivity).
  split; [exact Hexisting|]. split; [exact Hcreated|].
  destruct (C4_CreateExtraction_marks_waste_processed ledgerA ledgerB "EXTR_A"
              "WASTE_A" "Olive oil" 10%float "Extra virgin" "processor1"
              wasteA Hexisting Hcreated)
    as (waste' & event & Hread & Hstatus & _ & Haction & Hfresh).
  destruct (Hfresh (genesis 0) "Branches" 50%float "2025-06-01" "farmer1"
              "Olive Farm Alpha" "Andalusia, Spain")
    as (created & Hcreatedaction & Hhistory);
    [vm_compute; reflexivity|].
  exists waste', created, event. auto.
Defined.

Lemma C3_witness :
  ledger ledgerA !! ("WASTE_" +:+ "WASTE_X") = None
  /\ submit (CreateExtraction "EXTR_X" "WASTE_X" "Olive oil" 10%float
               "Extra virgin" "processor1") ledgerA
     = (Err "source waste not found: waste WASTE_X does not exist", ledgerA)
  /\ submit (CreateRecycling "RECY_X" "WASTE_X" "Compost" 25%float
               "Composting" "recycler1") ledgerA
     = (Err "source waste not found: waste WASTE_X does not exist", ledgerA).
Proof.
  assert (Hmissing : ledger ledgerA !! ("WASTE_" +:+ "WASTE_X") = None)
    by (vm_compute; reflexivity).
  split; [exact Hmissing|]. split.
  - exact (proj1 (proj2 (proj1
             (C3_reference_not_found_writes_nothing ledgerA "EXTR_X"
                "WASTE_X" "Olive oil" 10%float "Extra virgin" "processor1"
                Hmissing)))).
  - exact (proj1 (proj2 (proj2
             (C3_reference_not_found_writes_nothing ledgerA "RECY_X"
                "WASTE_X" "Compost" 25%float "Composting" "recycler1"
                Hmissing)))).
Defined.

(** C3 fails as stated when the id is already taken: no waste WASTE_X is
    stored, the call fails, and the extraction stored under EXTR_A is
    still there afterwards. *)
Lemma C3_counterexample :
  ledger ledgerB !! ("WASTE_" +:+ "WASTE_X") = None
  /\ (submit (CreateExtraction "EXTR_A" "WASTE_X" "Olive oil" 10%float
                "Extra virgin" "processor1") ledgerB).1
     = Err "source waste not found: waste WASTE_X does not exist"
  /\ map e_ID
       (storedExtractions
          (ledger (submit (CreateExtraction "EXTR_A" "WASTE_X" "Olive oil"
                             10%float "Extra virgin" "processor1")
                     ledgerB).2))
     = ["EXTR_A"].
Proof. vm_compute. auto. Qed.

Lemma C6_witness :
  submit (CreateWaste "WASTE_A" "Branches" 50%float "2025-06-01" "farmer1"
            "Olive Farm Alpha" "Andalusia, Spain") (genesis 0)
  = (Ok tt, ledgerA)
  /\ submit (CreateExtraction "EXTR_A" "WASTE_A" "Olive oil" 10%float
               "Extra virgin" "processor1") ledgerA = (Ok tt, ledgerB)
  /\ (exists waste event,
         (submit (ReadWaste "WASTE_A") ledgerA).1 = Ok waste
         /\ w_History waste = [event]
         /\ h_Action event = "CREATED")
  /\ (exists doc extraction event,
         ledger ledgerB !! ("EXTRACTION_" +:+ "EXTR_A") = Some doc
         /\ unmarshalExtraction doc = Ok extraction
         /\ e_History extraction = [event]
         /\ h_Action event = "EXTRACTED").
Proof.
  assert (Hwaste :
            submit (CreateWaste "WASTE_A" "Branches" 50%float "2025-06-01"
                      "farmer1" "Olive Farm Alpha" "Andalusia, Spain")
              (genesis 0) = (Ok tt, ledgerA))
    by (vm_compute; reflexivity).
  assert (Hextraction :
            submit (CreateExtraction "EXTR_A" "WASTE_A" "Olive oil" 10%float
                      "Extra virgin" "processor1") ledgerA = (Ok tt, ledgerB))
    by (vm_compute; reflexivity).
  split; [exact Hwaste|]. split; [exact Hextraction|]. split.
  - exact (proj1 C6_first_event_per_entity (genesis 0) ledgerA "WASTE_A"
             "Branches" 50%float "2025-06-01" "farmer1" "Olive Farm Alpha"
             "Andalusia, Spain" Hwaste).
  - exact (proj1 (proj2 C6_first_event_per_entity) ledgerA ledgerB "EXTR_A"
             "WASTE_A" "Olive oil" 10%float "Extra virgin" "processor1"
             Hextraction).
Defined.

(** C6 fails as stated for an Extraction: the only event of the
    extraction just created has action EXTRACTED. *)
Lemma C6_counterexample :
  submit (CreateExtraction "EXTR_A" "WASTE_A" "Olive oil" 10%float
            "Extra virgin" "processor1") ledgerA = (Ok tt, ledgerB)
  /\ map (fun e => map h_Action (e_History e))
       (storedExtractions (ledger ledgerB)) = [["EXTRACTED"]].
Proof. vm_compute. auto. Qed.



(** C8 at a failing input: CreateWaste with quantity -5 on an empty
    ledger returns a nil error and stores the waste with that quantity. *)
Theorem C8_CreateWaste_stores_negative_quantity :
  (submit (CreateWaste "WASTE_NEG" "Branches" (-5)%float "2025-06-01"
             "farmer1" "" "") (genesis 0)).1 = Ok tt
  /\ exists waste,
       (submit (ReadWaste "WASTE_NEG")
          (submit (CreateWaste "WASTE_NEG" "Branches" (-5)%float
                     "2025-06-01" "farmer1" "" "") (genesis 0)).2).1
       = Ok waste
       /\ w_Quantity waste = (-5)%float
       /\ PrimFloat.ltb (w_Quantity waste) 0%float = true.
Proof. split; [vm_compute; reflexivity|]. eexists. vm_compute. auto. Qed.

End ChaincodeFacts.

(** * Facts about the first ledger program *)

Module LegacyFacts.
Import LegacyChaincode.

Example Atoi_negative : Atoi "-5" = Ok (-5)%Z.
Proof. reflexivity. Qed.

Example Atoi_zero : Atoi "0" = Ok 0%Z.
Proof. reflexivity. Qed.

Example Atoi_signed : Atoi "+7" = Ok 7%Z.
Proof. reflexivity. Qed.

Example Atoi_not_a_number : isOk (Atoi "12kg") = false.
Proof. reflexivity. Qed.

Example Atoi_empty : isOk (Atoi "") = false.
Proof. reflexivity. Qed.

Example Atoi_out_of_range : isOk (Atoi "9223372036854775808") = false.
Proof. reflexivity. Qed.

Section Operations.
Context `{Clock} `{TimeParse}.

(** Here CreateWaste validates the quantity: text that is not a positive
    integer is refused before anything is read or written. *)
Lemma CreateWaste_rejects_nonpositive (c : TxContext Z)
  id wasteType quantity harvestDate status owner :
  (forall q, Atoi quantity = Ok q -> (q <= 0)%Z) ->
  exists e,
    CreateWaste id wasteType quantity harvestDate status owner c
    = (Err e, c).
Proof.
  intros Hq. unfold CreateWaste.
  destruct (String.eqb id ""); [eexists; reflexivity|].
  destruct (Atoi quantity) as [q|e] eqn:Hatoi; [|eexists; reflexivity].
  specialize (Hq q eq_refl). apply Z.leb_le in Hq. rewrite Hq.
  eexists; reflexivity.
Qed.

(** Here InitLedger stores its sample waste with status READY. *)
Lemma InitLedger_status_READY (w : World Z) :
  exists w' waste,
    submit InitLedger w = (Ok tt, w')
    /\ (submit (GetWaste "waste1") w').1 = Ok waste
    /\ l_Status waste = "READY".
Proof.
  eexists _, _. split; [reflexivity|].
  unfold submit, GetWaste, bind, wrapErr, GetState, liftR.
  cbn [begin committed ledger writes fst snd ticks].
  rewrite <- insert_union_l, lookup_insert_eq. cbn.
  split; reflexivity.
Qed.

End Operations.

End LegacyFacts.

(** * Facts about the controllers *)

Module ControllerFacts.
Import ControllerSpec.

Section AnyClient.
Context `{Engine}.
Variable client : Client.


Lemma emptyAnswer_no_rows v :
  emptyAnswer v -> truthy v && lengthPositive v = false.
Proof. intros [-> | ->]; reflexivity. Qed.

(** C5, as the code has it.  On an initialized connection: when the
    ledger call of a list read returns an empty list or null, the read
    answers with the mirror's data and source temporary; when the ledger
    call of a read by id returns null, the read answers with the mirror's
    record and source fallback, or 404 when the mirror has no such
    record. *)
Theorem C5_empty_answer_served_from_mirror :
  (forall st req v t',
      WasteController.blockchainInitialized st = true ->
      queryAll client "farmer" "GetAllWastes" [] (WasteController.tick st)
      = (Returned v, t') ->
      emptyAnswer v ->
      let res := (WasteController.listWaste client req st).1 in
      status res = 200
      /\ get (payload res) "data" = Array (WasteController.tempWastes st)
      /\ get (payload res) "source" = Str "temporary")
  /\ (forall st req v t',
         ExtractionController.blockchainInitialized st = true ->
         queryAll client "processor" "GetAllExtractions" []
           (ExtractionController.tick st) = (Returned v, t') ->
         emptyAnswer v ->
         let res := (ExtractionController.listExtractions client req st).1 in
         status res = 200
         /\ get (payload res) "data"
            = Array (ExtractionController.extractions st)
         /\ get (payload res) "source" = Str "temporary")
  /\ (forall st req v t',
         RecyclingController.blockchainInitialized st = true ->
         queryAll client "recycler" "GetAllRecyclings" []
           (RecyclingController.tick st) = (Returned v, t') ->
         emptyAnswer v ->
         let res := (RecyclingController.listRecyclings client req st).1 in
         status res = 200
         /\ get (payload res) "data"
            = Array (RecyclingController.recyclings st)
         /\ get (payload res) "source" = Str "temporary")
  /\ (forall st req t',
         ExtractionController.blockchainInitialized st = true ->
         truthy (get (params req) "extractionId") = true ->
         query client "processor" "GetExtraction"
           [get (params req) "extractionId"] (ExtractionController.tick st)
         = (Returned Null, t') ->
         let res := (ExtractionController.getExtractionById client req st).1
         in
         match
           ExtractionController.findExtraction
             (get (params req) "extractionId")
             (ExtractionController.extractions st)
         with
         | Some extraction =>
             status res = 200
             /\ get (payload res) "data" = extraction
             /\ get (payload res) "source" = Str "fallback"
         | None => status res = 404
         end)
  /\ (forall st req t',
         RecyclingController.blockchainInitialized st = true ->
         truthy (get (params req) "recyclingId") = true ->
         query client "recycler" "GetRecycling"
           [get (params req) "recyclingId"] (RecyclingController.tick st)
         = (Returned Null, t') ->
         let res := (RecyclingController.getRecyclingById client req st).1 in
         match
           RecyclingController.findRecycling
             (get (params req) "recyclingId")
             (RecyclingController.recyclings st)
         with
         | Some recycling =>
             status res = 200
             /\ get (payload res) "data" = recycling
             /\ get (payload res) "source" = Str "fallback"
         | None => status res = 404
         end).
Proof.
  split; [|split; [|split; [|split]]].
  - intros st req v t' Hinit Hq Hv. cbv zeta.
    unfold WasteController.listWaste.
    rewrite Hinit, Hq, (emptyAnswer_no_rows v Hv). repeat split.
  - intros st req v t' Hinit Hq Hv. cbv zeta.
    unfold ExtractionController.listExtractions.
    rewrite Hinit, Hq, (emptyAnswer_no_rows v Hv). repeat split.
  - intros st req v t' Hinit Hq Hv. cbv zeta.
    unfold RecyclingController.listRecyclings.
    rewrite Hinit, Hq, (emptyAnswer_no_rows v Hv). repeat split.
  - intros st req t' Hinit Hid Hq. cbv zeta.
    unfold ExtractionController.getExtractionById.
    rewrite Hid, Hinit, Hq. cbn [negb truthy].
    unfold ExtractionController.searchTemporary. rewrite Hinit.
    destruct (ExtractionController.findExtraction _ _); repeat split.
  - intros st req t' Hinit Hid Hq. cbv zeta.
    unfold RecyclingController.getRecyclingById.
    rewrite Hid, Hinit, Hq. cbn [negb truthy].
    unfold RecyclingController.searchTemporary. rewrite Hinit.
    destruct (RecyclingController.findRecycling _ _); repeat split.
Qed.

(** The reads by waste id have no branch for an empty answer: the list
    they return is then empty, whatever the mirror holds, under the
    source temporary. *)
Lemma by_waste_empty_answer_returns_nothing st req v t' :
  ExtractionController.blockchainInitialized st = true ->
  truthy (get (params req) "wasteId") = true ->
  query client "processor" "GetExtractionsByWasteId"
    [get (params req) "wasteId"] (ExtractionController.tick st)
  = (Returned v, t') ->
  emptyAnswer v ->
  let res := (ExtractionController.getExtractionsByWasteId client req st).1 in
  status res = 200
  /\ get (payload res) "data" = Array []
  /\ get (payload res) "source" = Str "temporary".
Proof.
  intros Hinit Hid Hq Hv. cbv zeta.
  unfold ExtractionController.getExtractionsByWasteId.
  rewrite Hid, Hinit, Hq, (emptyAnswer_no_rows v Hv). repeat split.
Qed.

(** addWaste's validation is a presence check: a negative quantity is
    truthy and passes it. *)
Lemma addWaste_accepts_negative_quantity st type harvestDate wasteStatus :
  truthy type = true -> truthy harvestDate = true ->
  truthy wasteStatus = true ->
  let req :=
    {| body :=
         Object [("wasteData",
                  Object [("type", type);
                          ("quantity", Number (-5)%float);
                          ("harvestDate", harvestDate);
                          ("status", wasteStatus)])];
       params := Object [] |} in
  status (WasteController.addWaste client req st).1 = 201.
Proof.
  intros Ht Hh Hs. cbv zeta. unfold WasteController.addWaste.
  cbn [body get lookupProp String.eqb Ascii.eqb Bool.eqb truthy negb].
  rewrite Ht, Hh, Hs.
  replace (truthy (Number (-5)%float)) with true by reflexivity.
  cbn [negb orb].
  destruct (WasteController.blockchainInitialized st); [|reflexivity].
  destruct (submitTransaction _ _ _ _ _) as [[?|?] ?]; reflexivity.
Qed.

End AnyClient.

Section ExportedClient.
Context `{Engine}.
Variable walletReady : bool.

Local Abbreviation exported := (EnhancedClient.client walletReady).

(** With the exported class the controllers' flag ends up true, whether
    or not the wallet could be set up. *)
Lemma exported_client_always_initialized st :
  WasteController.blockchainInitialized
    (WasteController.initializeBlockchain exported st) = true.
Proof. reflexivity. Qed.


End ExportedClient.

(** ** The properties on sample requests *)

Import SampleEngine.


(** C5 fails as stated for a read by id: on an initialized connection
    whose ledger answers null, the default extraction is served from the
    mirror under the source fallback. *)
Lemma C5_counterexample :
  let client := EnhancedClient.client true in
  let st := extractionReady client in
  let req :=
    {| body := Object [];
       params := Object [("extractionId", Str "EXTRACTION_DEFAULT_1")] |} in
  ExtractionController.blockchainInitialized st = true
  /\ (query client "processor" "GetExtraction"
        [Str "EXTRACTION_DEFAULT_1"] (ExtractionController.tick st)).1
     = Returned Null
  /\ status (ExtractionController.getExtractionById client req st).1 = 200
  /\ get (get (payload
                 (ExtractionController.getExtractionById client req st).1)
            "data") "id" = Str "EXTRACTION_DEFAULT_1"
  /\ get (payload (ExtractionController.getExtractionById client req st).1)
       "source" = Str "fallback".
Proof. vm_compute. auto. Qed.

Lemma C5_witness :
  let client := EnhancedClient.client true in
  let st := wasteReady client in
  let res :=
    (WasteController.listWaste client
       {| body := Object []; params := Object [] |} st).1 in
  let byId :=
    {| body := Object [];
       params := Object [("extractionId", Str "EXTRACTION_DEFAULT_1")] |} in
  let res' :=
    (ExtractionController.getExtractionById client byId
       (extractionReady client)).1 in
  WasteController.blockchainInitialized st = true
  /\ queryAll client "farmer" "GetAllWastes" [] (WasteController.tick st)
     = (Returned (Array []), 5)
  /\ (status res = 200
      /\ get (payload res) "data" = Array (WasteController.tempWastes st)
      /\ get (payload res) "source" = Str "temporary")
  /\ status res' = 200
  /\ get (get (payload res') "data") "id" = Str "EXTRACTION_DEFAULT_1"
  /\ get (payload res') "source" = Str "fallback".
Proof.
  cbv zeta.
  assert (Hinit : WasteController.blockchainInitialized
                    (wasteReady (EnhancedClient.client true)) = true)
    by reflexivity.
  assert (Hq : queryAll (EnhancedClient.client true) "farmer" "GetAllWastes"
                 [] (WasteController.tick
                       (wasteReady (EnhancedClient.client true)))
               = (Returned (Array []), 5)) by reflexivity.
  split; [exact Hinit|]. split; [exact Hq|]. split.
  - exact (proj1 (C5_empty_answer_served_from_mirror
                    (EnhancedClient.client true))
             (wasteReady (EnhancedClient.client true))
             {| body := Object []; params := Object [] |} (Array []) 5
             Hinit Hq (or_introl eq_refl)).
  - pose proof
      (proj1 (proj2 (proj2 (proj2 (C5_empty_answer_served_from_mirror
                                     (EnhancedClient.client true)))))
         (extractionReady (EnhancedClient.client true))
         {| body := Object [];
            params := Object [("extractionId",
                               Str "EXTRACTION_DEFAULT_1")] |}
         2 eq_refl eq_refl eq_refl) as Hbyid.
    cbv zeta in Hbyid.
    destruct (ExtractionController.findExtraction _ _) as [extraction|]
      eqn:Hfind in Hbyid; [|vm_compute in Hfind; discriminate].
    destruct Hbyid as (Hst & Hdata & Hsrc).
    split; [exact Hst|]. split; [|exact Hsrc].
    rewrite Hdata. vm_compute in Hfind. injection Hfind as <-. reflexivity.
Defined.


End ControllerFacts.


(** * Further facts about the ledger program with histories *)

Module LedgerFacts.
Import Chaincode ChaincodeSpec LedgerSpec ChaincodeFacts.

Section Operations.
Context `{Clock} `{Fmt}.

Lemma world_eta (w : World float64) :
  {| ledger := ledger w; readings := readings w |} = w.
Proof. by destruct w. Qed.

Lemma submit_ReadWaste_world (w : World float64) id :
  (submit (ReadWaste id) w).2 = w.
Proof.
  unfold submit. rewrite ReadWaste_eq. cbn [begin committed].
  destruct (wasteAt (ledger w) id); cbn;
    rewrite ?(left_id_L ∅ (∪)); apply world_eta.
Qed.

Lemma submit_CreateWaste_taken (w : World float64) id wasteType quantity
  harvestDate owner farm location doc :
  ledger w !! ("WASTE_" +:+ id) = Some doc ->
  submit (CreateWaste id wasteType quantity harvestDate owner farm location)
    w = (Err ("waste " +:+ id +:+ " already exists"), w).
Proof.
  intros Hdoc.
  unfold submit, CreateWaste, WasteExists, bind, wrapErr, GetState, ret, fail.
  cbn [begin committed]. rewrite Hdoc. cbn. by rewrite world_eta.
Qed.

(** X1.  An id already in use is refused: CreateWaste, CreateExtraction
    and CreateRecycling on a taken id return the already-exists error
    and leave the world as it was. *)
Theorem duplicate_ids_refused :
  (forall (w : World float64) id wasteType quantity harvestDate owner farm
          location doc,
      ledger w !! ("WASTE_" +:+ id) = Some doc ->
      submit (CreateWaste id wasteType quantity harvestDate owner farm
                location) w
      = (Err ("waste " +:+ id +:+ " already exists"), w))
  /\ (forall (w : World float64) id wasteId productType quantity quality
             processor waste doc,
         (submit (ReadWaste wasteId) w).1 = Ok waste ->
         ledger w !! ("EXTRACTION_" +:+ id) = Some doc ->
         submit (CreateExtraction id wasteId productType quantity quality
                   processor) w
         = (Err ("extraction " +:+ id +:+ " already exists"), w))
  /\ (forall (w : World float64) id wasteId recycledProduct quantity method
             recycler waste doc,
         (submit (ReadWaste wasteId) w).1 = Ok waste ->
         ledger w !! ("RECYCLING_" +:+ id) = Some doc ->
         submit (CreateRecycling id wasteId recycledProduct quantity method
                   recycler) w
         = (Err ("recycling " +:+ id +:+ " already exists"), w)).
Proof.
  split; [|split].
  - intros w id wasteType quantity harvestDate owner farm location doc Hdoc.
    by eapply submit_CreateWaste_taken.
  - intros w id wasteId productType quantity quality processor waste doc
      Hw Hdoc.
    rewrite submit_ReadWaste in Hw.
    assert (Hrun : CreateExtraction id wasteId productType quantity quality
                     processor (begin w)
                   = (Err ("extraction " +:+ id +:+ " already exists"),
                      begin w)).
    { unfold CreateExtraction, bind, wrapErr. rewrite ReadWaste_eq.
      cbn [begin committed]. rewrite Hw. unfold GetState.
      cbn [begin committed]. by rewrite Hdoc. }
    rewrite (submit_Err _ _ _ _ Hrun). cbn [ticks begin].
    by rewrite world_eta.
  - intros w id wasteId recycledProduct quantity method recycler waste doc
      Hw Hdoc.
    rewrite submit_ReadWaste in Hw.
    assert (Hrun : CreateRecycling id wasteId recycledProduct quantity method
                     recycler (begin w)
                   = (Err ("recycling " +:+ id +:+ " already exists"),
                      begin w)).
    { unfold CreateRecycling, bind, wrapErr. rewrite ReadWaste_eq.
      cbn [begin committed]. rewrite Hw. unfold GetState.
      cbn [begin committed]. by rewrite Hdoc. }
    rewrite (submit_Err _ _ _ _ Hrun). cbn [ticks begin].
    by rewrite world_eta.
Qed.

Lemma CreateWaste_run id wasteType quantity harvestDate owner farm location
  (c : TxContext float64) :
  committed c !! ("WASTE_" +:+ id) = None ->
  CreateWaste id wasteType quantity harvestDate owner farm location c
  = match
      marshalWaste
        (wasteRecord id wasteType quantity harvestDate owner farm location
           (clock (ticks c)) (clock (1 + ticks c)) (clock (2 + ticks c)))
    with
    | Ok j => (Ok tt, {| committed := committed c;
                         writes := <["WASTE_" +:+ id := j]> (writes c);
                         ticks := 3 + ticks c |})
    | Err e => (Err e, {| committed := committed c; writes := writes c;
                          ticks := 3 + ticks c |})
    end.
Proof.
  intros Hfresh.
  unfold CreateWaste, WasteExists, bind, wrapErr, GetState, ret, timeNow,
    liftR.
  rewrite Hfresh. cbn [ticks committed writes].
  fold (wasteRecord id wasteType quantity harvestDate owner farm location
          (clock (ticks c)) (clock (S (ticks c))) (clock (S (S (ticks c))))).
  destruct (marshalWaste _); reflexivity.
Qed.

Lemma marshalWaste_finite w :
  isFinite (w_Quantity w) = true -> exists j, marshalWaste w = Ok j.
Proof. intros Hf. unfold marshalWaste. rewrite Hf. eauto. Qed.

Lemma marshalWaste_not_finite w :
  isFinite (w_Quantity w) = false ->
  marshalWaste w = Err (unsupportedValue (w_Quantity w)).
Proof. intros Hf. unfold marshalWaste. by rewrite Hf. Qed.

Lemma submit_CreateWaste_eq (w : World float64) id wasteType quantity
  harvestDate owner farm location :
  ledger w !! ("WASTE_" +:+ id) = None ->
  submit (CreateWaste id wasteType quantity harvestDate owner farm location)
    w
  = match
      marshalWaste
        (wasteRecord id wasteType quantity harvestDate owner farm location
           (clock (readings w)) (clock (1 + readings w))
           (clock (2 + readings w)))
    with
    | Ok j => (Ok tt, {| ledger := <["WASTE_" +:+ id := j]> (ledger w);
                         readings := 3 + readings w |})
    | Err e => (Err e, {| ledger := ledger w; readings := 3 + readings w |})
    end.
Proof.
  intros Hfresh. unfold submit.
  rewrite (CreateWaste_run id wasteType quantity harvestDate owner farm
             location (begin w) Hfresh).
  cbn [begin ticks committed writes].
  destruct (marshalWaste _); cbn [writes ticks]; [|reflexivity].
  by rewrite commit_one.
Qed.


Lemma wasteAt_missing (l : gmap string (json float64)) id :
  l !! ("WASTE_" +:+ id) = None ->
  wasteAt l id = Err ("waste " +:+ id +:+ " does not exist").
Proof. intros Hm. unfold wasteAt. by rewrite Hm. Qed.

Lemma submit_unchanged {A} (tx : Tx A) (w : World float64) e :
  tx (begin w) = (Err e, begin w) -> submit tx w = (Err e, w).
Proof.
  intros Hrun. rewrite (submit_Err _ _ _ _ Hrun). cbn [ticks begin].
  by rewrite world_eta.
Qed.

Lemma GetTraceability_eq wasteId (c : TxContext float64) :
  GetTraceability wasteId c
  = match wasteAt (committed c) wasteId with
    | Ok waste =>
        (Ok {| t_Waste := Some waste;
               t_Extraction := firstExtractionOf wasteId (committed c);
               t_Recycling := firstRecyclingOf wasteId (committed c);
               t_Chain :=
                 w_History waste
                 ++ segment e_History
                      (firstExtractionOf wasteId (committed c))
                 ++ segment r_History
                      (firstRecyclingOf wasteId (committed c)) |}, c)
    | Err e => (Err e, c)
    end.
Proof.
  unfold GetTraceability, bind. rewrite ReadWaste_eq.
  destruct (wasteAt (committed c) wasteId) as [waste|e]; [|reflexivity].
  unfold GetStateByRange, ret.
  rewrite scanExtractions_find, scanRecyclings_find.
  fold (storedExtractions (committed c)) (storedRecyclings (committed c)).
  fold (firstExtractionOf wasteId (committed c))
       (firstRecyclingOf wasteId (committed c)).
  destruct (firstExtractionOf wasteId (committed c)) as [e|];
    destruct (firstRecyclingOf wasteId (committed c)) as [r|];
    cbn [t_Waste t_Extraction t_Recycling t_Chain segment];
    rewrite ?app_nil_r, <- ?app_assoc; reflexivity.
Qed.

(** X3.  With no waste stored under an id, ReadWaste, GetWasteHistory,
    GetTraceability and UpdateWasteStatus all return the error
    [waste <id> does not exist] and leave the world as it was, and
    WasteExists answers false. *)
Theorem missing_waste_is_reported (w : World float64)
  (id newStatus actor details : string)
  (Hmissing : ledger w !! ("WASTE_" +:+ id) = None) :
  let notFound := "waste " +:+ id +:+ " does not exist" in
  submit (ReadWaste id) w = (Err notFound, w)
  /\ submit (GetWasteHistory id) w = (Err notFound, w)
  /\ submit (GetTraceability id) w = (Err notFound, w)
  /\ submit (UpdateWasteStatus id newStatus actor details) w
     = (Err notFound, w)
  /\ (submit (WasteExists id) w).1 = Ok false.
Proof.
  intros notFound.
  pose proof (wasteAt_missing (ledger w) id Hmissing) as Hw.
  repeat split.
  - apply submit_unchanged. rewrite ReadWaste_eq. cbn [begin committed].
    by rewrite Hw.
  - apply submit_unchanged. unfold GetWasteHistory, bind.
    rewrite ReadWaste_eq. cbn [begin committed]. by rewrite Hw.
  - apply submit_unchanged. rewrite GetTraceability_eq.
    cbn [begin committed]. by rewrite Hw.
  - apply submit_unchanged. by apply UpdateWasteStatus_err.
  - unfold submit, WasteExists, bind, wrapErr, GetState, ret.
    cbn [begin committed]. by rewrite Hmissing.
Qed.

Lemma not_finite_extraction e :
  isFinite (e_Quantity e) = false ->
  marshalExtraction e = Err (unsupportedValue (e_Quantity e)).
Proof. intros Hf. unfold marshalExtraction. by rewrite Hf. Qed.

Lemma not_finite_recycling r :
  isFinite (r_Quantity r) = false ->
  marshalRecycling r = Err (unsupportedValue (r_Quantity r)).
Proof. intros Hf. unfold marshalRecycling. by rewrite Hf. Qed.

(** X4.  A quantity that is NaN or infinite cannot be encoded: on a free
    id, CreateWaste, CreateExtraction and CreateRecycling return the
    encoder's unsupported-value error and the ledger is left as it was;
    in particular the referenced waste keeps its status. *)
Theorem non_finite_quantity_refused (w : World float64)
  (quantity : float64) (Hnot : isFinite quantity = false) :
  (forall id wasteType harvestDate owner farm location,
      ledger w !! ("WASTE_" +:+ id) = None ->
      let r := submit (CreateWaste id wasteType quantity harvestDate owner
                         farm location) w in
      r.1 = Err (unsupportedValue quantity) /\ ledger r.2 = ledger w)
  /\ (forall id wasteId productType quality processor waste,
         (submit (ReadWaste wasteId) w).1 = Ok waste ->
         ledger w !! ("EXTRACTION_" +:+ id) = None ->
         let r := submit (CreateExtraction id wasteId productType quantity
                            quality processor) w in
         r.1 = Err (unsupportedValue quantity) /\ ledger r.2 = ledger w)
  /\ (forall id wasteId recycledProduct method recycler waste,
         (submit (ReadWaste wasteId) w).1 = Ok waste ->
         ledger w !! ("RECYCLING_" +:+ id) = None ->
         let r := submit (CreateRecycling id wasteId recycledProduct quantity
                            method recycler) w in
         r.1 = Err (unsupportedValue quantity) /\ ledger r.2 = ledger w).
Proof.
  split; [|split].
  - intros id wasteType harvestDate owner farm location Hfresh. cbv zeta.
    rewrite (submit_CreateWaste_eq w id wasteType quantity harvestDate owner
               farm location Hfresh).
    rewrite marshalWaste_not_finite by exact Hnot. split; reflexivity.
  - intros id wasteId productType quality processor waste Hw Hfresh.
    cbv zeta. rewrite submit_ReadWaste in Hw.
    unfold submit, CreateExtraction, bind, wrapErr. rewrite ReadWaste_eq.
    cbn [begin committed]. rewrite Hw. unfold GetState.
    cbn [begin committed]. rewrite Hfresh.
    unfold timeNow, liftR. cbn [ticks committed writes].
    rewrite not_finite_extraction by exact Hnot. split; reflexivity.
  - intros id wasteId recycledProduct method recycler waste Hw Hfresh.
    cbv zeta. rewrite submit_ReadWaste in Hw.
    unfold submit, CreateRecycling, bind, wrapErr. rewrite ReadWaste_eq.
    cbn [begin committed]. rewrite Hw. unfold GetState.
    cbn [begin committed]. rewrite Hfresh.
    unfold timeNow, liftR. cbn [ticks committed writes].
    rewrite not_finite_recycling by exact Hnot. split; reflexivity.
Qed.


(** *** Sequences of invocations *)

Lemma key_EXTRACTION_RECYCLING a b :
  "EXTRACTION_" +:+ a <> "RECYCLING_" +:+ b.
Proof. discriminate. Qed.

Lemma wasteAt_insert_ne key id (doc : json float64) l :
  key <> "WASTE_" +:+ id -> wasteAt (<[key := doc]> l) id = wasteAt l id.
Proof. intros Hne. unfold wasteAt. by rewrite lookup_insert_ne. Qed.

Lemma wasteAt_is_Some l id waste :
  wasteAt l id = Ok waste -> is_Some (l !! ("WASTE_" +:+ id)).
Proof.
  unfold wasteAt. destruct (l !! ("WASTE_" +:+ id)); [eauto | discriminate].
Qed.

Lemma submit_InitLedger_eq (w : World float64) :
  exists doc,
    unmarshalWaste doc
    = Ok (sampleWaste (clock (readings w)) (clock (1 + readings w))
            (clock (2 + readings w)))
    /\ submit InitLedger w
       = (Ok tt, {| ledger := <["WASTE_" +:+ "waste1" := doc]> (ledger w);
                    readings := 3 + readings w |}).
Proof.
  destruct (marshalWaste_finite
              (sampleWaste (clock (readings w)) (clock (1 + readings w))
                 (clock (2 + readings w))) eq_refl) as [doc Hdoc].
  exists doc. split; [by apply unmarshal_marshalWaste|].
  unfold submit, InitLedger, bind, timeNow, liftR, wrapErr.
  cbn [ticks committed writes begin].
  fold (sampleWaste (clock (readings w)) (clock (S (readings w)))
          (clock (S (S (readings w))))).
  cbn [Nat.add] in Hdoc. rewrite Hdoc.
  cbn [w_ID sampleWaste]. rewrite PutState_prefixed by reflexivity.
  cbn [writes ticks committed]. by rewrite commit_one.
Qed.

Lemma write_mono l l' b : write false l l' -> write b l l'.
Proof.
  intros Hw. destruct Hw; try discriminate.
  - by apply write_waste.
  - by apply write_extraction.
  - by apply write_recycling.
  - by eapply write_status.
Qed.

(** What an invocation does to the ledger is a sequence of such writes:
    none when it is rejected, one for a waste or a status update, two
    for an extraction or a recycling. *)
Lemma invoke_writes (w : World float64) k :
  rtc (write (isInitLedger k)) (ledger w) (ledger (invoke w k)).
Proof.
  unfold invoke.
  destruct (submit (run k) w) as [[[]|e] w'] eqn:Hsub;
    cbn [snd];
    [|rewrite (ledger_submit_Err _ _ _ _ Hsub); reflexivity].
  destruct k as
      [|id wasteType quantity harvestDate owner farm location
       |id newStatus actor details
       |id wasteId productType quantity quality processor
       |id wasteId recycledProduct quantity method recycler];
    cbn [run isInitLedger] in *.
  - destruct (submit_InitLedger_eq w) as (doc & Hdoc & Heq).
    rewrite Heq in Hsub. injection Hsub as <-. cbn [ledger].
    apply rtc_once. by eapply write_sample.
  - destruct (ledger w !! ("WASTE_" +:+ id)) as [doc|] eqn:Hkey.
    { rewrite (submit_CreateWaste_taken w id wasteType quantity harvestDate
                 owner farm location doc Hkey) in Hsub. discriminate. }
    rewrite (submit_CreateWaste_eq w id wasteType quantity harvestDate owner
               farm location Hkey) in Hsub.
    destruct (marshalWaste _) as [j|] eqn:Hj; [|discriminate].
    injection Hsub as <-. cbn [ledger].
    apply unmarshal_marshalWaste in Hj.
    apply rtc_once.
    by apply (write_waste _ _ j
                (wasteRecord id wasteType quantity harvestDate owner farm
                   location (clock (readings w)) (clock (1 + readings w))
                   (clock (2 + readings w)))).
  - destruct (wasteAt (ledger w) id) as [waste|e] eqn:Hw.
    + destruct (submit_UpdateWasteStatus w id newStatus actor details waste
                  Hw) as (j & Hj & Heq).
      rewrite Heq in Hsub. injection Hsub as <-. cbn [ledger].
      apply rtc_once. by eapply write_status.
    + pose proof (UpdateWasteStatus_err id newStatus actor details (begin w)
                    e Hw) as Herr.
      rewrite (submit_Err _ _ _ _ Herr) in Hsub. discriminate.
  - apply submit_CreateExtraction_inv in Hsub
      as (waste & je & jw & Hw & Hfresh & Hje & Hjw & ->).
    eapply rtc_l; [|apply rtc_once].
    + apply (write_extraction _ _ je
               (extractionRecord id wasteId productType quantity quality
                  processor (clock (readings w)) (clock (1 + readings w))
                  (clock (2 + readings w))));
        [exact Hfresh | exact Hje |].
      by eapply wasteAt_is_Some.
    + eapply write_status; [|exact Hjw].
      rewrite wasteAt_insert_ne; [exact Hw|].
      intros Heq. by apply (key_WASTE_EXTRACTION wasteId id).
  - apply submit_CreateRecycling_inv in Hsub
      as (waste & jr & jw & Hw & Hfresh & Hjr & Hjw & ->).
    eapply rtc_l; [|apply rtc_once].
    + apply (write_recycling _ _ jr
               (recyclingRecord id wasteId recycledProduct quantity method
                  recycler (clock (readings w)) (clock (1 + readings w))
                  (clock (2 + readings w))));
        [exact Hfresh | exact Hjr |].
      by eapply wasteAt_is_Some.
    + eapply write_status; [|exact Hjw].
      rewrite wasteAt_insert_ne; [exact Hw|].
      intros Heq. by apply (key_WASTE_RECYCLING wasteId id).
Qed.

Lemma fold_writes (b : bool) calls (w : World float64) :
  Forall (fun k => isInitLedger k = true -> b = true) calls ->
  rtc (write b) (ledger w) (ledger (fold_left invoke calls w)).
Proof.
  revert w. induction calls as [|k calls IH]; intros w Hcalls; [reflexivity|].
  apply Forall_cons in Hcalls as [Hk Hcalls]. cbn [fold_left].
  etrans; [|by apply IH].
  pose proof (invoke_writes w k) as Hstep.
  destruct (isInitLedger k).
  - by rewrite (Hk eq_refl).
  - eapply rtc_subrel; [|exact Hstep]. intros. by apply write_mono.
Qed.

Lemma fold_writes_any calls (w : World float64) :
  rtc (write true) (ledger w) (ledger (fold_left invoke calls w)).
Proof. apply fold_writes. by apply Forall_forall. Qed.

(** A write keeps every key, and every document that is not a waste. *)
Lemma write_keeps b l l' key doc :
  write b l l' -> l !! key = Some doc ->
  is_Some (l' !! key)
  /\ ((forall id, key <> "WASTE_" +:+ id) -> l' !! key = Some doc).
Proof.
  intros Hw Hkey.
  destruct Hw as [d waste Hfresh _|d e Hfresh _ _|d r Hfresh _ _
                 |id waste d ? ? ? ? ? _ _|d ? ? ? _ _].
  all: match goal with
       | |- context [<[?k := _]> _] =>
           destruct (decide (k = key)) as [<-|Hne]
       end.
  all: try congruence.
  all: try (rewrite lookup_insert_ne by exact Hne; by eauto).
  all: rewrite lookup_insert_eq; split; [by eauto|];
    intros Hnot; by destruct (Hnot _ eq_refl).
Qed.

(** X6.  Nothing is ever deleted or replaced but a waste: whatever is
    invoked, in any order and accepted or not, a key of the ledger stays
    a key, and the document of an extraction or of a recycling stays the
    document it was when it was stored. *)
Theorem records_persist (w : World float64) (calls : list call) :
  let after := ledger (fold_left invoke calls w) in
  (forall key, is_Some (ledger w !! key) -> is_Some (after !! key))
  /\ (forall id doc,
         ledger w !! ("EXTRACTION_" +:+ id) = Some doc ->
         after !! ("EXTRACTION_" +:+ id) = Some doc)
  /\ (forall id doc,
         ledger w !! ("RECYCLING_" +:+ id) = Some doc ->
         after !! ("RECYCLING_" +:+ id) = Some doc).
Proof.
  cbv zeta. pose proof (fold_writes_any calls w) as Hrtc.
  induction Hrtc as [l|l l1 l2 Hstep _ IH].
  { repeat split; auto. }
  destruct IH as (IHk & IHe & IHr). repeat split.
  - intros key [doc Hdoc]. apply IHk.
    by apply (write_keeps _ _ _ _ _ Hstep Hdoc).
  - intros id doc Hdoc. apply IHe.
    apply (write_keeps _ _ _ _ _ Hstep Hdoc).
    intros id' Heq. by apply (key_WASTE_EXTRACTION id' id).
  - intros id doc Hdoc. apply IHr.
    apply (write_keeps _ _ _ _ _ Hstep Hdoc).
    intros id' Heq. by apply (key_WASTE_RECYCLING id' id).
Qed.

Lemma sameIdentity_refl a : sameIdentity a a.
Proof. by repeat split. Qed.

Lemma sameIdentity_trans a b c :
  sameIdentity a b -> sameIdentity b c -> sameIdentity a c.
Proof.
  unfold sameIdentity. intros (?&?&?&?&?&?&?&?) (?&?&?&?&?&?&?&?).
  repeat split; congruence.
Qed.

Lemma sameIdentity_updated a newStatus actor details t1 t2 :
  sameIdentity a (updatedWaste a newStatus actor details t1 t2).
Proof. by repeat split. Qed.

(** A write other than the sample waste's leaves a stored waste as it is
    or appends one STATUS_CHANGED event to it. *)
Lemma write_waste_grows b l l' id waste :
  write b l l' -> (b = true -> id <> "waste1") ->
  wasteAt l id = Ok waste ->
  exists waste' later,
    wasteAt l' id = Ok waste'
    /\ sameIdentity waste waste'
    /\ w_History waste' = (w_History waste ++ later)%list
    /\ Forall (fun e => h_Action e = "STATUS_CHANGED") later.
Proof.
  intros Hw Hb Hwaste.
  assert (Hsame : forall key doc,
             key <> "WASTE_" +:+ id ->
             exists waste' later,
               wasteAt (<[key := doc]> l) id = Ok waste'
               /\ sameIdentity waste waste'
               /\ w_History waste' = (w_History waste ++ later)%list
               /\ Forall (fun e => h_Action e = "STATUS_CHANGED") later).
  { intros key doc Hne. exists waste, []. rewrite wasteAt_insert_ne by done.
    rewrite app_nil_r. repeat split; auto. }
  destruct Hw as [d waste0 Hfresh _|d e _ _ _|d r _ _ _
                 |id0 waste0 d newStatus actor details t1 t2 Hw0 Hd
                 |d t1 t2 t3 Hreset _].
  - apply Hsame. intros Heq. apply wasteAt_is_Some in Hwaste as [? Hs].
    rewrite <- Heq in Hs. congruence.
  - apply Hsame. intros Heq. by apply (key_WASTE_EXTRACTION id (e_ID e)).
  - apply Hsame. intros Heq. by apply (key_WASTE_RECYCLING id (r_ID r)).
  - destruct (decide (id0 = id)) as [->|Hne].
    + assert (waste0 = waste) as -> by congruence.
      eexists _, _. rewrite wasteAt_insert_eq. split; [exact Hd|].
      split; [apply sameIdentity_updated|]. split; [reflexivity|].
      by repeat constructor.
    + apply Hsame. intros Heq. apply Hne. by apply key_WASTE_inj.
  - apply Hsame. intros Heq. apply (Hb Hreset). symmetry.
    by apply key_WASTE_inj.
Qed.

Lemma writes_waste_grow b l l' id waste :
  rtc (write b) l l' -> (b = true -> id <> "waste1") ->
  wasteAt l id = Ok waste ->
  exists waste' later,
    wasteAt l' id = Ok waste'
    /\ sameIdentity waste waste'
    /\ w_History waste' = (w_History waste ++ later)%list
    /\ Forall (fun e => h_Action e = "STATUS_CHANGED") later.
Proof.
  intros Hrtc Hb. revert waste.
  induction Hrtc as [l|l l1 l2 Hstep _ IH]; intros waste Hwaste.
  { exists waste, []. rewrite app_nil_r. repeat split; auto. }
  destruct (write_waste_grows _ _ _ _ _ Hstep Hb Hwaste)
    as (waste1 & later1 & Hw1 & Hid1 & Hh1 & Hall1).
  destruct (IH waste1 Hw1) as (waste2 & later2 & Hw2 & Hid2 & Hh2 & Hall2).
  exists waste2, (later1 ++ later2)%list. split; [exact Hw2|].
  split; [by eapply sameIdentity_trans|].
  split; [by rewrite Hh2, Hh1, app_assoc|].
  by apply Forall_app.
Qed.

(** X7.  A stored waste keeps its identity and its past: over any
    sequence of invocations (none of them InitLedger when the waste is
    [waste1]) the waste can still be read, its id, type, quantity,
    harvest date, owner, farm, location and creation time are what they
    were, and its history is the former history followed by
    STATUS_CHANGED events only. *)
Theorem waste_history_only_grows (w : World float64) (calls : list call)
  (id : string) (waste : Waste)
  (Hstored : (submit (ReadWaste id) w).1 = Ok waste)
  (Hplain : id = "waste1" ->
            forallb (fun k => negb (isInitLedger k)) calls = true) :
  exists waste' later,
    (submit (ReadWaste id) (fold_left invoke calls w)).1 = Ok waste'
    /\ sameIdentity waste waste'
    /\ w_History waste' = (w_History waste ++ later)%list
    /\ Forall (fun e => h_Action e = "STATUS_CHANGED") later.
Proof.
  rewrite submit_ReadWaste in Hstored.
  setoid_rewrite submit_ReadWaste.
  destruct (decide (id = "waste1")) as [Hid|Hid].
  - apply (writes_waste_grow false (ledger w)); [|discriminate|exact Hstored].
    apply fold_writes. specialize (Hplain Hid).
    rewrite forallb_forall in Hplain. apply Forall_forall.
    intros k Hk Hinit. apply list_elem_of_In, Hplain in Hk.
    by rewrite Hinit in Hk.
  - apply (writes_waste_grow true (ledger w)); [|done|exact Hstored].
    apply fold_writes_any.
Qed.

(** X8.  InitLedger has no existence check.  It always succeeds, and
    afterwards [waste1] is the sample waste with status COLLECTED and a
    single CREATED event, whatever was stored under that id before;
    every other key is untouched. *)
Theorem InitLedger_overwrites_waste1 (w : World float64) :
  let r := submit InitLedger w in
  r.1 = Ok tt
  /\ (submit (ReadWaste "waste1") r.2).1
     = Ok (sampleWaste (clock (readings w)) (clock (1 + readings w))
             (clock (2 + readings w)))
  /\ (forall key,
         key <> "WASTE_" +:+ "waste1" -> ledger r.2 !! key = ledger w !! key).
Proof.
  cbv zeta. destruct (submit_InitLedger_eq w) as (doc & Hdoc & ->).
  cbn [fst snd]. split; [reflexivity|]. split.
  - rewrite submit_ReadWaste. cbn [ledger].
    by rewrite wasteAt_insert_eq.
  - intros key Hne. cbn [ledger]. by rewrite lookup_insert_ne.
Qed.

(** *** Well-formed ledgers *)







(** *** Scans *)







(** *** Traceability after an extraction or a recycling *)




(** *** When the writes succeed *)

Lemma marshalExtraction_Ok e :
  isOk (marshalExtraction e) = isFinite (e_Quantity e).
Proof. unfold marshalExtraction. by destruct (isFinite (e_Quantity e)). Qed.

Lemma marshalRecycling_Ok r :
  isOk (marshalRecycling r) = isFinite (r_Quantity r).
Proof. unfold marshalRecycling. by destruct (isFinite (r_Quantity r)). Qed.

Lemma CreateExtraction_succeeds id wasteId productType quantity quality
  processor (c : TxContext float64) waste :
  wasteAt (committed c) wasteId = Ok waste ->
  committed c !! ("EXTRACTION_" +:+ id) = None ->
  isFinite quantity = true ->
  (CreateExtraction id wasteId productType quantity quality processor c).1
  = Ok tt.
Proof.
  intros Hw Hfresh Hfin.
  unfold CreateExtraction, bind at 1, wrapErr. rewrite ReadWaste_eq, Hw.
  unfold bind at 1, GetState. rewrite Hfresh.
  unfold bind, timeNow, liftR. cbn [ticks committed writes].
  fold (extractionRecord id wasteId productType quantity quality processor
          (clock (ticks c)) (clock (S (ticks c))) (clock (S (S (ticks c))))).
  pose proof (marshalExtraction_Ok
                (extractionRecord id wasteId productType quantity quality
                   processor (clock (ticks c)) (clock (S (ticks c)))
                   (clock (S (S (ticks c)))))) as Hok.
  cbn [e_Quantity extractionRecord] in Hok. rewrite Hfin in Hok.
  destruct (marshalExtraction _) as [je|]; [|discriminate].
  rewrite (PutState_prefixed "EXTRACTION_"); [|reflexivity].
  cbn [ticks committed writes].
  set (c1 := {| committed := committed c; writes := _; ticks := _ |}).
  destruct (UpdateWasteStatus_ok wasteId "PROCESSED" processor
              ("Used for " +:+ productType +:+ " extraction") c1 waste Hw)
    as (jw & Hjw & Hupd).
  by rewrite Hupd.
Qed.

Lemma CreateRecycling_succeeds id wasteId recycledProduct quantity method
  recycler (c : TxContext float64) waste :
  wasteAt (committed c) wasteId = Ok waste ->
  committed c !! ("RECYCLING_" +:+ id) = None ->
  isFinite quantity = true ->
  (CreateRecycling id wasteId recycledProduct quantity method recycler c).1
  = Ok tt.
Proof.
  intros Hw Hfresh Hfin.
  unfold CreateRecycling, bind at 1, wrapErr. rewrite ReadWaste_eq, Hw.
  unfold bind at 1, GetState. rewrite Hfresh.
  unfold bind, timeNow, liftR. cbn [ticks committed writes].
  fold (recyclingRecord id wasteId recycledProduct quantity method recycler
          (clock (ticks c)) (clock (S (ticks c))) (clock (S (S (ticks c))))).
  pose proof (marshalRecycling_Ok
                (recyclingRecord id wasteId recycledProduct quantity method
                   recycler (clock (ticks c)) (clock (S (ticks c)))
                   (clock (S (S (ticks c)))))) as Hok.
  cbn [r_Quantity recyclingRecord] in Hok. rewrite Hfin in Hok.
  destruct (marshalRecycling _) as [jr|]; [|discriminate].
  rewrite (PutState_prefixed "RECYCLING_"); [|reflexivity].
  cbn [ticks committed writes].
  set (c1 := {| committed := committed c; writes := _; ticks := _ |}).
  destruct (UpdateWasteStatus_ok wasteId "RECYCLED" recycler
              ("Recycled into " +:+ recycledProduct +:+ " using " +:+ method)
              c1 waste Hw) as (jw & Hjw & Hupd).
  by rewrite Hupd.
Qed.

Lemma submit_fst {A} (tx : Tx A) (w : World float64) :
  (submit tx w).1 = (tx (begin w)).1.
Proof. unfold submit. by destruct (tx (begin w)) as [[a|e] c]. Qed.

(** X12.  No write looks at the status a waste is in.  UpdateWasteStatus
    succeeds exactly when the waste can be read; CreateExtraction and
    CreateRecycling succeed exactly when the source waste can be read,
    the id of the new record is free and the quantity is finite: a
    waste already processed or recycled can be extracted from and
    recycled again. *)
Theorem writes_check_no_status (w : World float64)
  (id wasteId text actor details : string) (quantity : float64) :
  ((submit (UpdateWasteStatus wasteId text actor details) w).1 = Ok tt
   <-> isOk (submit (ReadWaste wasteId) w).1 = true)
  /\ ((submit (CreateExtraction id wasteId text quantity details actor) w).1
      = Ok tt
      <-> isOk (submit (ReadWaste wasteId) w).1 = true
          /\ ledger w !! ("EXTRACTION_" +:+ id) = None
          /\ isFinite quantity = true)
  /\ ((submit (CreateRecycling id wasteId text quantity details actor) w).1
      = Ok tt
      <-> isOk (submit (ReadWaste wasteId) w).1 = true
          /\ ledger w !! ("RECYCLING_" +:+ id) = None
          /\ isFinite quantity = true).
Proof.
  rewrite submit_ReadWaste. split; [|split].
  - destruct (wasteAt (ledger w) wasteId) as [waste|e] eqn:Hw.
    + destruct (submit_UpdateWasteStatus w wasteId text actor details waste
                  Hw) as (j & _ & ->). by split.
    + pose proof (UpdateWasteStatus_err wasteId text actor details (begin w)
                    e Hw) as Herr.
      rewrite (submit_Err _ _ _ _ Herr). by split.
  - split.
    + intros Hok.
      destruct (submit (CreateExtraction id wasteId text quantity details
                          actor) w) as [[[]|e] w'] eqn:Hsub;
        [|discriminate].
      apply submit_Ok_inv in Hsub as (c & Htx & _).
      apply CreateExtraction_inv in Htx
        as (waste & je & jw & Hw & Hfresh & Hje & _).
      cbn [begin committed] in Hw, Hfresh. rewrite Hw.
      split; [reflexivity|]. split; [exact Hfresh|].
      pose proof (marshalExtraction_Ok
                    (extractionRecord id wasteId text quantity details actor
                       (clock (ticks (begin w)))
                       (clock (1 + ticks (begin w)))
                       (clock (2 + ticks (begin w))))) as Hfin.
      by rewrite Hje in Hfin.
    + intros (Hw & Hfresh & Hfin).
      destruct (wasteAt (ledger w) wasteId) as [waste|] eqn:Hwaste;
        [|discriminate].
      rewrite submit_fst. by eapply CreateExtraction_succeeds.
  - split.
    + intros Hok.
      destruct (submit (CreateRecycling id wasteId text quantity details
                          actor) w) as [[[]|e] w'] eqn:Hsub;
        [|discriminate].
      apply submit_Ok_inv in Hsub as (c & Htx & _).
      apply CreateRecycling_inv in Htx
        as (waste & jr & jw & Hw & Hfresh & Hjr & _).
      cbn [begin committed] in Hw, Hfresh. rewrite Hw.
      split; [reflexivity|]. split; [exact Hfresh|].
      pose proof (marshalRecycling_Ok
                    (recyclingRecord id wasteId text quantity details actor
                       (clock (ticks (begin w)))
                       (clock (1 + ticks (begin w)))
                       (clock (2 + ticks (begin w))))) as Hfin.
      by rewrite Hjr in Hfin.
    + intros (Hw & Hfresh & Hfin).
      destruct (wasteAt (ledger w) wasteId) as [waste|] eqn:Hwaste;
        [|discriminate].
      rewrite submit_fst. by eapply CreateRecycling_succeeds.
Qed.

End Operations.

(** ** The properties on the sample ledgers *)

Import Sample.

Lemma duplicate_ids_witness :
  submit (CreateWaste "WASTE_A" "Leaves" 5%float "2025-06-02" "farmer2"
            "Olive Farm Beta" "Jaen, Spain") ledgerB
  = (Err "waste WASTE_A already exists", ledgerB)
  /\ submit (CreateExtraction "EXTR_A" "WASTE_A" "Pomace" 3%float "B"
               "processor2") ledgerB
     = (Err "extraction EXTR_A already exists", ledgerB).
Proof.
  destruct (@duplicate_ids_refused _ _) as (Hwaste & Hextraction & _).
  split.
  - eapply Hwaste. vm_compute. reflexivity.
  - eapply Hextraction; vm_compute; reflexivity.
Defined.

Lemma missing_waste_witness :
  submit (ReadWaste "WASTE_Z") ledgerA
  = (Err "waste WASTE_Z does not exist", ledgerA)
  /\ submit (GetTraceability "WASTE_Z") ledgerA
     = (Err "waste WASTE_Z does not exist", ledgerA)
  /\ submit (UpdateWasteStatus "WASTE_Z" "RECYCLED" "recycler1" "") ledgerA
     = (Err "waste WASTE_Z does not exist", ledgerA).
Proof.
  destruct (missing_waste_is_reported ledgerA "WASTE_Z" "RECYCLED"
              "recycler1" "") as (Hread & _ & Htrace & Hupdate & _);
    [vm_compute; reflexivity|].
  split; [exact Hread|]. split; [exact Htrace|exact Hupdate].
Defined.

Lemma non_finite_quantity_witness :
  isFinite infinity = false
  /\ (submit (CreateWaste "WASTE_I" "Branches" infinity "2025-06-01"
                "farmer1" "Olive Farm Alpha" "Andalusia, Spain") ledgerA).1
     = Err (unsupportedValue infinity)
  /\ (submit (CreateExtraction "EXTR_I" "WASTE_A" "Olive oil" infinity
                "Extra virgin" "processor1") ledgerA).1
     = Err (unsupportedValue infinity).
Proof.
  split; [reflexivity|].
  destruct (non_finite_quantity_refused ledgerA infinity eq_refl)
    as (Hwaste & Hextraction & _).
  split.
  - apply (Hwaste "WASTE_I" "Branches" "2025-06-01" "farmer1"
             "Olive Farm Alpha" "Andalusia, Spain").
    vm_compute. reflexivity.
  - apply (Hextraction "EXTR_I" "WASTE_A" "Olive oil" "Extra virgin"
             "processor1" wasteA); vm_compute; reflexivity.
Defined.


Lemma waste_history_witness :
  exists waste' later,
    (submit (ReadWaste "WASTE_A")
       (fold_left invoke
          [CallCreateExtraction "EXTR_A" "WASTE_A" "Olive oil" 10%float
             "Extra virgin" "processor1";
           CallInitLedger;
           CallUpdateWasteStatus "WASTE_A" "TRANSFERRED" "farmer1" ""]
          ledgerA)).1 = Ok waste'
    /\ sameIdentity wasteA waste'
    /\ w_History waste' = (w_History wasteA ++ later)%list
    /\ Forall (fun e => h_Action e = "STATUS_CHANGED") later.
Proof.
  apply waste_history_only_grows; [vm_compute; reflexivity|discriminate].
Defined.



End LedgerFacts.

(** * Further facts about the ledger program without histories *)

Module LegacyLedgerFacts.
Import LegacyChaincode LegacySpec.




Section Operations.
Context `{Clock} `{TimeParse}.

Lemma world_eta_legacy (w : World Z) :
  {| ledger := ledger w; readings := readings w |} = w.
Proof. by destruct w. Qed.







(** X15.  With nothing stored under an id, GetWaste and
    UpdateWasteStatus of the contract without histories return the
    error [le déchet <id> n'existe pas], and the world is as before. *)
Theorem legacy_missing_waste_is_reported (w : World Z)
  (id newStatus : string) (Hmissing : ledger w !! id = None) :
  let notFound := "le déchet " +:+ id +:+ " n'existe pas" in
  submit (GetWaste id) w = (Err notFound, w)
  /\ submit (UpdateWasteStatus id newStatus) w = (Err notFound, w).
Proof.
  cbv zeta.
  unfold submit, UpdateWasteStatus, GetWaste, bind, wrapErr, GetState, fail.
  cbn [begin committed]. rewrite Hmissing. cbn.
  by rewrite world_eta_legacy.
Qed.

End Operations.

(** ** The properties on the sample ledger *)

Import Sample LegacySample.


Lemma legacy_missing_waste_witness :
  submit (GetWaste "W9") legacyA = (Err "le déchet W9 n'existe pas", legacyA)
  /\ submit (UpdateWasteStatus "W9" "SOLD") legacyA
     = (Err "le déchet W9 n'existe pas", legacyA).
Proof.
  apply (legacy_missing_waste_is_reported legacyA "W9" "SOLD").
  vm_compute. reflexivity.
Defined.

End LegacyLedgerFacts.

(** * Further facts about the controllers *)

Module HandlerFacts.
Import HandlerSpec.

(** ** Objects *)

Lemma lookupProp_setProp_eq name v props :
  lookupProp name (setProp name v props) = v.
Proof.
  induction props as [|[k old] props IH]; cbn.
  - by rewrite String.eqb_refl.
  - destruct (String.eqb k name) eqn:Hk; cbn; by rewrite Hk.
Qed.

Lemma lookupProp_setProp_ne name k v props :
  k <> name -> lookupProp name (setProp k v props) = lookupProp name props.
Proof.
  intros Hne. induction props as [|[k' old] props IH]; cbn.
  - apply String.eqb_neq in Hne. by rewrite Hne.
  - destruct (String.eqb k' k) eqn:Hk; cbn.
    + apply String.eqb_eq in Hk as ->. apply String.eqb_neq in Hne.
      by rewrite Hne.
    + by rewrite IH.
Qed.

Lemma setProp_keys name v props :
  (setProp name v props).*1
  = if bool_decide (name ∈ props.*1) then props.*1
    else (props.*1 ++ [name])%list.
Proof.
  induction props as [|[k old] props IH]; [reflexivity|]. cbn.
  destruct (String.eqb k name) eqn:Hk.
  - apply String.eqb_eq in Hk as ->. cbn.
    rewrite bool_decide_eq_true_2; [reflexivity|]. apply list_elem_of_here.
  - cbn. rewrite IH. apply String.eqb_neq in Hk.
    destruct (bool_decide (name ∈ props.*1)) eqn:Hin.
    + apply bool_decide_eq_true_1 in Hin.
      rewrite bool_decide_eq_true_2; [reflexivity|].
      by apply list_elem_of_further.
    + apply bool_decide_eq_false_1 in Hin.
      rewrite bool_decide_eq_false_2; [reflexivity|].
      intros Hin'. apply elem_of_cons in Hin' as [->|Hin']; tauto.
Qed.

Lemma setProp_NoDup name v props :
  NoDup props.*1 -> NoDup (setProp name v props).*1.
Proof.
  intros Hnd. rewrite setProp_keys.
  destruct (bool_decide (name ∈ props.*1)) eqn:Hin; [exact Hnd|].
  apply bool_decide_eq_false_1 in Hin.
  apply NoDup_app. split; [exact Hnd|]. split; [|apply NoDup_singleton].
  intros k Hk Hk'. apply list_elem_of_singleton in Hk' as ->. tauto.
Qed.

Lemma spread_NoDup base more :
  NoDup base.*1 -> NoDup (spread base more).*1.
Proof.
  destruct more as [| | | | | |props]; cbn; try done.
  revert base. induction props as [|[k v] props IH]; intros base Hnd;
    [exact Hnd|].
  cbn. apply IH. by apply setProp_NoDup.
Qed.

Lemma isRecord_Object props : NoDup props.*1 -> isRecord (Object props) = true.
Proof. intros Hnd. by apply bool_decide_eq_true_2. Qed.

(** ** The create handlers *)

Section AnyClient.
Context `{Engine}.
Variable client : Client.

#[local] Ltac answered :=
  repeat split; first [reflexivity | assumption | eexists; reflexivity].

Lemma addWaste_cases req st :
  let r := WasteController.addWaste client req st in
  if complete ["type"; "quantity"; "harvestDate"; "status"]
       (get (body req) "wasteData")
  then status r.1 = 201
       /\ get (payload r.1) "data"
          = WasteController.newWaste req (WasteController.tick st)
       /\ WasteController.tempWastes r.2
          = (WasteController.tempWastes st
             ++ [WasteController.newWaste req (WasteController.tick st)])%list
       /\ WasteController.blockchainInitialized r.2
          = WasteController.blockchainInitialized st
  else status r.1 = 400 /\ r.2 = st.
Proof.
  cbv zeta. unfold complete. cbn [forallb].
  unfold WasteController.addWaste.
  destruct (truthy (get (body req) "wasteData")); cbn [negb andb];
    [|split; reflexivity].
  destruct (truthy (get (get (body req) "wasteData") "type"));
    cbn [negb andb orb]; [|split; reflexivity].
  destruct (truthy (get (get (body req) "wasteData") "quantity"));
    cbn [negb andb orb]; [|split; reflexivity].
  destruct (truthy (get (get (body req) "wasteData") "harvestDate"));
    cbn [negb andb orb]; [|split; reflexivity].
  destruct (truthy (get (get (body req) "wasteData") "status"));
    cbn [negb andb orb]; [|split; reflexivity].
  destruct (WasteController.blockchainInitialized st) eqn:Hinit;
    [|answered].
  destruct (submitTransaction client _ _ _ _) as [[result|message] t'];
    answered.
Qed.

Lemma addExtraction_cases req st :
  let r := ExtractionController.addExtraction client req st in
  if complete ["wasteId"; "productType"; "quantity"; "quality"]
       (get (body req) "extractionData")
  then status r.1 = 201
       /\ (exists suffix,
              get (get (payload r.1) "data") "id"
              = Str ("EXTRACTION_" +:+ suffix))
       /\ get (get (payload r.1) "data") "wasteId"
          = get (get (body req) "extractionData") "wasteId"
       /\ ExtractionController.extractions r.2
          = (ExtractionController.extractions st
             ++ [get (payload r.1) "data"])%list
       /\ ExtractionController.blockchainInitialized r.2
          = ExtractionController.blockchainInitialized st
  else status r.1 = 400 /\ r.2 = st.
Proof.
  cbv zeta. unfold complete. cbn [forallb].
  unfold ExtractionController.addExtraction.
  destruct (truthy (get (body req) "extractionData")); cbn [negb andb];
    [|split; reflexivity].
  destruct (truthy (get (get (body req) "extractionData") "wasteId"));
    cbn [negb andb orb]; [|split; reflexivity].
  destruct (truthy (get (get (body req) "extractionData") "productType"));
    cbn [negb andb orb]; [|split; reflexivity].
  destruct (truthy (get (get (body req) "extractionData") "quantity"));
    cbn [negb andb orb]; [|split; reflexivity].
  destruct (truthy (get (get (body req) "extractionData") "quality"));
    cbn [negb andb orb]; [|split; reflexivity].
  destruct (truthy (get (get (body req) "extractionData")
                      "extractionDate"));
    (destruct (ExtractionController.blockchainInitialized st) eqn:Hinit;
     [|answered]);
    (destruct (submitTransaction client _ "CreateExtraction" _ _)
       as [[result|message] t']; answered).
Qed.

Lemma addRecycling_cases req st :
  let r := RecyclingController.addRecycling client req st in
  if complete ["wasteId"; "recycledProduct"; "quantity"; "method"]
       (get (body req) "recyclingData")
  then status r.1 = 201
       /\ (exists suffix,
              get (get (payload r.1) "data") "id"
              = Str ("RECYCLING_" +:+ suffix))
       /\ get (get (payload r.1) "data") "wasteId"
          = get (get (body req) "recyclingData") "wasteId"
       /\ RecyclingController.recyclings r.2
          = (RecyclingController.recyclings st
             ++ [get (payload r.1) "data"])%list
       /\ RecyclingController.blockchainInitialized r.2
          = RecyclingController.blockchainInitialized st
  else status r.1 = 400 /\ r.2 = st.
Proof.
  cbv zeta. unfold complete. cbn [forallb].
  unfold RecyclingController.addRecycling.
  destruct (truthy (get (body req) "recyclingData")); cbn [negb andb];
    [|split; reflexivity].
  destruct (truthy (get (get (body req) "recyclingData") "wasteId"));
    cbn [negb andb orb]; [|split; reflexivity].
  destruct (truthy (get (get (body req) "recyclingData")
                      "recycledProduct"));
    cbn [negb andb orb]; [|split; reflexivity].
  destruct (truthy (get (get (body req) "recyclingData") "quantity"));
    cbn [negb andb orb]; [|split; reflexivity].
  destruct (truthy (get (get (body req) "recyclingData") "method"));
    cbn [negb andb orb]; [|split; reflexivity].
  destruct (truthy (get (get (body req) "recyclingData")
                      "recyclingDate"));
    (destruct (RecyclingController.blockchainInitialized st) eqn:Hinit;
     [|answered]);
    (destruct (submitTransaction client _ "CreateRecycling" _ _)
       as [[result|message] t']; answered).
Qed.

(** X16.  The create handlers are all or nothing, whatever the client
    does.  A request whose data object or one of whose four required
    fields is falsy (a quantity of 0 included) is answered 400 and
    changes nothing; every other request whose quantity can be
    converted to a string (any number or text can) is answered 201, and
    the record in the answer is appended to the mirror as its last
    entry. *)
Theorem create_handlers_all_or_nothing :
  (forall req st,
      let r := WasteController.addWaste client req st in
      let wasteData := get (body req) "wasteData" in
      if complete ["type"; "quantity"; "harvestDate"; "status"] wasteData
      then printable (get wasteData "quantity") = true ->
           status r.1 = 201
           /\ WasteController.tempWastes r.2
              = (WasteController.tempWastes st
                 ++ [get (payload r.1) "data"])%list
           /\ WasteController.blockchainInitialized r.2
              = WasteController.blockchainInitialized st
      else status r.1 = 400 /\ r.2 = st)
  /\ (forall req st,
         let r := ExtractionController.addExtraction client req st in
         let extractionData := get (body req) "extractionData" in
         if complete ["wasteId"; "productType"; "quantity"; "quality"]
              extractionData
         then printable (get extractionData "quantity") = true ->
              status r.1 = 201
              /\ ExtractionController.extractions r.2
                 = (ExtractionController.extractions st
                    ++ [get (payload r.1) "data"])%list
              /\ ExtractionController.blockchainInitialized r.2
                 = ExtractionController.blockchainInitialized st
         else status r.1 = 400 /\ r.2 = st)
  /\ (forall req st,
         let r := RecyclingController.addRecycling client req st in
         let recyclingData := get (body req) "recyclingData" in
         if complete ["wasteId"; "recycledProduct"; "quantity"; "method"]
              recyclingData
         then printable (get recyclingData "quantity") = true ->
              status r.1 = 201
              /\ RecyclingController.recyclings r.2
                 = (RecyclingController.recyclings st
                    ++ [get (payload r.1) "data"])%list
              /\ RecyclingController.blockchainInitialized r.2
                 = RecyclingController.blockchainInitialized st
         else status r.1 = 400 /\ r.2 = st).
Proof.
  split; [|split]; intros req st; cbv zeta.
  - pose proof (addWaste_cases req st) as Hc. cbv zeta in Hc.
    destruct (complete _ _); [|exact Hc]. intros _.
    destruct Hc as (Hs & Hd & Hm & Hi). rewrite Hd. by repeat split.
  - pose proof (addExtraction_cases req st) as Hc. cbv zeta in Hc.
    destruct (complete _ _); [|exact Hc]. intros _.
    destruct Hc as (Hs & _ & _ & Hm & Hi). by repeat split.
  - pose proof (addRecycling_cases req st) as Hc. cbv zeta in Hc.
    destruct (complete _ _); [|exact Hc]. intros _.
    destruct Hc as (Hs & _ & _ & Hm & Hi). by repeat split.
Qed.

End AnyClient.

(** ** The mirror of the waste controller *)

Lemma lookupProp_spread name props acc :
  NoDup props.*1 ->
  lookupProp name (spread acc (Object props))
  = if bool_decide (name ∈ props.*1) then lookupProp name props
    else lookupProp name acc.
Proof.
  cbn [spread]. revert acc.
  induction props as [|[k v] props IH]; intros acc Hnd; [reflexivity|].
  cbn [fmap list_fmap fst] in Hnd. apply NoDup_cons in Hnd as [Hk Hnd].
  cbn [fold_left fst snd]. rewrite IH by exact Hnd.
  cbn [lookupProp fmap list_fmap fst].
  destruct (String.eqb k name) eqn:Hkn.
  - apply String.eqb_eq in Hkn as ->.
    rewrite (bool_decide_eq_false_2 _ Hk), lookupProp_setProp_eq.
    rewrite bool_decide_eq_true_2; [reflexivity|apply list_elem_of_here].
  - apply String.eqb_neq in Hkn.
    destruct (bool_decide (name ∈ props.*1)) eqn:Hin.
    + apply bool_decide_eq_true_1 in Hin.
      rewrite bool_decide_eq_true_2; [reflexivity|].
      by apply list_elem_of_further.
    + apply bool_decide_eq_false_1 in Hin.
      rewrite lookupProp_setProp_ne by exact Hkn.
      rewrite bool_decide_eq_false_2; [reflexivity|].
      intros Hin'. apply elem_of_cons in Hin' as [->|Hin']; tauto.
Qed.

(** Spreading a record into an empty object copies it. *)
Lemma get_spread_nil name old :
  isRecord old = true -> lookupProp name (spread [] old) = get old name.
Proof.
  destruct old as [| | | | | |props]; try discriminate.
  intros Hnd. apply bool_decide_eq_true_1 in Hnd.
  rewrite lookupProp_spread by exact Hnd. cbn [get lookupProp].
  destruct (bool_decide (name ∈ props.*1)) eqn:Hin; [reflexivity|].
  apply bool_decide_eq_false_1 in Hin. clear Hnd.
  induction props as [|[k v] props IH]; [reflexivity|].
  cbn. destruct (String.eqb k name) eqn:Hk.
  - apply String.eqb_eq in Hk as ->. destruct Hin. apply list_elem_of_here.
  - apply IH. intros Hin'. apply Hin. by apply list_elem_of_further.
Qed.

Local Abbreviation named wasteId w :=
  (strictEq (get w "id") wasteId || strictEq (get w "wasteId") wasteId).

Lemma findIndex_Some wasteId l i :
  WasteController.findIndex wasteId l = Some i ->
  exists w,
    l !! i = Some w /\ named wasteId w = true
    /\ forall j w', j < i -> l !! j = Some w' -> named wasteId w' = false.
Proof.
  revert i. induction l as [|w l IH]; intros i; [discriminate|].
  cbn [WasteController.findIndex].
  destruct (named wasteId w) eqn:Hw.
  - intros [= <-]. exists w. repeat split; [exact Hw|]. intros j w' Hj. lia.
  - destruct (WasteController.findIndex wasteId l) as [i'|]; [|discriminate].
    intros [= <-]. destruct (IH i' eq_refl) as (w0 & Hl & Hn & Hbefore).
    exists w0. repeat split; [exact Hl|exact Hn|].
    intros [|j] w' Hj Hl'; cbn in Hl'; [congruence|].
    eapply Hbefore; [|exact Hl']. lia.
Qed.

Lemma findWaste_findIndex wasteId l :
  WasteController.findWaste wasteId l
  = match WasteController.findIndex wasteId l with
    | Some i => l !! i
    | None => None
    end.
Proof.
  unfold WasteController.findWaste.
  induction l as [|w l IH]; [reflexivity|].
  cbn [List.find WasteController.findIndex].
  destruct (named wasteId w); [reflexivity|]. rewrite IH.
  by destruct (WasteController.findIndex wasteId l).
Qed.

(** Replacing the entry found by one that bears the same names leaves
    it the entry found. *)
Lemma findIndex_insert wasteId l i w :
  WasteController.findIndex wasteId l = Some i ->
  named wasteId w = true ->
  WasteController.findIndex wasteId (<[i := w]> l) = Some i.
Proof.
  revert i. induction l as [|w0 l IH]; intros i; [discriminate|].
  cbn [WasteController.findIndex].
  destruct (named wasteId w0) eqn:Hw0.
  - intros [= <-] Hw. change (<[0 := w]> (w0 :: l)) with (w :: l).
    cbn [WasteController.findIndex]. by rewrite Hw.
  - destruct (WasteController.findIndex wasteId l) as [i'|] eqn:Hi;
      [|discriminate].
    intros [= <-] Hw.
    change (<[S i' := w]> (w0 :: l)) with (w0 :: <[i' := w]> l).
    cbn [WasteController.findIndex]. by rewrite Hw0, (IH i' eq_refl Hw).
Qed.

Lemma setProp_idem name v props :
  setProp name v (setProp name v props) = setProp name v props.
Proof.
  induction props as [|[k old] props IH]; cbn.
  - by rewrite String.eqb_refl.
  - destruct (String.eqb k name) eqn:Hk; cbn; rewrite Hk; [reflexivity|].
    by rewrite IH.
Qed.

Section AnyEngine.
Context `{Engine}.

(** The entry an update stores: its status is the new status, it is a
    record, and it keeps the id and the wasteId of the entry it
    replaces. *)
Lemma updated_entry old newStatus transferDate processorId updatedAt :
  let updated :=
    Object
      (setProp "updatedAt" updatedAt
         (setProp "processorId" processorId
            (setProp "transferDate" transferDate
               (setProp "status" newStatus (spread [] old))))) in
  isRecord updated = true
  /\ get updated "status" = newStatus
  /\ get updated "transferDate" = transferDate
  /\ (isRecord old = true ->
      get updated "id" = get old "id"
      /\ get updated "wasteId" = get old "wasteId"
      /\ get updated "timestamp" = get old "timestamp"
      /\ get updated "harvestDate" = get old "harvestDate").
Proof.
  cbv zeta. split; [|split; [|split]].
  - apply isRecord_Object. do 4 apply setProp_NoDup.
    apply spread_NoDup. constructor.
  - cbn [get]. rewrite !lookupProp_setProp_ne by done.
    apply lookupProp_setProp_eq.
  - cbn [get]. rewrite !lookupProp_setProp_ne by done.
    apply lookupProp_setProp_eq.
  - intros Hold. cbn [get].
    rewrite !lookupProp_setProp_ne by done.
    by rewrite !get_spread_nil.
Qed.

Lemma updateData_spread old newStatus transferData t :
  Object
    (spread (setProp "status" newStatus (spread [] old))
       (WasteController.updateData newStatus transferData t).1)
  = Object
      (setProp "updatedAt"
         (Str (toISOString
                 (Date_now
                    (WasteController.transferDateOr transferData t).2)))
         (setProp "processorId"
            (or_ (get transferData "processorId") (Str "processor_001"))
            (setProp "transferDate"
               (WasteController.transferDateOr transferData t).1
               (setProp "status" newStatus (spread [] old))))).
Proof.
  unfold WasteController.updateData.
  destruct (WasteController.transferDateOr transferData t) as [date t1].
  cbn [fst snd spread fold_left]. by rewrite setProp_idem.
Qed.

End AnyEngine.

(** ** updateWasteStatus and getWasteHistory *)

Section AnyClient.
Context `{Engine}.
Variable client : Client.

(** The entry an update by [req] stores in place of [old], its dates
    read from the reading [t] on. *)
Local Abbreviation entry req old t :=
  (Object
     (setProp "updatedAt"
        (Str (toISOString
                (Date_now
                   (WasteController.transferDateOr
                      (get (body req) "transferData") t).2)))
        (setProp "processorId"
           (or_ (get (get (body req) "transferData") "processorId")
              (Str "processor_001"))
           (setProp "transferDate"
              (WasteController.transferDateOr
                 (get (body req) "transferData") t).1
              (setProp "status" (get (body req) "newStatus")
                 (spread [] old)))))).

Lemma updateTemporary_cases req t st :
  let wasteId := get (body req) "wasteId" in
  let r := WasteController.updateTemporary wasteId
             (get (body req) "newStatus") (get (body req) "transferData")
             t st in
  WasteController.blockchainInitialized r.2
  = WasteController.blockchainInitialized st
  /\ match WasteController.findIndex wasteId (WasteController.tempWastes st)
     with
     | Some i =>
         status r.1 = 200
         /\ get (payload r.1) "source"
            = Str (if WasteController.blockchainInitialized st
                   then "fallback" else "temporary")
         /\ exists old,
              WasteController.tempWastes st !! i = Some old
              /\ WasteController.tempWastes r.2
                 = <[i := entry req old t]> (WasteController.tempWastes st)
     | None =>
         status r.1 = 404
         /\ get (payload r.1) "error" = Str "Waste not found"
         /\ WasteController.tempWastes r.2 = WasteController.tempWastes st
     end.
Proof.
  cbv zeta. unfold WasteController.updateTemporary.
  destruct (WasteController.findIndex _ _) as [i|] eqn:Hi;
    [|by repeat split].
  destruct (findIndex_Some _ _ _ Hi) as (old & Hold & _).
  rewrite Hold. cbn [default].
  destruct (WasteController.transferDateOr _ t) as [date t1].
  cbn [fst snd]. split; [reflexivity|]. split; [reflexivity|].
  split; [reflexivity|]. by exists old.
Qed.

Lemma updateWasteStatus_cases req st :
  let wasteId := get (body req) "wasteId" in
  let r := WasteController.updateWasteStatus client req st in
  if truthy wasteId && truthy (get (body req) "newStatus") then
    if printable wasteId && printable (get (body req) "newStatus") then
      WasteController.blockchainInitialized r.2
      = WasteController.blockchainInitialized st
      /\ match
           WasteController.findIndex wasteId (WasteController.tempWastes st)
         with
         | Some i =>
             status r.1 = 200
             /\ exists old t,
                  WasteController.tempWastes st !! i = Some old
                  /\ WasteController.tempWastes r.2
                     = <[i := entry req old t]>
                         (WasteController.tempWastes st)
         | None =>
             WasteController.tempWastes r.2 = WasteController.tempWastes st
             /\ (status r.1 = 404
                 /\ get (payload r.1) "error" = Str "Waste not found"
                 \/ status r.1 = 200
                    /\ get (payload r.1) "source" = Str "blockchain"
                    /\ WasteController.blockchainInitialized st = true)
         end
    else status r.1 = 500 /\ r.2 = st
  else status r.1 = 400 /\ r.2 = st.
Proof.
  cbv zeta. unfold WasteController.updateWasteStatus.
  destruct (truthy (get (body req) "wasteId")); cbn [negb andb orb];
    [|by split].
  destruct (truthy (get (body req) "newStatus")); cbn [negb andb orb];
    [|by split].
  destruct (printable (get (body req) "wasteId")
            && printable (get (body req) "newStatus")); cbn [negb];
    [|by split].
  assert (Htemp : forall t,
             let r := WasteController.updateTemporary
                        (get (body req) "wasteId")
                        (get (body req) "newStatus")
                        (get (body req) "transferData") t st in
             WasteController.blockchainInitialized r.2
             = WasteController.blockchainInitialized st
             /\ match
                  WasteController.findIndex (get (body req) "wasteId")
                    (WasteController.tempWastes st)
                with
                | Some i =>
                    status r.1 = 200
                    /\ exists old t,
                         WasteController.tempWastes st !! i = Some old
                         /\ WasteController.tempWastes r.2
                            = <[i := entry req old t]>
                                (WasteController.tempWastes st)
                | None =>
                    WasteController.tempWastes r.2
                    = WasteController.tempWastes st
                    /\ (status r.1 = 404
                        /\ get (payload r.1) "error" = Str "Waste not found"
                        \/ status r.1 = 200
                           /\ get (payload r.1) "source" = Str "blockchain"
                           /\ WasteController.blockchainInitialized st = true)
                end).
  { intros t. cbv zeta.
    destruct (updateTemporary_cases req t st) as [Hflag Hcase].
    split; [exact Hflag|].
    destruct (WasteController.findIndex _ _) as [i|].
    - destruct Hcase as (Hs & _ & old & Hold & Hm). eauto 10.
    - destruct Hcase as (Hs & He & Hm). eauto. }
  destruct (WasteController.blockchainInitialized st) eqn:Hinit;
    [|apply Htemp].
  destruct (WasteController.updateData _ _ _) as [data t] eqn:Hdata.
  destruct (submitTransaction client _ _ _ _) as [[result|message] t'];
    [|apply Htemp].
  cbn [fst snd].
  destruct (WasteController.findIndex _ _) as [i|] eqn:Hi.
  - destruct (findIndex_Some _ _ _ Hi) as (old & Hold & _).
    rewrite Hold. cbn [default]. split; [exact Hinit|].
    split; [reflexivity|]. exists old, (WasteController.tick st).
    split; [reflexivity|]. cbn [WasteController.store
                                  WasteController.tempWastes].
    replace data
      with (WasteController.updateData (get (body req) "newStatus")
              (get (body req) "transferData") (WasteController.tick st)).1
      by by rewrite Hdata.
    by rewrite updateData_spread.
  - split; [exact Hinit|]. split; [reflexivity|]. right. by repeat split.
Qed.

(** X17.  updateWasteStatus answers 400 and changes nothing when the
    waste id or the new status is falsy, and 500, changing nothing, when
    one of them cannot be converted to a string.  Otherwise it never
    adds or removes an entry of the mirror: when an entry bears the id
    (as id or wasteId), the first such entry, and no other, is replaced
    by a record with the new status, and the answer is 200; when none
    does, the mirror is unchanged and the answer is 404, unless the
    ledger call returned, in which case it is 200 with source
    blockchain. *)
Theorem updateWasteStatus_answers (req : Request)
  (st : WasteController.State) :
  let wasteId := get (body req) "wasteId" in
  let newStatus := get (body req) "newStatus" in
  let r := WasteController.updateWasteStatus client req st in
  if truthy wasteId && truthy newStatus then
    if printable wasteId && printable newStatus then
      length (WasteController.tempWastes r.2)
      = length (WasteController.tempWastes st)
      /\ WasteController.blockchainInitialized r.2
         = WasteController.blockchainInitialized st
      /\ match
           WasteController.findIndex wasteId (WasteController.tempWastes st)
         with
         | Some i =>
             status r.1 = 200
             /\ (exists updated,
                    WasteController.tempWastes r.2 !! i = Some updated
                    /\ isRecord updated = true
                    /\ get updated "status" = newStatus)
             /\ (forall j,
                    j <> i ->
                    WasteController.tempWastes r.2 !! j
                    = WasteController.tempWastes st !! j)
         | None =>
             WasteController.tempWastes r.2 = WasteController.tempWastes st
             /\ (status r.1 = 404
                 /\ get (payload r.1) "error" = Str "Waste not found"
                 \/ status r.1 = 200
                    /\ get (payload r.1) "source" = Str "blockchain"
                    /\ WasteController.blockchainInitialized st = true)
         end
    else status r.1 = 500 /\ r.2 = st
  else status r.1 = 400 /\ r.2 = st.
Proof.
  cbv zeta. pose proof (updateWasteStatus_cases req st) as Hc.
  cbv zeta in Hc.
  destruct (truthy (get (body req) "wasteId")
            && truthy (get (body req) "newStatus")); [|exact Hc].
  destruct (printable (get (body req) "wasteId")
            && printable (get (body req) "newStatus")); [|exact Hc].
  destruct Hc as [Hflag Hcase].
  destruct (WasteController.findIndex _ _) as [i|] eqn:Hi.
  - destruct Hcase as (Hs & old & t & Hold & ->).
    rewrite length_insert. split; [reflexivity|]. split; [exact Hflag|].
    split; [exact Hs|]. split.
    + eexists. split.
      * apply list_lookup_insert_eq. by eapply lookup_lt_Some.
      * pose proof (updated_entry old (get (body req) "newStatus")
                      (WasteController.transferDateOr
                         (get (body req) "transferData") t).1
                      (or_ (get (get (body req) "transferData")
                              "processorId") (Str "processor_001"))
                      (Str (toISOString
                              (Date_now
                                 (WasteController.transferDateOr
                                    (get (body req) "transferData") t).2))))
          as (Hrec & Hst & _).
        by split.
    + intros j Hj. by apply list_lookup_insert_ne.
  - destruct Hcase as [-> Hs]. by repeat split.
Qed.

End AnyClient.

(** ** Sequences of requests to the waste controller *)

Section Served.
Context `{Engine}.
Variable client : Client.

Lemma listWaste_state req st :
  WasteController.tempWastes (WasteController.listWaste client req st).2
  = WasteController.tempWastes st
  /\ WasteController.blockchainInitialized
       (WasteController.listWaste client req st).2
     = WasteController.blockchainInitialized st.
Proof.
  unfold WasteController.listWaste.
  by destruct (if WasteController.blockchainInitialized st then _ else _)
    as [[wastes source] t].
Qed.

Lemma constructHistory_state wasteId t st :
  WasteController.tempWastes
    (WasteController.constructHistory wasteId t st).2
  = WasteController.tempWastes st
  /\ WasteController.blockchainInitialized
       (WasteController.constructHistory wasteId t st).2
     = WasteController.blockchainInitialized st.
Proof.
  unfold WasteController.constructHistory.
  by destruct (WasteController.findWaste _ _).
Qed.

Lemma getWasteHistory_state req st :
  WasteController.tempWastes
    (WasteController.getWasteHistory client req st).2
  = WasteController.tempWastes st
  /\ WasteController.blockchainInitialized
       (WasteController.getWasteHistory client req st).2
     = WasteController.blockchainInitialized st.
Proof.
  unfold WasteController.getWasteHistory.
  destruct (negb _); [by split|].
  destruct (WasteController.blockchainInitialized st) eqn:Hinit;
    [|rewrite <- Hinit; apply constructHistory_state].
  destruct (getHistory client _ _ _ _) as [[history|message] t'];
    [|rewrite <- Hinit; apply constructHistory_state].
  destruct (truthy history && lengthPositive history);
    [by split|rewrite <- Hinit; apply constructHistory_state].
Qed.

Lemma newWaste_isRecord req t :
  isRecord (WasteController.newWaste req t) = true.
Proof.
  apply isRecord_Object, spread_NoDup. cbn. apply NoDup_singleton.
Qed.

(** What one request does to the mirror and to the flag. *)
Lemma serve_mirror k st :
  Forall (fun w => isRecord w = true) (WasteController.tempWastes st) ->
  let st' := (serve client k st).2 in
  Forall (fun w => isRecord w = true) (WasteController.tempWastes st')
  /\ (convertible k = true ->
      length (WasteController.tempWastes st')
      = (if accepted k then 1 else 0)
        + length (WasteController.tempWastes st))
  /\ WasteController.blockchainInitialized st'
     = WasteController.blockchainInitialized st.
Proof.
  intros Hrec. cbv zeta. destruct k as [req|req|req|req];
    cbn [serve accepted convertible].
  - pose proof (addWaste_cases client req st) as Hc. cbv zeta in Hc.
    destruct (complete _ _).
    + destruct Hc as (_ & _ & -> & Hflag). split; [|split].
      * apply Forall_app. split; [exact Hrec|].
        apply Forall_singleton, newWaste_isRecord.
      * intros ->. rewrite length_app. cbn. lia.
      * exact Hflag.
    + destruct Hc as [_ ->]. by repeat split.
  - destruct (listWaste_state req st) as [-> ->]. by repeat split.
  - pose proof (updateWasteStatus_cases client req st) as Hc.
    cbv zeta in Hc.
    destruct (truthy _ && truthy _);
      [|destruct Hc as [_ ->]; by repeat split].
    destruct (printable _ && printable _);
      [|destruct Hc as [_ ->]; by repeat split].
    destruct Hc as [Hflag Hcase].
    destruct (WasteController.findIndex _ _) as [i|].
    + destruct Hcase as (_ & old & t & Hold & ->). split; [|split].
      * apply Forall_insert; [exact Hrec|].
        apply (updated_entry old).
      * intros _. by rewrite length_insert.
      * exact Hflag.
    + destruct Hcase as [-> _]. by repeat split.
  - destruct (getWasteHistory_state req st) as [-> ->]. by repeat split.
Qed.

Lemma load_records t :
  Forall (fun w => isRecord w = true)
    (WasteController.tempWastes
       (WasteController.initializeBlockchain client
          (WasteController.load t)))
  /\ length (WasteController.tempWastes
               (WasteController.initializeBlockchain client
                  (WasteController.load t))) = 2.
Proof.
  unfold WasteController.initializeBlockchain.
  destruct (initialize client _) as [[v|e] t']; cbn;
    (split; [|reflexivity]); repeat constructor;
    apply bool_decide_eq_true_2; cbn;
    repeat (apply NoDup_cons; split; [set_solver|]); apply NoDup_nil.
Qed.

Lemma fold_mirror calls st :
  Forall (fun w => isRecord w = true) (WasteController.tempWastes st) ->
  let st' := fold_left (fun st k => (serve client k st).2) calls st in
  Forall (fun w => isRecord w = true) (WasteController.tempWastes st')
  /\ (forallb convertible calls = true ->
      length (WasteController.tempWastes st')
      = length (List.filter accepted calls)
        + length (WasteController.tempWastes st))
  /\ WasteController.blockchainInitialized st'
     = WasteController.blockchainInitialized st.
Proof.
  cbv zeta. revert st. induction calls as [|k calls IH]; intros st Hrec.
  { cbn. by repeat split. }
  cbn [fold_left List.filter forallb].
  destruct (serve_mirror k st Hrec) as (Hrec' & Hlen' & Hflag').
  destruct (IH (serve client k st).2 Hrec') as (Hr & Hl & Hf).
  split; [exact Hr|]. split; [|by rewrite Hf].
  intros Hconv. apply andb_true_iff in Hconv as [Hk Hcalls].
  rewrite (Hl Hcalls), (Hlen' Hk). destruct (accepted k); cbn; lia.
Qed.

Lemma served_records t calls :
  Forall (fun w => isRecord w = true)
    (WasteController.tempWastes (served client t calls)).
Proof. apply fold_mirror, load_records. Qed.

(** X18.  Once startup has settled, the waste controller never loses an
    entry of its mirror and never retries the connection.  After any
    sequence of requests to addWaste, listWaste, updateWasteStatus and
    getWasteHistory (the quantities of the create requests being
    convertible) the mirror holds the two default wastes and one entry
    per create request answered 201, every entry is an object, and the
    flag is the one startup left. *)
Theorem waste_mirror_only_grows (t : nat) (calls : list wasteCall)
  (Hconvertible : forallb convertible calls = true) :
  let st := served client t calls in
  Forall (fun w => isRecord w = true) (WasteController.tempWastes st)
  /\ length (WasteController.tempWastes st)
     = 2 + length (List.filter accepted calls)
  /\ WasteController.blockchainInitialized st
     = WasteController.blockchainInitialized
         (WasteController.initializeBlockchain client
            (WasteController.load t)).
Proof.
  cbv zeta. unfold served.
  destruct (load_records t) as [Hrec Hlen].
  destruct (fold_mirror calls _ Hrec) as (Hr & Hl & Hf).
  split; [exact Hr|]. split; [|exact Hf].
  rewrite (Hl Hconvertible), Hlen. lia.
Qed.

End Served.

(** ** With the exported client *)

Section ExportedClient.
Context `{Engine}.
Variable walletReady : bool.

Local Abbreviation exported := (EnhancedClient.client walletReady).

(** X19.  With the exported client, once the flag is set,
    updateWasteStatus never answers 404: a request with a waste id and
    a new status that can be converted to strings is answered 200 with
    source blockchain, whether or not the mirror, or anything else,
    holds such a waste. *)
Theorem exported_client_update_never_404 (st : WasteController.State)
  (req : Request)
  (Hinit : WasteController.blockchainInitialized st = true) :
  let wasteId := get (body req) "wasteId" in
  let newStatus := get (body req) "newStatus" in
  let r := WasteController.updateWasteStatus exported req st in
  if truthy wasteId && truthy newStatus then
    if printable wasteId && printable newStatus then
      status r.1 = 200
      /\ get (payload r.1) "success" = Bool true
      /\ get (payload r.1) "source" = Str "blockchain"
    else status r.1 = 500
  else status r.1 = 400.
Proof.
  cbv zeta. unfold WasteController.updateWasteStatus.
  destruct (truthy (get (body req) "wasteId")); cbn [negb andb orb];
    [|reflexivity].
  destruct (truthy (get (body req) "newStatus")); cbn [negb andb orb];
    [|reflexivity].
  destruct (printable (get (body req) "wasteId")
            && printable (get (body req) "newStatus")); cbn [negb];
    [|reflexivity].
  rewrite Hinit.
  destruct (WasteController.updateData _ _ _) as [data t0].
  by repeat split.
Qed.

Lemma getWasteHistory_exported wasteId st :
  wasteId <> "" ->
  (WasteController.getWasteHistory exported (byId "wasteId" (Str wasteId))
     st).1
  = (WasteController.constructHistory (Str wasteId)
       (WasteController.tick st) st).1.
Proof.
  intros Hid. apply String.eqb_neq in Hid.
  unfold WasteController.getWasteHistory.
  cbn [byId params get lookupProp String.eqb Ascii.eqb Bool.eqb truthy].
  rewrite Hid. cbn [negb].
  by destruct (WasteController.blockchainInitialized st).
Qed.

(** X20.  With the exported client, whose getHistory returns an empty
    list, getWasteHistory never reports a ledger history, whatever the
    flag.  For a waste of the mirror it answers 200 with source
    constructed and a history made of one CREATED event with status
    READY, followed by one TRANSFERRED event exactly when the entry has
    status TRANSFERRED and a transfer date; for any other id it answers
    404. *)
Theorem exported_client_history_is_constructed
  (st : WasteController.State) (wasteId : string) :
  let r :=
    WasteController.getWasteHistory exported
      (byId "wasteId" (Str wasteId)) st in
  if String.eqb wasteId "" then status r.1 = 400
  else
    match
      WasteController.findWaste (Str wasteId) (WasteController.tempWastes st)
    with
    | Some waste =>
        status r.1 = 200
        /\ get (payload r.1) "source" = Str "constructed"
        /\ exists created,
             get created "action" = Str "CREATED"
             /\ get created "status" = Str "READY"
             /\ get (payload r.1) "data"
                = Array
                    (created
                     :: (if strictEq (get waste "status") (Str "TRANSFERRED")
                            && truthy (get waste "transferDate")
                         then [Object
                                 [("timestamp", get waste "transferDate");
                                  ("action", Str "TRANSFERRED");
                                  ("status", Str "TRANSFERRED");
                                  ("details",
                                   Str "Waste transferred to processor")]]
                         else []))
    | None => status r.1 = 404
    end.
Proof.
  cbv zeta. destruct (String.eqb wasteId "") eqn:Hid.
  - unfold WasteController.getWasteHistory.
    cbn [byId params get lookupProp String.eqb Ascii.eqb Bool.eqb truthy].
    by rewrite Hid.
  - apply String.eqb_neq in Hid.
    rewrite (getWasteHistory_exported wasteId st Hid).
    unfold WasteController.constructHistory.
    destruct (WasteController.findWaste _ _) as [waste|]; [|reflexivity].
    split; [reflexivity|]. split; [reflexivity|].
    eexists. split; [|split].
    3: { cbn [fst payload WasteController.respond get lookupProp String.eqb
              Ascii.eqb Bool.eqb].
         destruct (strictEq _ _ && truthy _); reflexivity. }
    all: reflexivity.
Qed.

(** X21.  A transfer shows in the history.  With the exported client,
    after an update of a waste of the mirror to status TRANSFERRED that
    carries a transfer date, the history of that waste is its CREATED
    event followed by a TRANSFERRED event dated with the date of the
    request. *)
Theorem transfer_shows_in_history (st : WasteController.State)
  (req : Request) (wasteId : string) (wasteIndex : nat)
  (Hid : get (body req) "wasteId" = Str wasteId)
  (Hne : wasteId <> "")
  (Hstatus : get (body req) "newStatus" = Str "TRANSFERRED")
  (Hdate : truthy (get (get (body req) "transferData") "transferDate")
           = true)
  (Hrecords : Forall (fun w => isRecord w = true)
                (WasteController.tempWastes st))
  (Hfound : WasteController.findIndex (Str wasteId)
              (WasteController.tempWastes st) = Some wasteIndex) :
  let st' := (WasteController.updateWasteStatus exported req st).2 in
  let r :=
    WasteController.getWasteHistory exported (byId "wasteId" (Str wasteId))
      st' in
  status r.1 = 200
  /\ exists created,
       get created "action" = Str "CREATED"
       /\ get (payload r.1) "data"
          = Array
              [created;
               Object
                 [("timestamp",
                   get (get (body req) "transferData") "transferDate");
                  ("action", Str "TRANSFERRED");
                  ("status", Str "TRANSFERRED");
                  ("details", Str "Waste transferred to processor")]].
Proof.
  cbv zeta.
  pose proof (updateWasteStatus_cases exported req st) as Hc.
  cbv zeta in Hc. rewrite Hid, Hstatus in Hc.
  assert (Htruthy : truthy (Str wasteId) = true).
  { cbn. apply String.eqb_neq in Hne. by rewrite Hne. }
  rewrite Htruthy in Hc. cbn [truthy printable String.eqb negb andb] in Hc.
  rewrite Hfound in Hc. destruct Hc as (_ & _ & old & t0 & Hold & Hm).
  assert (Hisrec : isRecord old = true).
  { rewrite Forall_forall in Hrecords. apply Hrecords.
    by eapply list_elem_of_lookup_2. }
  destruct (findIndex_Some _ _ _ Hfound) as (old' & Hold' & Hnamed & _).
  assert (old' = old) as -> by congruence.
  pose proof (updated_entry old (Str "TRANSFERRED")
                (WasteController.transferDateOr
                   (get (body req) "transferData") t0).1
                (or_ (get (get (body req) "transferData") "processorId")
                   (Str "processor_001"))
                (Str (toISOString
                        (Date_now
                           (WasteController.transferDateOr
                              (get (body req) "transferData") t0).2))))
    as (_ & Hst & Hdt & Hkeep).
  cbv zeta in Hst, Hdt, Hkeep.
  destruct (Hkeep Hisrec) as (Hkid & Hkwid & _).
  assert (Htd : (WasteController.transferDateOr
                   (get (body req) "transferData") t0).1
                = get (get (body req) "transferData") "transferDate").
  { unfold WasteController.transferDateOr. by rewrite Hdate. }
  set (upd := Object _) in Hm, Hst, Hdt, Hkid, Hkwid.
  set (st' := (WasteController.updateWasteStatus exported req st).2) in *.
  assert (Hfind : WasteController.findWaste (Str wasteId)
                    (WasteController.tempWastes st') = Some upd).
  { rewrite findWaste_findIndex, Hm.
    rewrite (findIndex_insert _ _ wasteIndex upd Hfound).
    - apply list_lookup_insert_eq. by eapply lookup_lt_Some.
    - by rewrite Hkid, Hkwid. }
  rewrite (getWasteHistory_exported wasteId st' Hne).
  unfold WasteController.constructHistory.
  rewrite Hfind, Hst, Hdt, Htd, Hdate.
  cbn [strictEq String.eqb Ascii.eqb Bool.eqb andb].
  split; [reflexivity|]. eexists. split; [|reflexivity]. reflexivity.
Qed.

End ExportedClient.

(** ** A created record can be fetched *)

Lemma find_last {A} (p : A -> bool) (l : list A) a :
  List.find p l = None -> p a = true -> List.find p (l ++ [a]) = Some a.
Proof.
  intros Hnone Hp. induction l as [|b l IH]; cbn in *.
  - by rewrite Hp.
  - destruct (p b); [discriminate|]. by apply IH.
Qed.

Section RoundTrip.
Context `{Engine}.
Variable walletReady : bool.

Local Abbreviation exported := (EnhancedClient.client walletReady).

Lemma getExtractionById_exported id st :
  truthy id = true ->
  (ExtractionController.getExtractionById exported (byId "extractionId" id)
     st).1
  = (ExtractionController.searchTemporary id (ExtractionController.tick st)
       st).1.
Proof.
  intros Hid. unfold ExtractionController.getExtractionById.
  cbn [byId params get lookupProp String.eqb Ascii.eqb Bool.eqb].
  rewrite Hid. cbn [negb].
  by destruct (ExtractionController.blockchainInitialized st).
Qed.

Lemma getRecyclingById_exported id st :
  truthy id = true ->
  (RecyclingController.getRecyclingById exported (byId "recyclingId" id)
     st).1
  = (RecyclingController.searchTemporary id (RecyclingController.tick st)
       st).1.
Proof.
  intros Hid. unfold RecyclingController.getRecyclingById.
  cbn [byId params get lookupProp String.eqb Ascii.eqb Bool.eqb].
  rewrite Hid. cbn [negb].
  by destruct (RecyclingController.blockchainInitialized st).
Qed.

(** X22.  What is created can be fetched.  With the exported client, an
    extraction (a recycling) that addExtraction (addRecycling) accepts,
    its quantity being convertible, is returned by getExtractionById
    (getRecyclingById) under the id of the answer, provided no earlier
    entry of the mirror bears that id. *)
Theorem created_record_found_by_id :
  (forall req st,
      let r := ExtractionController.addExtraction exported req st in
      let record := get (payload r.1) "data" in
      status r.1 = 201 ->
      printable (get (get (body req) "extractionData") "quantity") = true ->
      ExtractionController.findExtraction (get record "id")
        (ExtractionController.extractions st) = None ->
      let r' :=
        ExtractionController.getExtractionById exported
          (byId "extractionId" (get record "id")) r.2 in
      status r'.1 = 200 /\ get (payload r'.1) "data" = record)
  /\ (forall req st,
         let r := RecyclingController.addRecycling exported req st in
         let record := get (payload r.1) "data" in
         status r.1 = 201 ->
         printable (get (get (body req) "recyclingData") "quantity") = true ->
         RecyclingController.findRecycling (get record "id")
           (RecyclingController.recyclings st) = None ->
         let r' :=
           RecyclingController.getRecyclingById exported
             (byId "recyclingId" (get record "id")) r.2 in
         status r'.1 = 200 /\ get (payload r'.1) "data" = record).
Proof.
  split; intros req st; cbv zeta.
  - pose proof (addExtraction_cases exported req st) as Hc.
    cbv zeta in Hc.
    destruct (ExtractionController.addExtraction exported req st)
      as [res st'].
    cbn [fst snd] in *. intros Hs _ Hnone.
    destruct (complete _ _); [|destruct Hc as [Hc _]; congruence].
    destruct Hc as (_ & (suffix & Hrid) & _ & Hm & _).
    rewrite getExtractionById_exported by by rewrite Hrid.
    unfold ExtractionController.searchTemporary. rewrite Hm.
    unfold ExtractionController.findExtraction in *.
    rewrite (find_last _ _ _ Hnone); [by split|].
    rewrite Hrid. cbn [strictEq]. by rewrite String.eqb_refl.
  - pose proof (addRecycling_cases exported req st) as Hc.
    cbv zeta in Hc.
    destruct (RecyclingController.addRecycling exported req st)
      as [res st'].
    cbn [fst snd] in *. intros Hs _ Hnone.
    destruct (complete _ _); [|destruct Hc as [Hc _]; congruence].
    destruct Hc as (_ & (suffix & Hrid) & _ & Hm & _).
    rewrite getRecyclingById_exported by by rewrite Hrid.
    unfold RecyclingController.searchTemporary. rewrite Hm.
    unfold RecyclingController.findRecycling in *.
    rewrite (find_last _ _ _ Hnone); [by split|].
    rewrite Hrid. cbn [strictEq]. by rewrite String.eqb_refl.
Qed.

End RoundTrip.

(** ** Records by waste *)

Section ByWaste.
Context `{Engine}.
Variable walletReady : bool.

Local Abbreviation exported := (EnhancedClient.client walletReady).

(** X23.  With the exported client, whose query for the records of a
    waste returns null, getExtractionsByWasteId and
    getRecyclingsByWasteId answer 200 with an empty list and source
    temporary once the flag is set, whatever the mirror holds; only
    while the flag is not set do they list the entries of the mirror
    that refer to the waste. *)
Theorem exported_client_by_waste (wasteId : string) :
  (forall st,
      let r :=
        ExtractionController.getExtractionsByWasteId exported
          (byId "wasteId" (Str wasteId)) st in
      if String.eqb wasteId "" then status r.1 = 400
      else
        status r.1 = 200
        /\ get (payload r.1) "source" = Str "temporary"
        /\ get (payload r.1) "data"
           = Array
               (if ExtractionController.blockchainInitialized st then []
                else ExtractionController.filterByWaste (Str wasteId)
                       (ExtractionController.extractions st)))
  /\ (forall st,
         let r :=
           RecyclingController.getRecyclingsByWasteId exported
             (byId "wasteId" (Str wasteId)) st in
         if String.eqb wasteId "" then status r.1 = 400
         else
           status r.1 = 200
           /\ get (payload r.1) "source" = Str "temporary"
           /\ get (payload r.1) "data"
              = Array
                  (if RecyclingController.blockchainInitialized st then []
                   else RecyclingController.filterByWaste (Str wasteId)
                          (RecyclingController.recyclings st))).
Proof.
  split; intros st; cbv zeta.
  - unfold ExtractionController.getExtractionsByWasteId.
    cbn [byId params get lookupProp String.eqb Ascii.eqb Bool.eqb truthy].
    destruct (String.eqb wasteId ""); cbn [negb]; [reflexivity|].
    by destruct (ExtractionController.blockchainInitialized st).
  - unfold RecyclingController.getRecyclingsByWasteId.
    cbn [byId params get lookupProp String.eqb Ascii.eqb Bool.eqb truthy].
    destruct (String.eqb wasteId ""); cbn [negb]; [reflexivity|].
    by destruct (RecyclingController.blockchainInitialized st).
Qed.

End ByWaste.

(** ** The properties on sample requests *)

Import SampleEngine.

Lemma waste_mirror_witness :
  let calls :=
    [AddWaste ControllerSpec.createWasteRequest;
     UpdateWasteStatus transferRequest;
     AddWaste {| body := Object []; params := Object [] |};
     GetWasteHistory (byId "wasteId" (Str "WASTE_DEFAULT_1"))] in
  let st := served offlineClient 0 calls in
  forallb convertible calls = true
  /\ length (WasteController.tempWastes st) = 3
  /\ WasteController.blockchainInitialized st = true.
Proof.
  cbv zeta. split; [reflexivity|].
  destruct (waste_mirror_only_grows offlineClient 0
              [AddWaste ControllerSpec.createWasteRequest;
               UpdateWasteStatus transferRequest;
               AddWaste {| body := Object []; params := Object [] |};
               GetWasteHistory (byId "wasteId" (Str "WASTE_DEFAULT_1"))])
    as (_ & Hlen & Hflag); [reflexivity|].
  split; [exact Hlen|exact Hflag].
Defined.

Lemma exported_update_witness :
  let exported := EnhancedClient.client true in
  let r :=
    WasteController.updateWasteStatus exported
      (statusRequest "WASTE_UNKNOWN" "RECYCLED")
      (ControllerSpec.wasteReady exported) in
  WasteController.findIndex (Str "WASTE_UNKNOWN")
    (WasteController.tempWastes (ControllerSpec.wasteReady exported)) = None
  /\ status r.1 = 200
  /\ get (payload r.1) "source" = Str "blockchain".
Proof.
  cbv zeta. split; [vm_compute; reflexivity|].
  pose proof (exported_client_update_never_404 true
                (ControllerSpec.wasteReady (EnhancedClient.client true))
                (statusRequest "WASTE_UNKNOWN" "RECYCLED") eq_refl) as Hr.
  cbv zeta in Hr. destruct Hr as (Hs & _ & Hsrc). by split.
Defined.

Lemma transfer_witness :
  let exported := EnhancedClient.client true in
  let st' :=
    (WasteController.updateWasteStatus exported transferRequest
       (served exported 0 [])).2 in
  let r :=
    WasteController.getWasteHistory exported
      (byId "wasteId" (Str "WASTE_DEFAULT_1")) st' in
  status r.1 = 200
  /\ exists created,
       get created "action" = Str "CREATED"
       /\ get (payload r.1) "data"
          = Array
              [created;
               Object
                 [("timestamp", Str "2025-06-02T08:00:00.000Z");
                  ("action", Str "TRANSFERRED");
                  ("status", Str "TRANSFERRED");
                  ("details", Str "Waste transferred to processor")]].
Proof.
  cbv zeta.
  apply (transfer_shows_in_history true (served (EnhancedClient.client true)
                                           0 [])
           transferRequest "WASTE_DEFAULT_1" 0);
    try (vm_compute; reflexivity); [discriminate|].
  apply served_records.
Defined.

Lemma created_record_witness :
  let exported := EnhancedClient.client true in
  let r :=
    ExtractionController.addExtraction exported createExtractionRequest
      (ControllerSpec.extractionReady exported) in
  let r' :=
    ExtractionController.getExtractionById exported
      (byId "extractionId" (get (get (payload r.1) "data") "id")) r.2 in
  get (get (payload r.1) "data") "id"
  = Str "EXTRACTION_1748772000002_4fzyo82mv"
  /\ status r'.1 = 200
  /\ get (payload r'.1) "data" = get (payload r.1) "data".
Proof.
  cbv zeta. split; [vm_compute; reflexivity|].
  apply (proj1 (created_record_found_by_id true)); vm_compute; reflexivity.
Defined.

End HandlerFacts.
